(** * The pipeline bootstrap [Environment] of aws-sam-cli

    A shallow embedding of
    [samcli/lib/pipeline/bootstrap/environment.py]: the [Environment]
    class, its completeness predicate, [bootstrap], [save_config],
    [save_config_safe] and the stack-name derivation, with the cloud
    backends, the terminal and the configuration store seen through the
    calls the class makes on them. *)

From Stdlib Require Import Ascii String List Bool Arith Lia.
From stdpp Require Import base option strings gmap.
From Equations Require Import Equations.
Import ListNotations.

Local Open Scope string_scope.
Local Open Scope list_scope.

Set Default Proof Using "Type".

(** ** Python values as the class handles them *)

Module Py.

(** [bool(x)] for an [Optional[str]]: [None] and the empty string are
    falsy, every other string is truthy. *)
Definition str_truthy (s : string) : bool :=
  match s with
  | EmptyString => false
  | String _ _ => true
  end.

Definition truthy (o : option string) : bool :=
  match o with
  | None => false
  | Some s => str_truthy s
  end.

(** [x or ""] for an [Optional[str]] [x]. *)
Definition or_empty (o : option string) : string :=
  match o with
  | Some s => if str_truthy s then s else ""
  | None => ""
  end.

(** Exceptions, by the part of the class hierarchy that the handlers of
    the module tell apart: [except ValueError] catches [ValueError] and
    its subclasses, [except Exception] catches every instance of
    [Exception]; [KeyboardInterrupt], [SystemExit] and [GeneratorExit]
    derive from [BaseException] only. *)
Inductive exc_kind : Type :=
| KValueError
| KException
| KBaseException.

Record pyexc : Type := PyExc {
  exc_kind_of : exc_kind;
  exc_class : string;
  exc_msg : string
}.

Definition isinstance_ValueError (e : pyexc) : bool :=
  match exc_kind_of e with
  | KValueError => true
  | _ => false
  end.

Definition isinstance_Exception (e : pyexc) : bool :=
  match exc_kind_of e with
  | KValueError | KException => true
  | KBaseException => false
  end.

Definition KeyError (k : string) : pyexc := PyExc KException "KeyError" k.
Definition TypeError (m : string) : pyexc := PyExc KException "TypeError" m.
Definition KeyboardInterrupt : pyexc := PyExc KBaseException "KeyboardInterrupt" "".

(** The outcome of a call: a value, or a raised exception. *)
Inductive result (A : Type) : Type :=
| Ok (a : A)
| Raise (e : pyexc).
Arguments Ok {A} a.
Arguments Raise {A} e.

(** Dynamically typed values: what [json.loads] returns and what a boto3
    response holds. *)
#[local] Unset Elimination Schemes.
Inductive pyval : Type :=
| VNone
| VBool (b : bool)
| VInt (n : Z)
| VStr (s : string)
| VList (l : list pyval)
| VDict (d : list (string * pyval)).
#[local] Set Elimination Schemes.

Fixpoint assoc {A : Type} (k : string) (d : list (string * A)) : option A :=
  match d with
  | [] => None
  | (k', v) :: d' => if String.eqb k k' then Some v else assoc k d'
  end.

(** [v[k]] for a string key [k]: a dict gives the value or [KeyError];
    anything else raises [TypeError]. *)
Definition getitem (v : pyval) (k : string) : result pyval :=
  match v with
  | VDict d =>
      match assoc k d with
      | Some x => Ok x
      | None => Raise (KeyError k)
      end
  | _ => Raise (TypeError "indices must be integers or object is not subscriptable")
  end.

End Py.
Import Py.

(** ** [re.sub("[^0-9a-zA-Z]+", "-", name)] *)

Module Regex.

(** The character class [0-9a-zA-Z]. *)
Definition in_class_alnum (c : ascii) : bool :=
  let n := nat_of_ascii c in
  (Nat.leb 48 n && Nat.leb n 57) || (Nat.leb 97 n && Nat.leb n 122)
  || (Nat.leb 65 n && Nat.leb n 90).

(** The greedy match of [[^0-9a-zA-Z]*] at the head of [s]: what is left
    of [s] after the longest prefix of characters outside the class. *)
Fixpoint skip_non_alnum (s : string) : string :=
  match s with
  | EmptyString => EmptyString
  | String c s' => if in_class_alnum c then s else skip_non_alnum s'
  end.

(** [re.sub] with the pattern [[^0-9a-zA-Z]+] and the replacement ["-"]:
    scanning from the left, a position where the pattern matches is
    replaced, whole greedy match at once, by the replacement; a character
    where it does not match is copied. *)
Equations? re_sub_non_alnum (s : string) : string by wf (String.length s) lt :=
  re_sub_non_alnum EmptyString := EmptyString;
  re_sub_non_alnum (String c s') with in_class_alnum c => {
    | true := String c (re_sub_non_alnum s');
    | false := String "-" (re_sub_non_alnum (skip_non_alnum s')) }.
Proof.
  all: simpl; try lia.
  assert (Hskip : forall t, String.length (skip_non_alnum t) <= String.length t).
  { induction t as [|a t IH]; simpl; [lia|].
    destruct (in_class_alnum a); simpl; lia. }
  specialize (Hskip s'). lia.
Qed.

End Regex.
Import Regex.


(** ** The data model *)

(** A resource descriptor.  [is_user_provided] is an attribute of its
    own: the class reads it and never assigns it, while it does assign
    [arn]. *)
Record Resource : Type := mkResource {
  arn : option string;
  comment : string;
  is_user_provided : bool
}.

(** Modelled from the spec: the constructor of [Resource]
    ([samcli/lib/pipeline/bootstrap/resource.py] is not among the
    sources).  The spec's data model: [is_user_provided] is "identifier
    is non-empty at construction time". *)
Definition Resource_init (arn : option string) (comment : string) : Resource :=
  {| arn := arn; comment := comment; is_user_provided := truthy arn |}.

(** [IAMUser] extends [Resource] with the credential pair. *)
Record IAMUser : Type := mkIAMUser {
  iam_resource : Resource;
  access_key_id : option pyval;
  secret_access_key : option pyval
}.

(** Modelled from the spec: the constructor of [IAMUser] (same missing
    file); the credential pair is "populated only after provisioning". *)
Definition IAMUser_init (arn : option string) (comment : string) : IAMUser :=
  {| iam_resource := Resource_init arn comment;
     access_key_id := None;
     secret_access_key := None |}.

(** [ECRImageRepository] extends [Resource] with the method [get_uri]
    only, and has the same attributes. *)
Definition ECRImageRepository : Type := Resource.

Record Environment : Type := mkEnvironment {
  name : string;
  aws_profile : option string;
  aws_region : option string;
  pipeline_user : IAMUser;
  pipeline_execution_role : Resource;
  cloudformation_execution_role : Resource;
  artifacts_bucket : Resource;
  create_image_repository : bool;
  image_repository : ECRImageRepository
}.

(** [Environment.__init__]. *)
Definition Environment_init
    (name : string) (aws_profile aws_region : option string)
    (pipeline_user_arn pipeline_execution_role_arn
     cloudformation_execution_role_arn artifacts_bucket_arn : option string)
    (create_image_repository : bool) (image_repository_arn : option string)
  : Environment :=
  {| name := name;
     aws_profile := aws_profile;
     aws_region := aws_region;
     pipeline_user := IAMUser_init pipeline_user_arn "Pipeline IAM user";
     pipeline_execution_role :=
       Resource_init pipeline_execution_role_arn "Pipeline execution role";
     cloudformation_execution_role :=
       Resource_init cloudformation_execution_role_arn "CloudFormation execution role";
     artifacts_bucket := Resource_init artifacts_bucket_arn "Artifact bucket";
     create_image_repository := create_image_repository;
     image_repository := Resource_init image_repository_arn "ECR image repository" |}.

(** Attribute assignments [self.<resource>.arn = v] and the assignment
    of the credential pair. *)
Definition set_arn (v : option string) (r : Resource) : Resource :=
  {| arn := v; comment := comment r; is_user_provided := is_user_provided r |}.

Definition set_pipeline_user_arn (v : option string) (e : Environment) : Environment :=
  {| name := name e; aws_profile := aws_profile e; aws_region := aws_region e;
     pipeline_user :=
       {| iam_resource := set_arn v (iam_resource (pipeline_user e));
          access_key_id := access_key_id (pipeline_user e);
          secret_access_key := secret_access_key (pipeline_user e) |};
     pipeline_execution_role := pipeline_execution_role e;
     cloudformation_execution_role := cloudformation_execution_role e;
     artifacts_bucket := artifacts_bucket e;
     create_image_repository := create_image_repository e;
     image_repository := image_repository e |}.

Definition set_pipeline_user_credentials (k s : pyval) (e : Environment) : Environment :=
  {| name := name e; aws_profile := aws_profile e; aws_region := aws_region e;
     pipeline_user :=
       {| iam_resource := iam_resource (pipeline_user e);
          access_key_id := Some k;
          secret_access_key := Some s |};
     pipeline_execution_role := pipeline_execution_role e;
     cloudformation_execution_role := cloudformation_execution_role e;
     artifacts_bucket := artifacts_bucket e;
     create_image_repository := create_image_repository e;
     image_repository := image_repository e |}.

Definition set_pipeline_execution_role_arn (v : option string) (e : Environment) : Environment :=
  {| name := name e; aws_profile := aws_profile e; aws_region := aws_region e;
     pipeline_user := pipeline_user e;
     pipeline_execution_role := set_arn v (pipeline_execution_role e);
     cloudformation_execution_role := cloudformation_execution_role e;
     artifacts_bucket := artifacts_bucket e;
     create_image_repository := create_image_repository e;
     image_repository := image_repository e |}.

Definition set_cloudformation_execution_role_arn (v : option string) (e : Environment)
  : Environment :=
  {| name := name e; aws_profile := aws_profile e; aws_region := aws_region e;
     pipeline_user := pipeline_user e;
     pipeline_execution_role := pipeline_execution_role e;
     cloudformation_execution_role := set_arn v (cloudformation_execution_role e);
     artifacts_bucket := artifacts_bucket e;
     create_image_repository := create_image_repository e;
     image_repository := image_repository e |}.

Definition set_artifacts_bucket_arn (v : option string) (e : Environment) : Environment :=
  {| name := name e; aws_profile := aws_profile e; aws_region := aws_region e;
     pipeline_user := pipeline_user e;
     pipeline_execution_role := pipeline_execution_role e;
     cloudformation_execution_role := cloudformation_execution_role e;
     artifacts_bucket := set_arn v (artifacts_bucket e);
     create_image_repository := create_image_repository e;
     image_repository := image_repository e |}.

Definition set_image_repository_arn (v : option string) (e : Environment) : Environment :=
  {| name := name e; aws_profile := aws_profile e; aws_region := aws_region e;
     pipeline_user := pipeline_user e;
     pipeline_execution_role := pipeline_execution_role e;
     cloudformation_execution_role := cloudformation_execution_role e;
     artifacts_bucket := artifacts_bucket e;
     create_image_repository := create_image_repository e;
     image_repository := set_arn v (image_repository e) |}.

(** ** Module constants *)

Definition STACK_NAME_PREFIX : string := "aws-sam-cli-managed".
Definition ENVIRONMENT_RESOURCES_STACK_NAME_SUFFIX : string := "pipeline-resources".
Definition ENVIRONMENT_RESOURCES_CFN_TEMPLATE : string := "environment_resources.yaml".
Definition PIPELINE_USER : string := "pipeline_user".
Definition PIPELINE_EXECUTION_ROLE : string := "pipeline_execution_role".
Definition CLOUDFORMATION_EXECUTION_ROLE : string := "cloudformation_execution_role".
Definition ARTIFACTS_BUCKET : string := "artifacts_bucket".
Definition ECR_IMAGE_REPOSITORY : string := "image_repository".
Definition REGION : string := "region".

(** The line feed of the Python literals ["\n"]. *)
Definition LF : string := String "010"%char EmptyString.

(** ** Pure methods *)

(** [_get_resources]. *)
Definition _get_resources (self : Environment) : list Resource :=
  let resources :=
    [ iam_resource (pipeline_user self);
      pipeline_execution_role self;
      cloudformation_execution_role self;
      artifacts_bucket self ] in
  if create_image_repository self || truthy (arn (image_repository self))
  then resources ++ [image_repository self]
  else resources.

(** [did_user_provide_all_required_resources]. *)
Definition did_user_provide_all_required_resources (self : Environment) : bool :=
  forallb is_user_provided (_get_resources self).

(** [_get_non_user_provided_resources_msg]. *)
Definition _get_non_user_provided_resources_msg (self : Environment) : string :=
  let resource_comments :=
    concat
      [ if is_user_provided (iam_resource (pipeline_user self))
        then [] else [comment (iam_resource (pipeline_user self))];
        if is_user_provided (pipeline_execution_role self)
        then [] else [comment (pipeline_execution_role self)];
        if is_user_provided (cloudformation_execution_role self)
        then [] else [comment (cloudformation_execution_role self)];
        if is_user_provided (artifacts_bucket self)
        then [] else [comment (artifacts_bucket self)];
        if is_user_provided (image_repository self) || negb (create_image_repository self)
        then [] else [comment (image_repository self)] ] in
  String.concat LF (map (fun comment => "  - " +:+ comment) resource_comments).

(** [_get_stack_name]. *)
Definition _get_stack_name (self : Environment) : string :=
  let sanitized_environment_name := re_sub_non_alnum (name self) in
  STACK_NAME_PREFIX +:+ "-" +:+ sanitized_environment_name +:+ "-"
    +:+ ENVIRONMENT_RESOURCES_STACK_NAME_SUFFIX.

(** ** The collaborators, seen through the calls made on them *)

(** The keyword arguments of [manage_stack]. *)
Record StackArgs : Type := mkStackArgs {
  stack_name : string;
  region : option string;
  profile : option string;
  template_body : string;
  parameter_overrides : gmap string string
}.

(** The keyword arguments of [SamConfig.put]; [put_env] is [None] when
    the call leaves [env] out, so that the store applies its default. *)
Record PutArgs : Type := mkPutArgs {
  put_cmd_names : list string;
  put_section : string;
  put_key : string;
  put_value : string;
  put_env : option string
}.

(** What the class does to the outside, in the order it does it. *)
Inductive event : Type :=
| EvSecho (text : string)
| EvEcho (text : string)
| EvConfirm (prompt : string)
| EvOpenRead (path : string)
| EvManageStack (a : StackArgs)
| EvClient (profile_name region_name : option string) (service : string)
| EvGetSecretValue (profile_name region_name : option string) (SecretId : string)
| EvSamConfig (config_dir filename : string)
| EvPut (a : PutArgs)
| EvFlush.

(** Modelled from the spec: [StackOutput]
    ([samcli/lib/utils/managed_cloudformation_stack.py] is not among the
    sources), "a mapping of logical output name to value"; [output.get(k)]
    is the lookup [output !! k], [None] for an absent key. *)
Abbreviation StackOutput := (gmap string string).

(** The behaviour of everything outside the class.  Each field answers
    one kind of call: with a value, or with the exception the call
    raises.  The methods [Resource.name] and
    [ECRImageRepository.get_uri], the class [SamConfig], [manage_stack],
    [Colored], boto3, [json.loads] and the file system are not part of
    this module and are left arbitrary.

    - [color_yellow], [color_red]: the methods of [self.color];
    - [click_confirm]: the answer to [click.confirm(prompt)];
    - [CFN_TEMPLATE_PATH]: the directory of the module;
    - [open_read path]: [open(path).read()];
    - [boto3_client profile region service]: the exception, if any, of
      [boto3.Session(profile_name, region_name).client(service)];
    - [get_secret_value profile region id]: the response of
      [get_secret_value(SecretId=id)] on that client;
    - [SamConfig_new], [SamConfig_put], [SamConfig_flush]: the
      exception, if any, of the constructor, of [put] and of [flush].

    Printing with [click.echo] and [click.secho] is taken not to fail. *)
Record World : Type := mkWorld {
  color_yellow : string -> string;
  color_red : string -> string;
  click_confirm : string -> result bool;
  CFN_TEMPLATE_PATH : string;
  os_path_join : string -> string -> string;
  open_read : string -> result string;
  manage_stack : StackArgs -> result StackOutput;
  boto3_client : option string -> option string -> string -> option pyexc;
  get_secret_value : option string -> option string -> string -> result pyval;
  json_loads : pyval -> result pyval;
  Resource_name : Resource -> result (option string);
  ECRImageRepository_get_uri : ECRImageRepository -> result (option string);
  SamConfig_new : string -> string -> option pyexc;
  SamConfig_put : PutArgs -> option pyexc;
  SamConfig_flush : option pyexc
}.

(** ** Two monads: calls on the outside, and methods of an object *)

(** A computation that only acts on the outside (a function or a static
    method): its outcome, and the events it produced, in order. *)
Definition IO (A : Type) : Type := (result A * list event)%type.

#[export] Instance IO_ret : MRet IO := fun A a => (Ok a, []).

#[export] Instance IO_bind : MBind IO := fun A B k m =>
  match fst m with
  | Ok a => (fst (k a), snd m ++ snd (k a))
  | Raise e => (Raise e, snd m)
  end.

Definition emit (ev : event) : IO unit := (Ok tt, [ev]).

Definition lift {A : Type} (r : result A) : IO A := (r, []).

Definition lift_fault (f : option pyexc) : IO unit :=
  match f with
  | Some e => (Raise e, [])
  | None => (Ok tt, [])
  end.

(** A method of [Environment]: from the object as it is, the outcome,
    the object as the method leaves it (also when it raises) and the
    events. *)
Definition M (A : Type) : Type := Environment -> result A * Environment * list event.

#[export] Instance M_ret : MRet M := fun A a self => (Ok a, self, []).

#[export] Instance M_bind : MBind M := fun A B k m self =>
  match m self with
  | (Ok a, self', tr) =>
      match k a self' with
      | (r, self'', tr') => (r, self'', tr ++ tr')
      end
  | (Raise e, self', tr) => (Raise e, self', tr)
  end.

Definition io {A : Type} (c : IO A) : M A := fun self => (fst c, self, snd c).

Definition get_self : M Environment := fun self => (Ok self, self, []).

Definition modify_self (f : Environment -> Environment) : M unit :=
  fun self => (Ok tt, f self, []).

(** [try: m except C: h], where [catches] decides [isinstance(e, C)]. *)
Definition try_except {A : Type} (m : M A) (catches : pyexc -> bool) (h : M A) : M A :=
  fun self =>
    match m self with
    | (Ok a, self', tr) => (Ok a, self', tr)
    | (Raise e, self', tr) =>
        if catches e then
          match h self' with
          | (r, self'', tr') => (r, self'', tr ++ tr')
          end
        else (Raise e, self', tr)
    end.

(** [for x in l: body(x)]. *)
Fixpoint for_each {A : Type} (body : A -> M unit) (l : list A) : M unit :=
  match l with
  | [] => mret tt
  | x :: l' => body x ;; for_each body l'
  end.

(** The three components of what a method call gives. *)
Definition outcome {A : Type} (x : result A * Environment * list event) : result A :=
  fst (fst x).

Definition self_after {A : Type} (x : result A * Environment * list event) : Environment :=
  snd (fst x).

Definition trace {A : Type} (x : result A * Environment * list event) : list event :=
  snd x.

(** ** The methods of [Environment] that act on the outside *)

Section Methods.

Variable w : World.

Definition click_secho (text : string) : IO unit := emit (EvSecho text).

Definition click_echo (text : string) : IO unit := emit (EvEcho text).

Definition call_click_confirm (prompt : string) : IO bool :=
  emit (EvConfirm prompt) ;; lift (click_confirm w prompt).

(** [_read_template]. *)
Definition _read_template (template_file_name : string) : IO string :=
  let template_path := os_path_join w (CFN_TEMPLATE_PATH w) template_file_name in
  emit (EvOpenRead template_path) ;;
  template_body ← lift (open_read w template_path) ;
  mret template_body.

Definition call_manage_stack (a : StackArgs) : IO StackOutput :=
  emit (EvManageStack a) ;; lift (manage_stack w a).

(** [_get_pipeline_user_secret_pair]. *)
Definition _get_pipeline_user_secret_pair
    (secret_manager_arn : string) (profile region : option string)
  : IO (pyval * pyval) :=
  let region_name := if truthy region then region else None in
  emit (EvClient profile region_name "secretsmanager") ;;
  lift_fault (boto3_client w profile region_name "secretsmanager") ;;
  emit (EvGetSecretValue profile region_name secret_manager_arn) ;;
  response ← lift (get_secret_value w profile region_name secret_manager_arn) ;
  secret_string ← lift (getitem response "SecretString") ;
  secret_json ← lift (json_loads w secret_string) ;
  aws_access_key_id ← lift (getitem secret_json "aws_access_key_id") ;
  aws_secret_access_key ← lift (getitem secret_json "aws_secret_access_key") ;
  mret (aws_access_key_id, aws_secret_access_key).

(** The [parameter_overrides] dict literal of [bootstrap]. *)
Definition bootstrap_parameter_overrides (self : Environment) : gmap string string :=
  <["ImageRepositoryArn" := or_empty (arn (image_repository self))]>
  (<["CreateImageRepository" := if create_image_repository self then "true" else "false"]>
  (<["ArtifactsBucketArn" := or_empty (arn (artifacts_bucket self))]>
  (<["CloudFormationExecutionRoleArn" := or_empty (arn (cloudformation_execution_role self))]>
  (<["PipelineExecutionRoleArn" := or_empty (arn (pipeline_execution_role self))]>
  (<["PipelineUserArn" := or_empty (arn (iam_resource (pipeline_user self)))]> ∅))))).

(** The keyword arguments that [bootstrap] passes to [manage_stack]. *)
Definition bootstrap_stack_args (self : Environment) (body : string) : StackArgs :=
  {| stack_name := _get_stack_name self;
     region := aws_region self;
     profile := aws_profile self;
     template_body := body;
     parameter_overrides := bootstrap_parameter_overrides self |}.

(** The path that [_read_template] opens for the template of
    [bootstrap]. *)
Definition template_path : string :=
  os_path_join w (CFN_TEMPLATE_PATH w) ENVIRONMENT_RESOURCES_CFN_TEMPLATE.

(** [bootstrap], from the assignment of [pipeline_user.arn] to the last
    line: the capture of the outputs of the stack. *)
Definition bootstrap_capture (output : StackOutput) : M bool :=
  let pipeline_user_secret_sm_id := output !! "PipelineUserSecretKey" in
  modify_self (set_pipeline_user_arn (output !! "PipelineUser")) ;;
  (match pipeline_user_secret_sm_id with
   | Some sm_id =>
       if str_truthy sm_id then
         self ← get_self ;
         pair ← io (_get_pipeline_user_secret_pair sm_id (aws_profile self) (aws_region self)) ;
         modify_self (set_pipeline_user_credentials (fst pair) (snd pair))
       else mret tt
   | None => mret tt
   end) ;;
  modify_self (set_pipeline_execution_role_arn (output !! "PipelineExecutionRole")) ;;
  modify_self
    (set_cloudformation_execution_role_arn (output !! "CloudFormationExecutionRole")) ;;
  modify_self (set_artifacts_bucket_arn (output !! "ArtifactsBucket")) ;;
  modify_self (set_image_repository_arn (output !! "ImageRepository")) ;;
  mret true.

(** The last four assignments of [bootstrap], as one update. *)
Definition assign_remaining_arns (output : StackOutput) (self : Environment) : Environment :=
  set_image_repository_arn (output !! "ImageRepository")
    (set_artifacts_bucket_arn (output !! "ArtifactsBucket")
       (set_cloudformation_execution_role_arn (output !! "CloudFormationExecutionRole")
          (set_pipeline_execution_role_arn (output !! "PipelineExecutionRole") self))).

(** [bootstrap], from the reading of the template on: what runs once the
    method has not returned early. *)
Definition bootstrap_deploy : M bool :=
  environment_resources_template_body ← io (_read_template ENVIRONMENT_RESOURCES_CFN_TEMPLATE) ;
  self ← get_self ;
  output ← io (call_manage_stack
                 (bootstrap_stack_args self environment_resources_template_body)) ;
  bootstrap_capture output.

(** The texts that [bootstrap] prints. *)
Definition skipping_creation_text (self : Environment) : string :=
  color_yellow w
    (LF +:+ "All required resources for the " +:+ name self
        +:+ " environment exist, skipping creation.").

Definition will_create_text (self : Environment) : string :=
  "This will create the following required resources for the '" +:+ name self
    +:+ "' environment: " +:+ LF +:+ _get_non_user_provided_resources_msg self.

Definition proceed_prompt : string := "Should we proceed with the creation?".

Definition canceling_text : string := color_red w "Canceling pipeline bootstrap creation.".

(** [bootstrap]. *)
Definition bootstrap (confirm_changeset : bool) : M bool :=
  self ← get_self ;
  if did_user_provide_all_required_resources self then
    io (click_secho (skipping_creation_text self)) ;;
    mret true
  else
    io (click_echo (will_create_text self)) ;;
    if confirm_changeset then
      confirmed ← io (call_click_confirm proceed_prompt) ;
      if negb confirmed then
        io (click_secho canceling_text) ;;
        mret false
      else bootstrap_deploy
    else bootstrap_deploy.

Definition call_put (a : PutArgs) : IO unit :=
  emit (EvPut a) ;; lift_fault (SamConfig_put w a).

(** The body of the loop of [save_config] over
    [environment_specific_configs.items()]. *)
Definition save_config_item (self : Environment) (cmd_names : list string)
    (item : string * option string) : M unit :=
  let (key, value) := item in
  match value with
  | Some v =>
      if str_truthy v then
        io (call_put {| put_cmd_names := cmd_names; put_section := "parameters";
                        put_key := key; put_value := v; put_env := Some (name self) |})
      else mret tt
  | None => mret tt
  end.

(** [save_config]. *)
Definition save_config (config_dir filename : string) (cmd_names : list string) : M unit :=
  self ← get_self ;
  io (emit (EvSamConfig config_dir filename)) ;;
  io (lift_fault (SamConfig_new w config_dir filename)) ;;
  (match arn (iam_resource (pipeline_user self)) with
   | Some v =>
       if str_truthy v then
         io (call_put {| put_cmd_names := cmd_names; put_section := "parameters";
                         put_key := PIPELINE_USER; put_value := v; put_env := None |})
       else mret tt
   | None => mret tt
   end) ;;
  artifacts_bucket_name ←
    try_except (io (lift (Resource_name w (artifacts_bucket self))))
               isinstance_ValueError (mret (Some "")) ;
  image_repository_uri ←
    try_except (io (lift (ECRImageRepository_get_uri w (image_repository self))))
               isinstance_ValueError (mret (Some "")) ;
  let environment_specific_configs :=
    [ (PIPELINE_EXECUTION_ROLE, arn (pipeline_execution_role self));
      (CLOUDFORMATION_EXECUTION_ROLE, arn (cloudformation_execution_role self));
      (ARTIFACTS_BUCKET, artifacts_bucket_name);
      (ECR_IMAGE_REPOSITORY, image_repository_uri);
      (REGION, aws_region self) ] in
  for_each (save_config_item self cmd_names) environment_specific_configs ;;
  io (emit EvFlush) ;;
  io (lift_fault (SamConfig_flush w)).

(** [save_config_safe]. *)
Definition save_config_safe (config_dir filename : string) (cmd_names : list string)
  : M unit :=
  try_except (save_config config_dir filename cmd_names) isinstance_Exception (mret tt).

End Methods.

(** [bootstrap(c); bootstrap(c)]: the method twice in a row.  The
    outside answers the first call as [w1] and the second call as [w2]:
    a prompt is read afresh at each call, and a file or a backend may
    answer the second call differently. *)
Definition bootstrap_twice (w1 w2 : World) (confirm_changeset : bool) : M bool :=
  bootstrap w1 confirm_changeset ;; bootstrap w2 confirm_changeset.

(** ** Reading a trace *)

(** The calls of the provisioning backend in a trace, in order. *)
Fixpoint manage_stack_calls (tr : list event) : list StackArgs :=
  match tr with
  | [] => []
  | EvManageStack a :: tr' => a :: manage_stack_calls tr'
  | _ :: tr' => manage_stack_calls tr'
  end.

(** The calls made on the secrets backend in a trace: the client
    connections and the [get_secret_value] requests. *)
Definition is_secrets_event (ev : event) : bool :=
  match ev with
  | EvClient _ _ _ | EvGetSecretValue _ _ _ => true
  | _ => false
  end.

Definition secrets_events (tr : list event) : list event := filter is_secrets_event tr.

Fixpoint secret_lookups (tr : list event) : list string :=
  match tr with
  | [] => []
  | EvGetSecretValue _ _ id :: tr' => id :: secret_lookups tr'
  | _ :: tr' => secret_lookups tr'
  end.

(** The writes to the configuration store in a trace, in order. *)
Fixpoint puts (tr : list event) : list PutArgs :=
  match tr with
  | [] => []
  | EvPut a :: tr' => a :: puts tr'
  | _ :: tr' => puts tr'
  end.

(** ** The sanitized name, as a decomposition into maximal runs *)

(** A run is a non-empty block of characters that are all inside the
    class [0-9a-zA-Z] ([true]) or all outside it ([false]). *)
Definition run_block : Type := (bool * string)%type.

Fixpoint all_in_class (k : bool) (s : string) : bool :=
  match s with
  | EmptyString => true
  | String c s' => Bool.eqb (in_class_alnum c) k && all_in_class k s'
  end.

Definition is_run (b : run_block) : bool :=
  str_truthy (snd b) && all_in_class (fst b) (snd b).

(** The runs are maximal when neighbours are of different kinds. *)
Fixpoint maximal_runs (prev : option bool) (bs : list run_block) : bool :=
  match bs with
  | [] => true
  | b :: bs' =>
      is_run b
      && match prev with Some k => negb (Bool.eqb k (fst b)) | None => true end
      && maximal_runs (Some (fst b)) bs'
  end.

Fixpoint join_runs (bs : list run_block) : string :=
  match bs with
  | [] => EmptyString
  | b :: bs' => snd b +:+ join_runs bs'
  end.

(** Every run outside the class becomes one hyphen; the others stay. *)
Fixpoint replace_runs (bs : list run_block) : string :=
  match bs with
  | [] => EmptyString
  | b :: bs' => (if fst b then snd b else "-") +:+ replace_runs bs'
  end.

(** The decomposition of a string into its maximal runs. *)
Fixpoint runs_of (s : string) : list run_block :=
  match s with
  | EmptyString => []
  | String c s' =>
      let k := in_class_alnum c in
      match runs_of s' with
      | (k', t) :: bs =>
          if Bool.eqb k k' then (k, String c t) :: bs
          else (k, String c EmptyString) :: (k', t) :: bs
      | [] => [(k, String c EmptyString)]
      end
  end.


(** ** Reading what [bootstrap] and [save_config] did *)

(** [bootstrap] goes past the confirmation step: it was not asked to
    confirm, or the answer to the prompt is yes. *)
Definition proceeds (w : World) (confirm_changeset : bool) : Prop :=
  confirm_changeset = false \/ click_confirm w proceed_prompt = Ok true.

(** What [bootstrap] did before it went past the confirmation step. *)
Definition asked (self : Environment) (confirm_changeset : bool) : list event :=
  EvEcho (will_create_text self)
    :: (if confirm_changeset then [EvConfirm proceed_prompt] else []).

(** Whether the image repository takes part in the completeness check:
    the flag is set, or the repository has a non-empty identifier. *)
Definition image_repository_participates (self : Environment) : Prop :=
  create_image_repository self = true
  \/ exists s, arn (image_repository self) = Some s /\ s <> "".

(** A string at whose head the pattern of the stack name does not match. *)
Definition no_match_at_head (s : string) : bool :=
  match s with
  | EmptyString => true
  | String c _ => in_class_alnum c
  end.

(** The value that [save_config] holds after
    [try: v = f() except ValueError: v = ""], when the exception, if
    any, was caught. *)
Definition derived_value (r : result (option string)) : option string :=
  match r with
  | Ok v => v
  | Raise _ => Some ""
  end.

(** The call [f()] returns, or raises what [except ValueError] catches. *)
Definition does_not_escape (r : result (option string)) : Prop :=
  match r with
  | Ok _ => True
  | Raise e => isinstance_ValueError e = true
  end.

Definition raises_ValueError (r : result (option string)) : Prop :=
  exists e, r = Raise e /\ isinstance_ValueError e = true.

(** The write that [if value: samconfig.put(...)] makes, if any. *)
Definition put_if (cmd_names : list string) (key : string) (value : option string)
    (env : option string) : list PutArgs :=
  match value with
  | Some v =>
      if str_truthy v then
        [ {| put_cmd_names := cmd_names; put_section := "parameters";
             put_key := key; put_value := v; put_env := env |} ]
      else []
  | None => []
  end.

(** The writes of a [save_config] that nothing interrupts. *)
Definition expected_puts (w : World) (self : Environment) (cmd_names : list string)
  : list PutArgs :=
  put_if cmd_names PIPELINE_USER (arn (iam_resource (pipeline_user self))) None
  ++ put_if cmd_names PIPELINE_EXECUTION_ROLE (arn (pipeline_execution_role self))
       (Some (name self))
  ++ put_if cmd_names CLOUDFORMATION_EXECUTION_ROLE
       (arn (cloudformation_execution_role self)) (Some (name self))
  ++ put_if cmd_names ARTIFACTS_BUCKET
       (derived_value (Resource_name w (artifacts_bucket self))) (Some (name self))
  ++ put_if cmd_names ECR_IMAGE_REPOSITORY
       (derived_value (ECRImageRepository_get_uri w (image_repository self)))
       (Some (name self))
  ++ put_if cmd_names REGION (aws_region self) (Some (name self)).

(** The configuration store accepts every call. *)
Definition store_accepts (w : World) (config_dir filename : string) : Prop :=
  SamConfig_new w config_dir filename = None
  /\ (forall a, SamConfig_put w a = None)
  /\ SamConfig_flush w = None.

(** Nothing interrupts [save_config]: the store accepts every call, and
    the two derived values are returned or fail with a [ValueError]. *)
Definition unhindered (w : World) (self : Environment) (config_dir filename : string)
  : Prop :=
  store_accepts w config_dir filename
  /\ does_not_escape (Resource_name w (artifacts_bucket self))
  /\ does_not_escape (ECRImageRepository_get_uri w (image_repository self)).

(** A method run on [self] leaves [self] as it is and writes [l] to the
    store: all of it when it returns, the beginning of it when it raises,
    which it does only if [good] fails. *)
Definition emits_at (good : Prop) (self : Environment) {A : Type} (m : M A)
    (l : list PutArgs) : Prop :=
  self_after (m self) = self
  /\ match outcome (m self) with
     | Ok _ => puts (trace (m self)) = l
     | Raise _ => ~ good /\ puts (trace (m self)) `prefix_of` l
     end.

(** ** Sample collaborators and environments *)

(** The segments of a string between colons. *)
Fixpoint split_colon (s : string) : list string :=
  match s with
  | EmptyString => [EmptyString]
  | String c s' =>
      if Ascii.eqb c ":" then EmptyString :: split_colon s'
      else
        match split_colon s' with
        | seg :: segs => String c seg :: segs
        | [] => [String c EmptyString]
        end
  end.

Definition InvalidIdentifierError (identifier : string) : pyexc :=
  PyExc KValueError "ValueError" identifier.

(** Modelled from the spec: [Resource.name]
    ([samcli/lib/pipeline/bootstrap/resource.py] is not among the
    sources).  It "returns the trailing resource-name segment" of an
    identifier of six colon-separated segments, as in
    [arn:aws:s3:::my-bucket], and fails "if the identifier is empty or
    does not contain the expected number of delimited segments"; the
    failure is the [ValueError] that [save_config] catches. *)
Definition spec_name (r : Resource) : result (option string) :=
  match arn r with
  | Some identifier =>
      match split_colon identifier with
      | [_; _; _; _; _; resource_name] => Ok (Some resource_name)
      | _ => Raise (InvalidIdentifierError identifier)
      end
  | None => Raise (InvalidIdentifierError "")
  end.

(** Modelled from the spec: [ECRImageRepository.get_uri] (same missing
    file), which builds
    [<account>.dkr.ecr.<region>.amazonaws.com/<repository-name>] and
    "fails the same way on malformed input".  The call in [save_config]
    passes no argument: the account and the region are those of the
    identifier, as in the example of the spec. *)
Definition spec_get_uri (r : ECRImageRepository) : result (option string) :=
  match arn r with
  | Some identifier =>
      match split_colon identifier with
      | [_; _; _; region; account; resource] =>
          if String.prefix "repository/" resource then
            Ok (Some (account +:+ ".dkr.ecr." +:+ region +:+ ".amazonaws.com/"
                        +:+ String.substring 11 (String.length resource - 11) resource))
          else Raise (InvalidIdentifierError identifier)
      | _ => Raise (InvalidIdentifierError identifier)
      end
  | None => Raise (InvalidIdentifierError "")
  end.

(** A world in which everything works, but for what the three arguments
    say: the answer to the prompt, the answer of the provisioning
    backend, and the fault of [flush], if any. *)
Definition sample_world (answer : result bool) (stack : result StackOutput)
    (flush : option pyexc) : World :=
  {| color_yellow := fun s => s;
     color_red := fun s => s;
     click_confirm := fun _ => answer;
     CFN_TEMPLATE_PATH := "/samcli/lib/pipeline/bootstrap";
     os_path_join := fun d f => d +:+ "/" +:+ f;
     open_read := fun _ => Ok "Resources";
     manage_stack := fun _ => stack;
     boto3_client := fun _ _ _ => None;
     get_secret_value := fun _ _ id =>
       Ok (VDict [("ARN", VStr id); ("SecretString", VStr "secret-json")]);
     json_loads := fun v =>
       match v with
       | VStr _ =>
           Ok (VDict [("aws_access_key_id", VStr "AKIAEXAMPLE");
                      ("aws_secret_access_key", VStr "EXAMPLEKEY")])
       | _ => Raise (TypeError "the JSON object must be str")
       end;
     Resource_name := spec_name;
     ECRImageRepository_get_uri := spec_get_uri;
     SamConfig_new := fun _ _ => None;
     SamConfig_put := fun _ => None;
     SamConfig_flush := flush |}.

(** The outputs of a stack that created everything but the image
    repository. *)
Definition sample_output : StackOutput :=
  <["PipelineUser" := "arn:aws:iam::123456789012:user/pipeline"]>
  (<["PipelineUserSecretKey" := "arn:aws:secretsmanager:us-east-1:123456789012:secret:key"]>
  (<["PipelineExecutionRole" := "arn:aws:iam::123456789012:role/pipeline"]>
  (<["CloudFormationExecutionRole" := "arn:aws:iam::123456789012:role/cfn"]>
  (<["ArtifactsBucket" := "arn:aws:s3:::artifacts"]> ∅)))).

(** Outputs in which the key of the secret is present, with an empty
    value. *)
Definition output_with_empty_secret_key : StackOutput :=
  <["PipelineUser" := "arn:aws:iam::123456789012:user/pipeline"]>
  (<["PipelineUserSecretKey" := ""]> ∅).

(** An environment for which nothing is provided. *)
Definition env_beta : Environment :=
  Environment_init "Beta" None (Some "us-east-1") None None None None false None.

(** An environment for which everything is provided. *)
Definition env_prod : Environment :=
  Environment_init "Prod" None (Some "us-east-1")
    (Some "arn:aws:iam::123456789012:user/pipeline")
    (Some "arn:aws:iam::123456789012:role/pipeline")
    (Some "arn:aws:iam::123456789012:role/cfn")
    (Some "arn:aws:s3:::artifacts")
    true
    (Some "arn:aws:ecr:us-east-1:123456789012:repository/my-repo").

(** The same, with a bucket identifier that is not an ARN. *)
Definition env_bad_bucket : Environment :=
  Environment_init "Prod" None (Some "us-east-1")
    (Some "arn:aws:iam::123456789012:user/pipeline")
    (Some "arn:aws:iam::123456789012:role/pipeline")
    (Some "arn:aws:iam::123456789012:role/cfn")
    (Some "my-bucket")
    true
    (Some "arn:aws:ecr:us-east-1:123456789012:repository/my-repo").

Definition env_my_env : Environment :=
  Environment_init "My Env!" None None None None None None false None.
(** ** [print_resources_summary] *)

(** The tab of the Python literals ["\t"]. *)
Definition TAB : string := String "009"%char EmptyString.

Section Summary.

(** [self.color.green], and [str] of the integers, lists and dicts that
    a credential may be: the class [Colored] and the built-in are not
    part of the module. *)
Variable color_green : string -> string.
Variable str_other : pyval -> string.

(** [str(v)], as an f-string formats a value. *)
Definition py_str (v : pyval) : string :=
  match v with
  | VStr s => s
  | VNone => "None"
  | VBool true => "True"
  | VBool false => "False"
  | _ => str_other v
  end.

(** [f"{v}"] for an attribute that is [None] or a value. *)
Definition fstring_of (v : option pyval) : string :=
  match v with
  | Some x => py_str x
  | None => "None"
  end.

(** The loop of [print_resources_summary] that sorts the resources into
    [provided_resources] and [created_resources]. *)
Fixpoint sort_resources (resources provided_resources created_resources : list Resource)
  : list Resource * list Resource :=
  match resources with
  | [] => (provided_resources, created_resources)
  | resource :: rest =>
      if is_user_provided resource then
        sort_resources rest (provided_resources ++ [resource]) created_resources
      else sort_resources rest provided_resources (created_resources ++ [resource])
  end.

(** [print_resources_summary]. *)
Definition print_resources_summary : M unit :=
  self ← get_self ;
  let sorted := sort_resources (_get_resources self) [] [] in
  let created_resources := snd sorted in
  (match created_resources with
   | _ :: _ =>
       io (emit (EvSecho (color_green "The following resources were created in your account:"))) ;;
       for_each
         (fun resource => io (emit (EvSecho (color_green ("  - " +:+ comment resource)))))
         created_resources
   | [] => mret tt
   end) ;;
  if negb (is_user_provided (iam_resource (pipeline_user self))) then
    io (emit (EvSecho (color_green "Pipeline IAM user credential:"))) ;;
    io (emit (EvSecho (color_green
                         (TAB +:+ "AWS_ACCESS_KEY_ID: "
                              +:+ fstring_of (access_key_id (pipeline_user self)))))) ;;
    io (emit (EvSecho (color_green
                         (TAB +:+ "AWS_SECRET_ACCESS_KEY: "
                              +:+ fstring_of (secret_access_key (pipeline_user self))))))
  else mret tt.

End Summary.

(** The descriptors that [print_resources_summary] reports as created:
    those of [_get_resources] that are not user-provided. *)
Definition created_resources_of (self : Environment) : list Resource :=
  List.filter (fun r => negb (is_user_provided r)) (_get_resources self).

(** The comments that [_get_non_user_provided_resources_msg] lists. *)
Definition announced_comments (self : Environment) : list string :=
  (if is_user_provided (iam_resource (pipeline_user self))
   then [] else [comment (iam_resource (pipeline_user self))])
  ++ (if is_user_provided (pipeline_execution_role self)
      then [] else [comment (pipeline_execution_role self)])
  ++ (if is_user_provided (cloudformation_execution_role self)
      then [] else [comment (cloudformation_execution_role self)])
  ++ (if is_user_provided (artifacts_bucket self)
      then [] else [comment (artifacts_bucket self)])
  ++ (if is_user_provided (image_repository self) || negb (create_image_repository self)
      then [] else [comment (image_repository self)]).

(** The requests made of the user in a trace. *)
Fixpoint confirm_prompts (tr : list event) : list string :=
  match tr with
  | [] => []
  | EvConfirm prompt :: tr' => prompt :: confirm_prompts tr'
  | _ :: tr' => confirm_prompts tr'
  end.

(** The calls of [flush] in a trace. *)
Fixpoint flushes (tr : list event) : nat :=
  match tr with
  | [] => 0
  | EvFlush :: tr' => S (flushes tr')
  | _ :: tr' => flushes tr'
  end.

(** A string without two hyphens in a row. *)
Fixpoint no_double_hyphen (s : string) : bool :=
  match s with
  | String "-" ((String "-" _) as s') => false
  | String _ s' => no_double_hyphen s'
  | EmptyString => true
  end.

(** The characters of a string that are in [0-9a-zA-Z], in order. *)
Fixpoint alnum_of (s : string) : string :=
  match s with
  | EmptyString => EmptyString
  | String c s' => if in_class_alnum c then String c (alnum_of s') else alnum_of s'
  end.

(** Every character of a string is in [0-9a-zA-Z] or is a hyphen. *)
Fixpoint alnum_or_hyphen (s : string) : bool :=
  match s with
  | EmptyString => true
  | String c s' => (in_class_alnum c || Ascii.eqb c "-") && alnum_or_hyphen s'
  end.

(** The five descriptors of an environment, whether or not they take
    part in the completeness check. *)
Definition descriptors (self : Environment) : list Resource :=
  [ iam_resource (pipeline_user self);
    pipeline_execution_role self;
    cloudformation_execution_role self;
    artifacts_bucket self;
    image_repository self ].

(** The attributes of an environment other than the five identifiers and
    the credential pair. *)
Definition unassigned (self : Environment)
  : string * option string * option string * bool * list string * list bool :=
  (name self, aws_profile self, aws_region self, create_image_repository self,
   map comment (descriptors self), map is_user_provided (descriptors self)).

Section SummaryLines.

Variable color_green : string -> string.
Variable str_other : pyval -> string.

(** The lines about the resources, and the lines about the credential
    pair. *)
Definition created_lines (self : Environment) : list event :=
  match created_resources_of self with
  | [] => []
  | created =>
      EvSecho (color_green "The following resources were created in your account:")
        :: map (fun resource => EvSecho (color_green ("  - " +:+ comment resource))) created
  end.

Definition credential_lines (self : Environment) : list event :=
  if is_user_provided (iam_resource (pipeline_user self)) then []
  else
    [ EvSecho (color_green "Pipeline IAM user credential:");
      EvSecho (color_green
                 (TAB +:+ "AWS_ACCESS_KEY_ID: "
                      +:+ fstring_of str_other (access_key_id (pipeline_user self))));
      EvSecho (color_green
                 (TAB +:+ "AWS_SECRET_ACCESS_KEY: "
                      +:+ fstring_of str_other (secret_access_key (pipeline_user self)))) ].

End SummaryLines.

(** A trace that ends with the one call of [flush], after the writes
    [l]. *)
Definition committed (tr : list event) (l : list PutArgs) : Prop :=
  exists tr0, tr = tr0 ++ [EvFlush] /\ puts tr0 = l /\ flushes tr0 = 0.

(** A method run on [self] leaves it as it is, writes [l] and, when
    [fl] is set, ends with a call of [flush] whose fault, if any, is [ff]:
    when it returns, all of this was done; when it raises, either [flush]
    was not called and the beginning of [l] was written, or [flush] was
    called after the whole of [l] and raised the exception. *)
Definition commits_at (ff : option pyexc) (self : Environment) {A : Type} (m : M A)
    (l : list PutArgs) (fl : bool) : Prop :=
  self_after (m self) = self
  /\ match outcome (m self) with
     | Ok _ =>
         if fl then committed (trace (m self)) l /\ ff = None
         else puts (trace (m self)) = l /\ flushes (trace (m self)) = 0
     | Raise e =>
         (puts (trace (m self)) `prefix_of` l /\ flushes (trace (m self)) = 0)
         \/ (fl = true /\ committed (trace (m self)) l /\ ff = Some e)
     end.

(** ** The guided context of [sam pipeline bootstrap]

    [samcli/commands/pipeline/bootstrap/guided_context.py]: the
    questionnaire that collects the identifiers later given to
    [Environment]. *)

From Stdlib Require Import DecimalString DecimalNat ZArith.

Module Guided.

(** [str(n)] for a natural number. *)
Definition str_nat (n : nat) : string := NilEmpty.string_of_uint (Nat.to_uint n).

(** [f"{x}"] for an [Optional[str]]. *)
Definition fstring_opt (o : option string) : string :=
  match o with
  | Some s => s
  | None => "None"
  end.

(** [l[i]] for a Python list and an integer: negative indices count from
    the end, and an index out of range raises [IndexError]. *)
Definition py_index {A : Type} (l : list A) (i : Z) : result A :=
  let n := Z.of_nat (length l) in
  let j := if Z.ltb i 0 then Z.add i n else i in
  if Z.ltb j 0 || Z.leb n j then Raise (PyExc KException "IndexError" "list index out of range")
  else
    match nth_error l (Z.to_nat j) with
    | Some x => Ok x
    | None => Raise (PyExc KException "IndexError" "list index out of range")
    end.

(** [list(enumerate(l))], counting from [i]. *)
Fixpoint enumerate_from {A : Type} (i : nat) (l : list A) : list (nat * A) :=
  match l with
  | [] => []
  | x :: l' => (i, x) :: enumerate_from (S i) l'
  end.

(** [[str(i + 1) for i in range(n)]]. *)
Definition numbers_from_one (n : nat) : list string := map (fun i => str_nat (i + 1)) (seq 0 n).

Record GuidedContext : Type := mkGuidedContext {
  profile : option string;
  environment_name : option string;
  pipeline_user_arn : option string;
  pipeline_execution_role_arn : option string;
  cloudformation_execution_role_arn : option string;
  artifacts_bucket_arn : option string;
  create_image_repository : bool;
  image_repository_arn : option string;
  region : option string
}.

(** Attribute assignments [self.<attribute> = v]. *)
Definition set_profile (v : option string) (s : GuidedContext) : GuidedContext :=
  mkGuidedContext v (environment_name s) (pipeline_user_arn s)
    (pipeline_execution_role_arn s) (cloudformation_execution_role_arn s)
    (artifacts_bucket_arn s) (create_image_repository s) (image_repository_arn s) (region s).

Definition set_environment_name (v : option string) (s : GuidedContext) : GuidedContext :=
  mkGuidedContext (profile s) v (pipeline_user_arn s)
    (pipeline_execution_role_arn s) (cloudformation_execution_role_arn s)
    (artifacts_bucket_arn s) (create_image_repository s) (image_repository_arn s) (region s).

Definition set_pipeline_user_arn (v : option string) (s : GuidedContext) : GuidedContext :=
  mkGuidedContext (profile s) (environment_name s) v
    (pipeline_execution_role_arn s) (cloudformation_execution_role_arn s)
    (artifacts_bucket_arn s) (create_image_repository s) (image_repository_arn s) (region s).

Definition set_pipeline_execution_role_arn (v : option string) (s : GuidedContext)
  : GuidedContext :=
  mkGuidedContext (profile s) (environment_name s) (pipeline_user_arn s)
    v (cloudformation_execution_role_arn s)
    (artifacts_bucket_arn s) (create_image_repository s) (image_repository_arn s) (region s).

Definition set_cloudformation_execution_role_arn (v : option string) (s : GuidedContext)
  : GuidedContext :=
  mkGuidedContext (profile s) (environment_name s) (pipeline_user_arn s)
    (pipeline_execution_role_arn s) v
    (artifacts_bucket_arn s) (create_image_repository s) (image_repository_arn s) (region s).

Definition set_artifacts_bucket_arn (v : option string) (s : GuidedContext) : GuidedContext :=
  mkGuidedContext (profile s) (environment_name s) (pipeline_user_arn s)
    (pipeline_execution_role_arn s) (cloudformation_execution_role_arn s)
    v (create_image_repository s) (image_repository_arn s) (region s).

Definition set_create_image_repository (v : bool) (s : GuidedContext) : GuidedContext :=
  mkGuidedContext (profile s) (environment_name s) (pipeline_user_arn s)
    (pipeline_execution_role_arn s) (cloudformation_execution_role_arn s)
    (artifacts_bucket_arn s) v (image_repository_arn s) (region s).

Definition set_image_repository_arn (v : option string) (s : GuidedContext) : GuidedContext :=
  mkGuidedContext (profile s) (environment_name s) (pipeline_user_arn s)
    (pipeline_execution_role_arn s) (cloudformation_execution_role_arn s)
    (artifacts_bucket_arn s) (create_image_repository s) v (region s).

Definition set_region (v : option string) (s : GuidedContext) : GuidedContext :=
  mkGuidedContext (profile s) (environment_name s) (pipeline_user_arn s)
    (pipeline_execution_role_arn s) (cloudformation_execution_role_arn s)
    (artifacts_bucket_arn s) (create_image_repository s) (image_repository_arn s) v.

(** What the questionnaire does on the terminal. *)
Inductive tevent : Type :=
| TEcho (text : string)
| TSecho (text : string)
| TPrompt (text : string) (default : option string) (choices : option (list string))
| TConfirm (text : string).

(** Everything outside the class.  The answers of the terminal may
    depend on how many questions were asked before ([nat]) and on the
    question; [click.prompt] with a [click.Choice] type, [click.confirm],
    [list_available_profiles], [os.getenv], [get_current_account_id],
    [get_default_aws_region], [Colored], the help text that [dedent]
    builds and [int] on strings that are not plain decimal numbers are
    not part of the module and are left arbitrary. *)
Record Console : Type := mkConsole {
  prompt_answer : nat -> string -> option string -> option (list string) -> result string;
  confirm_answer : nat -> string -> result bool;
  list_available_profiles : list string;
  getenv : string -> option string;
  get_current_account_id : option string -> result string;
  isinstance_CredentialsError : pyexc -> bool;
  get_default_aws_region : string;
  color_bold : string -> string;
  color_green : string -> string;
  color_red : string -> string;
  credentials_help_text : string;
  ACCESS_KEY : string;
  SECRET_KEY : string;
  int_other : string -> result Z
}.

(** [int(s)]: a non-empty string of decimal digits is its value; what
    [int] does with any other string is left to the console. *)
Definition py_int (c : Console) (s : string) : result Z :=
  match s with
  | EmptyString => int_other c s
  | _ =>
      match NilEmpty.uint_of_string s with
      | Some d => Ok (Z.of_nat (Nat.of_uint d))
      | None => int_other c s
      end
  end.

Definition SystemExit : pyexc := PyExc KBaseException "SystemExit" "0".

(** The state of a run: the object, and the number of questions
    asked. *)
Record gstate : Type := mkGstate {
  ctx : GuidedContext;
  asked : nat
}.

(** A method of [GuidedContext]: [None] when the fuel of a loop runs
    out, else the outcome, the state and the events. *)
Definition G (A : Type) : Type := gstate -> option (result A * gstate * list tevent).

#[export] Instance G_ret : MRet G := fun A a st => Some (Ok a, st, []).

#[export] Instance G_bind : MBind G := fun A B k m st =>
  match m st with
  | Some (Ok a, st', tr) =>
      match k a st' with
      | Some (r, st'', tr') => Some (r, st'', tr ++ tr')
      | None => None
      end
  | Some (Raise e, st', tr) => Some (Raise e, st', tr)
  | None => None
  end.

(** The events [tr], then what [x] gives. *)
Definition prepend {A : Type} (tr : list tevent)
    (x : option (result A * gstate * list tevent))
  : option (result A * gstate * list tevent) :=
  match x with
  | Some (r, st, tr') => Some (r, st, tr ++ tr')
  | None => None
  end.

Definition out_of_fuel {A : Type} : G A := fun _ => None.

Definition graise {A : Type} (e : pyexc) : G A := fun st => Some (Raise e, st, []).

Definition glift {A : Type} (r : result A) : G A := fun st => Some (r, st, []).

Definition get_ctx : G GuidedContext := fun st => Some (Ok (ctx st), st, []).

Definition modify_ctx (f : GuidedContext -> GuidedContext) : G unit :=
  fun st => Some (Ok tt, mkGstate (f (ctx st)) (asked st), []).

Definition click_echo (text : string) : G unit := fun st => Some (Ok tt, st, [TEcho text]).

Definition click_secho (text : string) : G unit := fun st => Some (Ok tt, st, [TSecho text]).

Fixpoint gfor_each {A : Type} (body : A -> G unit) (l : list A) : G unit :=
  match l with
  | [] => mret tt
  | x :: l' => body x ;; gfor_each body l'
  end.

Section Methods.

Variable c : Console.

(** [click.prompt(text, default=default, type=...)]. *)
Definition click_prompt (text : string) (default : option string)
    (choices : option (list string)) : G string :=
  fun st =>
    Some (prompt_answer c (asked st) text default choices,
          mkGstate (ctx st) (S (asked st)),
          [TPrompt text default choices]).

(** [click.confirm(text)]. *)
Definition click_confirm (text : string) : G bool :=
  fun st =>
    Some (confirm_answer c (asked st) text,
          mkGstate (ctx st) (S (asked st)),
          [TConfirm text]).

Definition account_prompt_text : string :=
  "Select an account source to associate with this stage".

(** The choices of [_prompt_account_id]. *)
Definition account_choices : list string :=
  numbers_from_one (length (list_available_profiles c)) ++ ["q"; "e"].

(** [_prompt_account_id]. *)
Fixpoint _prompt_account_id (fuel : nat) : G unit :=
  match fuel with
  | 0 => out_of_fuel
  | S fuel' =>
      let profiles := list_available_profiles c in
      click_echo "The following AWS credential sources are available to use:" ;;
      click_echo (credentials_help_text c) ;;
      (if truthy (getenv c (ACCESS_KEY c)) && truthy (getenv c (SECRET_KEY c)) then
         click_echo ("  e. Environment variables: " +:+ ACCESS_KEY c +:+ " and "
                       +:+ SECRET_KEY c)
       else mret tt) ;;
      gfor_each
        (fun ip => click_echo ("  " +:+ str_nat (fst ip + 1) +:+ ". " +:+ snd ip
                                 +:+ " (named profile)"))
        (enumerate_from 0 profiles) ;;
      click_echo "  q. Quit and configure AWS credential myself" ;;
      answer ← click_prompt account_prompt_text None (Some account_choices) ;
      (if String.eqb answer "q" then graise SystemExit
       else if String.eqb answer "e" then modify_ctx (set_profile None)
       else
         i ← glift (py_int c answer) ;
         p ← glift (py_index profiles (i - 1)) ;
         modify_ctx (set_profile (Some p))) ;;
      self ← get_ctx ;
      match get_current_account_id c (profile self) with
      | Ok account_id =>
          click_echo (color_green c ("Associated account " +:+ account_id +:+ " with stage "
                                       +:+ fstring_opt (environment_name self) +:+ "."))
      | Raise ex =>
          if isinstance_CredentialsError c ex then
            click_echo (color_red c (exc_msg ex)) ;;
            _prompt_account_id fuel'
          else graise ex
      end
  end.

(** The profile that an answer of [_prompt_account_id] other than ["q"]
    selects: none for ["e"], else [profiles[int(answer) - 1]]. *)
Definition chosen (answer : string) : result (option string) :=
  if String.eqb answer "e" then Ok None
  else
    match py_int c answer with
    | Ok i =>
        match py_index (list_available_profiles c) (i - 1) with
        | Ok p => Ok (Some p)
        | Raise e => Raise e
        end
    | Raise e => Raise e
    end.

(** What one pass of [_prompt_account_id] shows before it reads the
    answer: the menu, and the question. *)
Definition account_menu : list tevent :=
  [ TEcho "The following AWS credential sources are available to use:";
    TEcho (credentials_help_text c) ]
  ++ (if truthy (getenv c (ACCESS_KEY c)) && truthy (getenv c (SECRET_KEY c))
      then [TEcho ("  e. Environment variables: " +:+ ACCESS_KEY c +:+ " and "
                     +:+ SECRET_KEY c)]
      else [])
  ++ map (fun ip => TEcho ("  " +:+ str_nat (fst ip + 1) +:+ ". " +:+ snd ip
                             +:+ " (named profile)"))
       (enumerate_from 0 (list_available_profiles c))
  ++ [ TEcho "  q. Quit and configure AWS credential myself";
       TPrompt account_prompt_text None (Some account_choices) ].

(** [_prompt_stage_name]. *)
Definition _prompt_stage_name : G unit :=
  click_echo
    "Enter a name for this stage. This will be referenced later when you use the sam pipeline init command:" ;;
  self ← get_ctx ;
  v ← click_prompt "Stage name" (environment_name self) None ;
  modify_ctx (set_environment_name (Some v)).

(** [_prompt_region_name]. *)
Definition _prompt_region_name : G unit :=
  v ← click_prompt "Enter the region in which you want these resources to be created"
        (Some (get_default_aws_region c)) None ;
  modify_ctx (set_region (Some v)).

(** [_prompt_pipeline_user]. *)
Definition _prompt_pipeline_user : G unit :=
  v ← click_prompt
        "Enter the pipeline IAM user ARN if you have previously created one, or we will create one for you"
        (Some "") None ;
  modify_ctx (set_pipeline_user_arn (Some v)).

(** [_prompt_pipeline_execution_role]. *)
Definition _prompt_pipeline_execution_role : G unit :=
  v ← click_prompt
        "Enter the pipeline execution role ARN if you have previously created one, or we will create one for you"
        (Some "") None ;
  modify_ctx (set_pipeline_execution_role_arn (Some v)).

(** [_prompt_cloudformation_execution_role]. *)
Definition _prompt_cloudformation_execution_role : G unit :=
  v ← click_prompt
        "Enter the CloudFormation execution role ARN if you have previously created one, or we will create one for you"
        (Some "") None ;
  modify_ctx (set_cloudformation_execution_role_arn (Some v)).

(** [_prompt_artifacts_bucket]. *)
Definition _prompt_artifacts_bucket : G unit :=
  v ← click_prompt
        "Please enter the artifact bucket ARN for your Lambda function. If you do not have a bucket, we will create one for you"
        (Some "") None ;
  modify_ctx (set_artifacts_bucket_arn (Some v)).

Definition image_question : string :=
  "Does your application contain any IMAGE type Lambda functions?".

Definition image_prompt_text : string :=
  "Please enter the ECR image repository ARN(s) for your Image type function(s).If you do not yet have a repository, we will create one for you".

(** [_prompt_image_repository]. *)
Definition _prompt_image_repository : G unit :=
  yes ← click_confirm image_question ;
  if yes : bool then
    v ← click_prompt image_prompt_text (Some "") None ;
    modify_ctx (set_image_repository_arn (Some v)) ;;
    self ← get_ctx ;
    modify_ctx (set_create_image_repository (negb (truthy (image_repository_arn self))))
  else modify_ctx (set_create_image_repository false).

(** The bound methods that [_get_user_inputs] pairs with its texts. *)
Inductive question : Type :=
| QAccount
| QStage
| QRegion
| QPipelineUser
| QPipelineExecutionRole
| QCloudFormationExecutionRole
| QArtifactsBucket
| QImageRepository.

(** Calling one of them. *)
Definition ask (fuel : nat) (q : question) : G unit :=
  match q with
  | QAccount => _prompt_account_id fuel
  | QStage => _prompt_stage_name
  | QRegion => _prompt_region_name
  | QPipelineUser => _prompt_pipeline_user
  | QPipelineExecutionRole => _prompt_pipeline_execution_role
  | QCloudFormationExecutionRole => _prompt_cloudformation_execution_role
  | QArtifactsBucket => _prompt_artifacts_bucket
  | QImageRepository => _prompt_image_repository
  end.

(** [_get_user_inputs]. *)
Definition _get_user_inputs : G (list (string * question)) :=
  self ← get_ctx ;
  account_id ← glift (get_current_account_id c (profile self)) ;
  mret
    [ ("Account: " +:+ account_id, QAccount);
      ("Stage name: " +:+ fstring_opt (environment_name self), QStage);
      ("Region: " +:+ fstring_opt (region self), QRegion);
      (if truthy (pipeline_user_arn self)
       then "Pipeline user ARN: " +:+ fstring_opt (pipeline_user_arn self)
       else "Pipeline user: [to be created]",
       QPipelineUser);
      (if truthy (pipeline_execution_role_arn self)
       then "Pipeline execution role ARN: " +:+ fstring_opt (pipeline_execution_role_arn self)
       else "Pipeline execution role: [to be created]",
       QPipelineExecutionRole);
      (if truthy (cloudformation_execution_role_arn self)
       then "CloudFormation execution role ARN: "
              +:+ fstring_opt (cloudformation_execution_role_arn self)
       else "CloudFormation execution role: [to be created]",
       QCloudFormationExecutionRole);
      (if truthy (artifacts_bucket_arn self)
       then "Artifacts bucket ARN: " +:+ fstring_opt (artifacts_bucket_arn self)
       else "Artifacts bucket: [to be created]",
       QArtifactsBucket);
      (if truthy (image_repository_arn self)
       then "ECR image repository ARN: " +:+ fstring_opt (image_repository_arn self)
       else "ECR image repository: ["
              +:+ (if create_image_repository self then "to be created" else "skipped")
              +:+ "]",
       QImageRepository) ].

Definition summary_prompt_text : string :=
  "Press enter to confirm the values above, or select an item to edit the value".

(** What one pass of the loop of [run] shows before it reads the
    answer: the numbered texts of [inputs], and the question. *)
Definition summary_menu (inputs : list (string * question)) : list tevent :=
  [ TSecho "Below is the summary of the answers:" ]
  ++ map (fun it => TSecho ("  " +:+ str_nat (fst it + 1) +:+ ". " +:+ fst (snd it)))
       (enumerate_from 0 inputs)
  ++ [ TPrompt summary_prompt_text (Some "0")
         (Some ("0" :: numbers_from_one (length inputs))) ].

(** The [while True] loop that closes [run]. *)
Fixpoint summary_loop (fuel : nat) : G unit :=
  match fuel with
  | 0 => out_of_fuel
  | S fuel' =>
      inputs ← _get_user_inputs ;
      click_secho "Below is the summary of the answers:" ;;
      gfor_each
        (fun it => click_secho ("  " +:+ str_nat (fst it + 1) +:+ ". " +:+ fst (snd it)))
        (enumerate_from 0 inputs) ;;
      edit_input ← click_prompt summary_prompt_text (Some "0")
                     (Some ("0" :: numbers_from_one (length inputs))) ;
      n ← glift (py_int c edit_input) ;
      if Z.eqb n 0 then mret tt
      else
        item ← glift (py_index inputs (n - 1)) ;
        ask fuel' (snd item) ;;
        click_echo "" ;;
        summary_loop fuel'
  end.

(** [run]. *)
Definition run (fuel : nat) : G unit :=
  click_secho (color_bold c "[1] Stage definition") ;;
  self ← get_ctx ;
  (if truthy (environment_name self)
   then click_echo ("Stage name: " +:+ fstring_opt (environment_name self))
   else _prompt_stage_name) ;;
  click_echo "" ;;
  click_secho (color_bold c "[2] Account details") ;;
  _prompt_account_id fuel ;;
  click_echo "" ;;
  self ← get_ctx ;
  (if negb (truthy (region self)) then _prompt_region_name else mret tt) ;;
  self ← get_ctx ;
  (if truthy (pipeline_user_arn self)
   then click_echo ("Pipeline IAM user ARN: " +:+ fstring_opt (pipeline_user_arn self))
   else _prompt_pipeline_user) ;;
  click_echo "" ;;
  click_secho (color_bold c "[3] Reference application build resources") ;;
  self ← get_ctx ;
  (if truthy (pipeline_execution_role_arn self)
   then click_echo ("Pipeline execution role ARN: "
                      +:+ fstring_opt (pipeline_execution_role_arn self))
   else _prompt_pipeline_execution_role) ;;
  click_echo "" ;;
  self ← get_ctx ;
  (if truthy (cloudformation_execution_role_arn self)
   then click_echo ("CloudFormation execution role ARN: "
                      +:+ fstring_opt (cloudformation_execution_role_arn self))
   else _prompt_cloudformation_execution_role) ;;
  click_echo "" ;;
  self ← get_ctx ;
  (if truthy (artifacts_bucket_arn self)
   then click_echo ("Artifacts bucket ARN: "
                      +:+ fstring_opt (cloudformation_execution_role_arn self))
   else _prompt_artifacts_bucket) ;;
  click_echo "" ;;
  self ← get_ctx ;
  (if truthy (image_repository_arn self)
   then click_echo ("ECR image repository ARN: " +:+ fstring_opt (image_repository_arn self))
   else _prompt_image_repository) ;;
  click_echo "" ;;
  click_secho (color_bold c "[5] Summary") ;;
  summary_loop fuel.

End Methods.

(** The questions of a trace, in order. *)
Fixpoint questions (tr : list tevent) : list string :=
  match tr with
  | [] => []
  | TPrompt text _ _ :: tr' => text :: questions tr'
  | TConfirm text :: tr' => text :: questions tr'
  | _ :: tr' => questions tr'
  end.

(** A console with two named profiles, of which the first has no valid
    credentials: the first answer to the account question is ["1"], the
    next ones are ["2"]; every other question is answered with its
    default, and the user says yes. *)
Definition sample_console : Console :=
  {| prompt_answer := fun n text default _ =>
       if String.eqb text account_prompt_text then
         match n with
         | 0 => Ok "1"
         | _ => Ok "2"
         end
       else Ok (match default with Some d => d | None => "" end);
     confirm_answer := fun _ _ => Ok true;
     list_available_profiles := ["default"; "prod"];
     getenv := fun _ => None;
     get_current_account_id := fun p =>
       match p with
       | Some "prod" => Ok "123456789012"
       | _ => Raise (PyExc KException "CredentialsError" "Unable to resolve credentials")
       end;
     isinstance_CredentialsError := fun e => String.eqb (exc_class e) "CredentialsError";
     get_default_aws_region := "us-east-1";
     color_bold := fun s => s;
     color_green := fun s => s;
     color_red := fun s => s;
     credentials_help_text :=
       "To know more about configuration AWS credentials, visit the link below:";
     ACCESS_KEY := "AWS_ACCESS_KEY_ID";
     SECRET_KEY := "AWS_SECRET_ACCESS_KEY";
     int_other := fun s => Raise (PyExc KValueError "ValueError" s) |}.

(** A console like [sample_console], whose user selects item 2 at the
    first question, enters the stage name [Gamma], and confirms the next
    summary. *)
Definition editing_console : Console :=
  {| prompt_answer := fun n text default _ =>
       if String.eqb text summary_prompt_text then
         match n with
         | 0 => Ok "2"
         | _ => Ok "0"
         end
       else if String.eqb text "Stage name" then Ok "Gamma"
       else Ok (match default with Some d => d | None => "" end);
     confirm_answer := confirm_answer sample_console;
     list_available_profiles := list_available_profiles sample_console;
     getenv := getenv sample_console;
     get_current_account_id := get_current_account_id sample_console;
     isinstance_CredentialsError := isinstance_CredentialsError sample_console;
     get_default_aws_region := get_default_aws_region sample_console;
     color_bold := color_bold sample_console;
     color_green := color_green sample_console;
     color_red := color_red sample_console;
     credentials_help_text := credentials_help_text sample_console;
     ACCESS_KEY := ACCESS_KEY sample_console;
     SECRET_KEY := SECRET_KEY sample_console;
     int_other := int_other sample_console |}.

(** A context with every value supplied. *)
Definition sample_context : GuidedContext :=
  {| profile := None;
     environment_name := Some "Beta";
     pipeline_user_arn := Some "arn:aws:iam::123456789012:user/pipeline";
     pipeline_execution_role_arn := Some "arn:aws:iam::123456789012:role/pipeline";
     cloudformation_execution_role_arn := Some "arn:aws:iam::123456789012:role/cfn";
     artifacts_bucket_arn := Some "arn:aws:s3:::artifacts";
     create_image_repository := false;
     image_repository_arn := Some "arn:aws:ecr:us-east-1:123456789012:repository/my-repo";
     region := Some "us-east-1" |}.

End Guided.

(** A world like [w], but for the secrets backend, which answers
    [answer]. *)
Definition with_get_secret_value (w : World) (answer : result pyval) : World :=
  {| color_yellow := color_yellow w;
     color_red := color_red w;
     click_confirm := click_confirm w;
     CFN_TEMPLATE_PATH := CFN_TEMPLATE_PATH w;
     os_path_join := os_path_join w;
     open_read := open_read w;
     manage_stack := manage_stack w;
     boto3_client := boto3_client w;
     get_secret_value := fun _ _ _ => answer;
     json_loads := json_loads w;
     Resource_name := Resource_name w;
     ECRImageRepository_get_uri := ECRImageRepository_get_uri w;
     SamConfig_new := SamConfig_new w;
     SamConfig_put := SamConfig_put w;
     SamConfig_flush := SamConfig_flush w |}.

Definition ResourceNotFoundException : pyexc :=
  PyExc KException "ResourceNotFoundException" "Secrets Manager cannot find the secret.".

Definition AccessDenied : pyexc :=
  PyExc KException "ClientError" "User is not authorized to perform: cloudformation:CreateStack".

(** A world like [w], but for the file system, which answers [answer]
    to every [open(path).read()]. *)
Definition with_open_read (w : World) (answer : result string) : World :=
  {| color_yellow := color_yellow w;
     color_red := color_red w;
     click_confirm := click_confirm w;
     CFN_TEMPLATE_PATH := CFN_TEMPLATE_PATH w;
     os_path_join := os_path_join w;
     open_read := fun _ => answer;
     manage_stack := manage_stack w;
     boto3_client := boto3_client w;
     get_secret_value := get_secret_value w;
     json_loads := json_loads w;
     Resource_name := Resource_name w;
     ECRImageRepository_get_uri := ECRImageRepository_get_uri w;
     SamConfig_new := SamConfig_new w;
     SamConfig_put := SamConfig_put w;
     SamConfig_flush := SamConfig_flush w |}.

Definition FileNotFoundError : pyexc :=
  PyExc KException "FileNotFoundError" "No such file or directory".

(** * Properties *)

(** ** Truthiness *)

Lemma str_truthy_true_iff (s : string) : str_truthy s = true <-> s <> "".
Proof. destruct s; simpl; split; intros H; congruence. Qed.

Lemma truthy_true_iff (o : option string) :
  truthy o = true <-> exists s, o = Some s /\ s <> "".
Proof.
  destruct o as [s|]; simpl.
  - rewrite str_truthy_true_iff. split.
    + intros H. exists s. auto.
    + intros (s' & Heq & Hne). congruence.
  - split; [discriminate|]. intros (s & Heq & _). discriminate.
Qed.

Lemma or_empty_default (o : option string) : or_empty o = default "" o.
Proof. destruct o as [[|c s]|]; reflexivity. Qed.

(** ** The substitution of the stack name *)

Example re_sub_my_env : re_sub_non_alnum "My Env!" = "My-Env-".
Proof. reflexivity. Qed.

Example re_sub_consecutive : re_sub_non_alnum "a  --b__c" = "a-b-c".
Proof. reflexivity. Qed.

Example re_sub_leading : re_sub_non_alnum "  Beta 1" = "-Beta-1".
Proof. reflexivity. Qed.

Example runs_of_my_env :
  runs_of "My Env!" = [(true, "My"); (false, " "); (true, "Env"); (false, "!")].
Proof. reflexivity. Qed.

Lemma re_sub_cons_in (c : ascii) (s : string) :
  in_class_alnum c = true ->
  re_sub_non_alnum (String c s) = String c (re_sub_non_alnum s).
Proof. intros Hc. simp re_sub_non_alnum. rewrite Hc. reflexivity. Qed.

Lemma re_sub_cons_out (c : ascii) (s : string) :
  in_class_alnum c = false ->
  re_sub_non_alnum (String c s) = String "-" (re_sub_non_alnum (skip_non_alnum s)).
Proof. intros Hc. simp re_sub_non_alnum. rewrite Hc. reflexivity. Qed.

Lemma append_cons (c : ascii) (s t : string) : String c s +:+ t = String c (s +:+ t).
Proof. reflexivity. Qed.

Lemma append_empty (t : string) : "" +:+ t = t.
Proof. reflexivity. Qed.

Lemma skip_non_alnum_no_match (s : string) :
  no_match_at_head s = true -> skip_non_alnum s = s.
Proof. destruct s as [|c s]; simpl; [reflexivity|]. intros ->. reflexivity. Qed.

Lemma skip_non_alnum_block (n rest : string) :
  all_in_class false n = true ->
  no_match_at_head rest = true ->
  skip_non_alnum (n +:+ rest) = rest.
Proof.
  intros Hn Hrest. induction n as [|c n IH]; simpl in Hn.
  - rewrite append_empty. apply skip_non_alnum_no_match, Hrest.
  - apply andb_true_iff in Hn as [Hc Hn]. rewrite append_cons. simpl.
    destruct (in_class_alnum c); [discriminate|]. apply IH, Hn.
Qed.

Lemma re_sub_block_in (a rest : string) :
  all_in_class true a = true ->
  re_sub_non_alnum (a +:+ rest) = a +:+ re_sub_non_alnum rest.
Proof.
  intros Ha. induction a as [|c a IH]; simpl in Ha; [reflexivity|].
  apply andb_true_iff in Ha as [Hc Ha]. rewrite !append_cons.
  rewrite re_sub_cons_in by (destruct (in_class_alnum c); [reflexivity|discriminate]).
  rewrite IH by exact Ha. reflexivity.
Qed.

Lemma re_sub_block_out (n rest : string) :
  str_truthy n = true ->
  all_in_class false n = true ->
  no_match_at_head rest = true ->
  re_sub_non_alnum (n +:+ rest) = "-" +:+ re_sub_non_alnum rest.
Proof.
  intros Hne Hn Hrest. destruct n as [|c n]; [discriminate|]. simpl in Hn.
  apply andb_true_iff in Hn as [Hc Hn]. rewrite append_cons.
  rewrite re_sub_cons_out by (destruct (in_class_alnum c); [discriminate|reflexivity]).
  rewrite skip_non_alnum_block by assumption. reflexivity.
Qed.

Lemma join_runs_no_match (bs : list run_block) :
  maximal_runs (Some false) bs = true -> no_match_at_head (join_runs bs) = true.
Proof.
  destruct bs as [|[k t] bs]; simpl; [reflexivity|].
  intros H. apply andb_true_iff in H as [H _]. apply andb_true_iff in H as [Hrun Hk].
  unfold is_run in Hrun. simpl in *. apply andb_true_iff in Hrun as [Hne Hall].
  destruct k; [|discriminate].
  destruct t as [|c t]; [discriminate|]. simpl in *.
  apply andb_true_iff in Hall as [Hc _].
  destruct (in_class_alnum c); [reflexivity|discriminate].
Qed.

Lemma re_sub_replace_runs (prev : option bool) (bs : list run_block) :
  maximal_runs prev bs = true ->
  re_sub_non_alnum (join_runs bs) = replace_runs bs.
Proof.
  revert prev. induction bs as [|[k t] bs IH]; intros prev H;
    cbn [join_runs replace_runs maximal_runs fst snd] in *.
  - reflexivity.
  - apply andb_true_iff in H as [H Hrest]. apply andb_true_iff in H as [Hrun _].
    unfold is_run in Hrun. simpl in Hrun. apply andb_true_iff in Hrun as [Hne Hall].
    destruct k.
    + rewrite re_sub_block_in by exact Hall. rewrite (IH _ Hrest). reflexivity.
    + rewrite re_sub_block_out; auto using join_runs_no_match.
      rewrite (IH _ Hrest). reflexivity.
Qed.

(** Every string has a decomposition into maximal runs: [runs_of]. *)
Lemma runs_of_join (s : string) : join_runs (runs_of s) = s.
Proof.
  induction s as [|c s IH]; simpl; [reflexivity|].
  destruct (runs_of s) as [|[k' t] bs] eqn:E; simpl in *.
  - rewrite <- IH. reflexivity.
  - destruct (Bool.eqb (in_class_alnum c) k'); simpl; rewrite <- IH; reflexivity.
Qed.

Lemma runs_of_maximal (s : string) : maximal_runs None (runs_of s) = true.
Proof.
  induction s as [|c s IH]; simpl; [reflexivity|].
  destruct (runs_of s) as [|[k' t] bs] eqn:E; simpl in *.
  - unfold is_run. simpl. rewrite eqb_reflx. reflexivity.
  - apply andb_true_iff in IH as [IH Hrest]. rewrite andb_true_r in IH.
    unfold is_run in IH. simpl in IH. apply andb_true_iff in IH as [Hne Hall].
    destruct (Bool.eqb (in_class_alnum c) k') eqn:Hk; simpl.
    + apply eqb_prop in Hk. subst k'. unfold is_run. simpl.
      rewrite eqb_reflx, Hall, Hrest. reflexivity.
    + unfold is_run. simpl. rewrite eqb_reflx, Hk, Hne, Hall, Hrest. reflexivity.
Qed.

Lemma re_sub_runs_of (s : string) : re_sub_non_alnum s = replace_runs (runs_of s).
Proof.
  rewrite <- (runs_of_join s) at 1.
  apply (re_sub_replace_runs None), runs_of_maximal.
Qed.

(** ** Completeness of the resources *)

Lemma image_repository_participates_iff (self : Environment) :
  create_image_repository self || truthy (arn (image_repository self)) = true
  <-> image_repository_participates self.
Proof.
  unfold image_repository_participates.
  rewrite orb_true_iff, truthy_true_iff. reflexivity.
Qed.

Lemma In_get_resources (self : Environment) (r : Resource) :
  In r (_get_resources self) <->
    r = iam_resource (pipeline_user self)
    \/ r = pipeline_execution_role self
    \/ r = cloudformation_execution_role self
    \/ r = artifacts_bucket self
    \/ (image_repository_participates self /\ r = image_repository self).
Proof.
  rewrite <- image_repository_participates_iff. unfold _get_resources.
  destruct (create_image_repository self || truthy (arn (image_repository self)));
    simpl; intuition (auto; try discriminate).
Qed.

(** C1. [did_user_provide_all_required_resources] is true exactly when
    every participating descriptor is user-provided: the pipeline user,
    the two execution roles and the artifacts bucket always take part, and
    the image repository takes part exactly when
    [create_image_repository] is set or its identifier is set. *)
Theorem did_user_provide_all_required_resources_iff (self : Environment) :
  (forall r : Resource,
      In r (_get_resources self) <->
        r = iam_resource (pipeline_user self)
        \/ r = pipeline_execution_role self
        \/ r = cloudformation_execution_role self
        \/ r = artifacts_bucket self
        \/ (image_repository_participates self /\ r = image_repository self))
  /\ (did_user_provide_all_required_resources self = true <->
        is_user_provided (iam_resource (pipeline_user self)) = true
        /\ is_user_provided (pipeline_execution_role self) = true
        /\ is_user_provided (cloudformation_execution_role self) = true
        /\ is_user_provided (artifacts_bucket self) = true
        /\ (image_repository_participates self ->
            is_user_provided (image_repository self) = true)).
Proof.
  split; [apply In_get_resources|].
  unfold did_user_provide_all_required_resources.
  rewrite forallb_forall. split.
  - intros H. repeat split; try (apply H, In_get_resources; tauto).
    intros Hp. apply H, In_get_resources. tauto.
  - intros (H1 & H2 & H3 & H4 & H5) r Hr.
    apply In_get_resources in Hr as [->|[->|[->|[->|[Hp ->]]]]]; auto.
Qed.

(** ** [bootstrap] *)

#[local] Arguments bootstrap_stack_args : simpl never.
#[local] Arguments skipping_creation_text : simpl never.
#[local] Arguments will_create_text : simpl never.
#[local] Arguments canceling_text : simpl never.

Ltac unfold_monads :=
  unfold mbind, mret, M_bind, M_ret, IO_bind, IO_ret, io, get_self, modify_self,
    emit, lift, lift_fault, try_except, outcome, self_after, trace in *.

Lemma bootstrap_complete (w : World) (confirm : bool) (self : Environment) :
  did_user_provide_all_required_resources self = true ->
  bootstrap w confirm self = (Ok true, self, [EvSecho (skipping_creation_text w self)]).
Proof.
  intros H. unfold bootstrap, click_secho. unfold_monads. rewrite H. reflexivity.
Qed.

Lemma bootstrap_incomplete (w : World) (confirm : bool) (self : Environment) :
  did_user_provide_all_required_resources self = false ->
  bootstrap w confirm self
  = if confirm then
      match click_confirm w proceed_prompt with
      | Ok true =>
          match bootstrap_deploy w self with
          | (r, self', tr) =>
              (r, self', [EvEcho (will_create_text self); EvConfirm proceed_prompt] ++ tr)
          end
      | Ok false =>
          (Ok false, self,
           [EvEcho (will_create_text self); EvConfirm proceed_prompt;
            EvSecho (canceling_text w)])
      | Raise e =>
          (Raise e, self, [EvEcho (will_create_text self); EvConfirm proceed_prompt])
      end
    else
      match bootstrap_deploy w self with
      | (r, self', tr) => (r, self', [EvEcho (will_create_text self)] ++ tr)
      end.
Proof.
  intros H. unfold bootstrap, click_secho, click_echo, call_click_confirm.
  unfold_monads. rewrite H. simpl. destruct confirm; simpl.
  - destruct (click_confirm w proceed_prompt) as [[|]|e]; simpl; try reflexivity.
    destruct (bootstrap_deploy w self) as [[r self'] tr]. reflexivity.
  - destruct (bootstrap_deploy w self) as [[r self'] tr]. reflexivity.
Qed.

(** C2. When every required resource is user-provided, [bootstrap]
    returns [True], leaves the object as it is and does nothing but print
    one line: no call of the provisioning backend, of the secrets backend
    or of the prompt.  In particular, when a first call returned [True]
    and left such an object, whatever the outside answered to that first
    call, the method called twice in a row returns [True], leaves what
    the first call left and adds that one line to what the first call
    did. *)
Theorem bootstrap_all_provided_is_noop (w : World) (confirm : bool) (self : Environment)
    (H : did_user_provide_all_required_resources self = true) :
  bootstrap w confirm self = (Ok true, self, [EvSecho (skipping_creation_text w self)])
  /\ (forall (w0 : World) (self0 : Environment) (tr0 : list event),
        bootstrap w0 confirm self0 = (Ok true, self, tr0) ->
        bootstrap_twice w0 w confirm self0
        = (Ok true, self, tr0 ++ [EvSecho (skipping_creation_text w self)])).
Proof.
  split; [apply bootstrap_complete, H|].
  intros w0 self0 tr0 H0. unfold bootstrap_twice. unfold_monads.
  rewrite H0, (bootstrap_complete w confirm self H). reflexivity.
Qed.

(** C4. With a resource still to create, [bootstrap(confirm_changeset =
    True)] whose confirmation is declined returns [False]: it has printed
    the list, asked, and printed the cancellation; the provisioning
    backend was not called, and the object, with every identifier and
    credential, is unchanged. *)
Theorem bootstrap_declined_is_noop (w : World) (self : Environment)
    (Hmissing : did_user_provide_all_required_resources self = false)
    (Hdecline : click_confirm w proceed_prompt = Ok false) :
  bootstrap w true self
  = (Ok false, self,
     [EvEcho (will_create_text self); EvConfirm proceed_prompt; EvSecho (canceling_text w)])
  /\ manage_stack_calls (trace (bootstrap w true self)) = []
  /\ secrets_events (trace (bootstrap w true self)) = []
  /\ self_after (bootstrap w true self) = self.
Proof.
  rewrite (bootstrap_incomplete w true self Hmissing), Hdecline. auto.
Qed.

(** *** The deployment *)

#[local] Arguments template_path : simpl never.

(** The secrets backend is reached once per call of the helper: one
    client, then at most one request, which is made when the client was
    obtained. *)
Lemma secret_pair_trace (w : World) (sm_id : string) (profile region : option string) :
  let region_name := if truthy region then region else None in
  match boto3_client w profile region_name "secretsmanager" with
  | Some e =>
      _get_pipeline_user_secret_pair w sm_id profile region
      = (Raise e, [EvClient profile region_name "secretsmanager"])
  | None =>
      snd (_get_pipeline_user_secret_pair w sm_id profile region)
      = [EvClient profile region_name "secretsmanager";
         EvGetSecretValue profile region_name sm_id]
  end.
Proof.
  unfold _get_pipeline_user_secret_pair. unfold_monads. cbn.
  destruct (boto3_client w profile _ "secretsmanager"); cbn; [reflexivity|].
  destruct (get_secret_value w profile _ sm_id) as [response|e]; cbn; [|reflexivity].
  destruct (getitem response "SecretString") as [secret_string|e]; cbn; [|reflexivity].
  destruct (json_loads w secret_string) as [secret_json|e]; cbn; [|reflexivity].
  destruct (getitem secret_json "aws_access_key_id") as [k|e]; cbn; [|reflexivity].
  destruct (getitem secret_json "aws_secret_access_key") as [s|e]; reflexivity.
Qed.

Lemma secret_pair_trace_ok (w : World) (sm_id : string) (profile region : option string)
    (p : pyval * pyval) :
  fst (_get_pipeline_user_secret_pair w sm_id profile region) = Ok p ->
  snd (_get_pipeline_user_secret_pair w sm_id profile region)
  = [EvClient profile (if truthy region then region else None) "secretsmanager";
     EvGetSecretValue profile (if truthy region then region else None) sm_id].
Proof.
  intros Hok. pose proof (secret_pair_trace w sm_id profile region) as H. cbv zeta in H.
  destruct (boto3_client w profile _ "secretsmanager"); [|exact H].
  rewrite H in Hok. discriminate.
Qed.

#[local] Arguments _get_pipeline_user_secret_pair : simpl never.

Lemma bootstrap_capture_eq (w : World) (output : StackOutput) (self : Environment) :
  bootstrap_capture w output self
  = let self1 := set_pipeline_user_arn (output !! "PipelineUser") self in
    match output !! "PipelineUserSecretKey" with
    | Some sm_id =>
        if str_truthy sm_id then
          let pair :=
            _get_pipeline_user_secret_pair w sm_id (aws_profile self) (aws_region self) in
          match fst pair with
          | Ok p =>
              (Ok true,
               assign_remaining_arns output
                 (set_pipeline_user_credentials (fst p) (snd p) self1),
               snd pair)
          | Raise e => (Raise e, self1, snd pair)
          end
        else (Ok true, assign_remaining_arns output self1, [])
    | None => (Ok true, assign_remaining_arns output self1, [])
    end.
Proof.
  unfold bootstrap_capture. unfold_monads.
  destruct (output !! "PipelineUserSecretKey") as [sm_id|];
    [destruct (str_truthy sm_id)|]; cbn; try reflexivity.
  destruct (_get_pipeline_user_secret_pair w sm_id (aws_profile self) (aws_region self))
    as [[p|e] tr]; cbn; rewrite ?app_nil_r; reflexivity.
Qed.

Lemma bootstrap_deploy_eq (w : World) (self : Environment) :
  bootstrap_deploy w self
  = match open_read w (template_path w) with
    | Ok body =>
        match manage_stack w (bootstrap_stack_args self body) with
        | Ok output =>
            match bootstrap_capture w output self with
            | (r, self', tr) =>
                (r, self',
                 [EvOpenRead (template_path w);
                  EvManageStack (bootstrap_stack_args self body)] ++ tr)
            end
        | Raise e =>
            (Raise e, self,
             [EvOpenRead (template_path w); EvManageStack (bootstrap_stack_args self body)])
        end
    | Raise e => (Raise e, self, [EvOpenRead (template_path w)])
    end.
Proof.
  unfold bootstrap_deploy, _read_template, call_manage_stack. fold (template_path w).
  unfold_monads. cbn.
  destruct (open_read w (template_path w)) as [body|e]; cbn; [|reflexivity].
  destruct (manage_stack w (bootstrap_stack_args self body)) as [output|e]; cbn;
    [|reflexivity].
  destruct (bootstrap_capture w output self) as [[r self'] tr]. reflexivity.
Qed.

Lemma bootstrap_proceeds_eq (w : World) (confirm : bool) (self : Environment) :
  did_user_provide_all_required_resources self = false ->
  proceeds w confirm ->
  bootstrap w confirm self
  = match bootstrap_deploy w self with
    | (r, self', tr) => (r, self', asked self confirm ++ tr)
    end.
Proof.
  intros Hmissing Hproceed. rewrite (bootstrap_incomplete w confirm self Hmissing).
  destruct Hproceed as [-> | Hyes]; [reflexivity|].
  destruct confirm; [|reflexivity]. rewrite Hyes. reflexivity.
Qed.

Lemma manage_stack_calls_app (l1 l2 : list event) :
  manage_stack_calls (l1 ++ l2) = manage_stack_calls l1 ++ manage_stack_calls l2.
Proof.
  induction l1 as [|ev l1 IH]; simpl; [reflexivity|].
  destruct ev; simpl; rewrite IH; reflexivity.
Qed.

Lemma secret_lookups_app (l1 l2 : list event) :
  secret_lookups (l1 ++ l2) = secret_lookups l1 ++ secret_lookups l2.
Proof.
  induction l1 as [|ev l1 IH]; simpl; [reflexivity|].
  destruct ev; simpl; rewrite IH; reflexivity.
Qed.

Lemma secrets_events_app (l1 l2 : list event) :
  secrets_events (l1 ++ l2) = secrets_events l1 ++ secrets_events l2.
Proof. apply filter_app. Qed.

Lemma asked_manage_stack_calls (self : Environment) (confirm : bool) :
  manage_stack_calls (asked self confirm) = [].
Proof. destruct confirm; reflexivity. Qed.

Lemma asked_secrets_events (self : Environment) (confirm : bool) :
  secrets_events (asked self confirm) = [].
Proof. destruct confirm; reflexivity. Qed.

Lemma asked_secret_lookups (self : Environment) (confirm : bool) :
  secret_lookups (asked self confirm) = [].
Proof. destruct confirm; reflexivity. Qed.

Lemma secret_pair_manage_stack_calls (w : World) (sm_id : string)
    (profile region : option string) :
  manage_stack_calls (snd (_get_pipeline_user_secret_pair w sm_id profile region)) = [].
Proof.
  pose proof (secret_pair_trace w sm_id profile region) as H. cbv zeta in H.
  destruct (boto3_client w profile _ "secretsmanager"); rewrite H; reflexivity.
Qed.

Lemma bootstrap_capture_manage_stack_calls (w : World) (output : StackOutput)
    (self : Environment) :
  manage_stack_calls (trace (bootstrap_capture w output self)) = [].
Proof.
  rewrite bootstrap_capture_eq. cbv zeta.
  destruct (output !! "PipelineUserSecretKey") as [sm_id|]; [|reflexivity].
  destruct (str_truthy sm_id); [|reflexivity].
  destruct (fst (_get_pipeline_user_secret_pair w sm_id (aws_profile self) (aws_region self)));
    apply secret_pair_manage_stack_calls.
Qed.

Lemma bootstrap_manage_stack_once (w : World) (confirm : bool) (self : Environment)
    (body : string) :
  did_user_provide_all_required_resources self = false ->
  proceeds w confirm ->
  open_read w (template_path w) = Ok body ->
  manage_stack_calls (trace (bootstrap w confirm self)) = [bootstrap_stack_args self body].
Proof.
  intros Hmissing Hproceed Hread.
  rewrite (bootstrap_proceeds_eq w confirm self Hmissing Hproceed).
  rewrite bootstrap_deploy_eq, Hread.
  destruct (manage_stack w (bootstrap_stack_args self body)) as [output|e]; unfold trace.
  - pose proof (bootstrap_capture_manage_stack_calls w output self) as Hc.
    destruct (bootstrap_capture w output self) as [[r self'] tr]. unfold trace in Hc.
    cbn [snd] in *. rewrite !manage_stack_calls_app, asked_manage_stack_calls, Hc.
    reflexivity.
  - cbn [snd]. rewrite manage_stack_calls_app, asked_manage_stack_calls. reflexivity.
Qed.

Lemma bootstrap_parameter_overrides_dom (self : Environment) :
  dom (bootstrap_parameter_overrides self)
  = ({["PipelineUserArn"; "PipelineExecutionRoleArn"; "CloudFormationExecutionRoleArn";
       "ArtifactsBucketArn"; "CreateImageRepository"; "ImageRepositoryArn"]} : gset string).
Proof.
  unfold bootstrap_parameter_overrides. rewrite !dom_insert_L, dom_empty_L. set_solver.
Qed.

(** C5, as amended.  When [bootstrap] goes past the confirmation step
    and reads its template, it calls the provisioning backend exactly once, whatever
    the backend and the secrets backend then do.  The call carries the
    stack name, the region, the profile, the template and the parameter
    overrides: for each of the five descriptors its identifier, or the
    empty string when it has none, and the flag ["true"] or ["false"]
    for [create_image_repository]; the mapping has these six keys only. *)
Theorem bootstrap_invokes_backend_once (w : World) (confirm : bool) (self : Environment)
    (body : string)
    (Hmissing : did_user_provide_all_required_resources self = false)
    (Hproceed : proceeds w confirm)
    (Hread : open_read w (template_path w) = Ok body) :
  exists a : StackArgs,
    manage_stack_calls (trace (bootstrap w confirm self)) = [a]
    /\ stack_name a = _get_stack_name self
    /\ region a = aws_region self
    /\ profile a = aws_profile self
    /\ template_body a = body
    /\ parameter_overrides a !! "PipelineUserArn"
       = Some (default "" (arn (iam_resource (pipeline_user self))))
    /\ parameter_overrides a !! "PipelineExecutionRoleArn"
       = Some (default "" (arn (pipeline_execution_role self)))
    /\ parameter_overrides a !! "CloudFormationExecutionRoleArn"
       = Some (default "" (arn (cloudformation_execution_role self)))
    /\ parameter_overrides a !! "ArtifactsBucketArn"
       = Some (default "" (arn (artifacts_bucket self)))
    /\ parameter_overrides a !! "ImageRepositoryArn"
       = Some (default "" (arn (image_repository self)))
    /\ parameter_overrides a !! "CreateImageRepository"
       = Some (if create_image_repository self then "true" else "false")
    /\ dom (parameter_overrides a)
       = ({["PipelineUserArn"; "PipelineExecutionRoleArn";
            "CloudFormationExecutionRoleArn"; "ArtifactsBucketArn";
            "CreateImageRepository"; "ImageRepositoryArn"]} : gset string).
Proof.
  exists (bootstrap_stack_args self body).
  split; [apply bootstrap_manage_stack_once; assumption|].
  unfold bootstrap_stack_args. cbn [stack_name region profile template_body parameter_overrides].
  rewrite <- !or_empty_default.
  repeat split; try apply bootstrap_parameter_overrides_dom;
    unfold bootstrap_parameter_overrides; simplify_map_eq; reflexivity.
Qed.

(** *** The capture of the outputs *)

Lemma bootstrap_deployed_eq (w : World) (confirm : bool) (self : Environment)
    (body : string) (output : StackOutput) :
  did_user_provide_all_required_resources self = false ->
  proceeds w confirm ->
  open_read w (template_path w) = Ok body ->
  manage_stack w (bootstrap_stack_args self body) = Ok output ->
  bootstrap w confirm self
  = match bootstrap_capture w output self with
    | (r, self', tr) =>
        (r, self',
         asked self confirm
           ++ [EvOpenRead (template_path w); EvManageStack (bootstrap_stack_args self body)]
           ++ tr)
    end.
Proof.
  intros Hmissing Hproceed Hread Hstack.
  rewrite (bootstrap_proceeds_eq w confirm self Hmissing Hproceed).
  rewrite bootstrap_deploy_eq, Hread, Hstack.
  destruct (bootstrap_capture w output self) as [[r self'] tr]. reflexivity.
Qed.

(** [bootstrap] never assigns [is_user_provided]: whatever it does, the
    five flags are what they were. *)
Lemma bootstrap_capture_is_user_provided (w : World) (output : StackOutput)
    (self : Environment) :
  let self' := self_after (bootstrap_capture w output self) in
  is_user_provided (iam_resource (pipeline_user self'))
  = is_user_provided (iam_resource (pipeline_user self))
  /\ is_user_provided (pipeline_execution_role self')
     = is_user_provided (pipeline_execution_role self)
  /\ is_user_provided (cloudformation_execution_role self')
     = is_user_provided (cloudformation_execution_role self)
  /\ is_user_provided (artifacts_bucket self') = is_user_provided (artifacts_bucket self)
  /\ is_user_provided (image_repository self') = is_user_provided (image_repository self).
Proof.
  rewrite bootstrap_capture_eq. cbv zeta.
  destruct (output !! "PipelineUserSecretKey") as [sm_id|]; [|cbn; auto 6].
  destruct (str_truthy sm_id); [|cbn; auto 6].
  destruct (fst (_get_pipeline_user_secret_pair w sm_id (aws_profile self) (aws_region self)));
    cbn; auto 6.
Qed.

(** When the secret lookup raises, [bootstrap] raises with the pipeline
    user's identifier assigned and the four other identifiers as they
    were. *)
Lemma bootstrap_capture_lookup_raises (w : World) (output : StackOutput)
    (self : Environment) (sm_id : string) (e : pyexc) :
  output !! "PipelineUserSecretKey" = Some sm_id ->
  sm_id <> "" ->
  fst (_get_pipeline_user_secret_pair w sm_id (aws_profile self) (aws_region self))
  = Raise e ->
  outcome (bootstrap_capture w output self) = Raise e
  /\ self_after (bootstrap_capture w output self)
     = set_pipeline_user_arn (output !! "PipelineUser") self.
Proof.
  intros Hkey Hne Hraise. rewrite bootstrap_capture_eq. cbv zeta.
  apply str_truthy_true_iff in Hne. rewrite Hkey, Hne, Hraise. split; reflexivity.
Qed.

(** C10, as amended.  When [bootstrap] has gone past the confirmation
    step, the provisioning backend has answered with [output] and the
    method returns (the secret lookup, if there is one, does not raise),
    the identifier of each of the five descriptors is [output.get] of
    its key: the value of the key, or [None] when the key is absent,
    whatever the identifier was before.  [name], [aws_profile],
    [aws_region] and [create_image_repository] are what they were. *)
Theorem bootstrap_overwrites_identifiers (w : World) (confirm : bool) (self : Environment)
    (body : string) (output : StackOutput) (b : bool)
    (Hmissing : did_user_provide_all_required_resources self = false)
    (Hproceed : proceeds w confirm)
    (Hread : open_read w (template_path w) = Ok body)
    (Hstack : manage_stack w (bootstrap_stack_args self body) = Ok output)
    (Hreturns : outcome (bootstrap w confirm self) = Ok b) :
  let self' := self_after (bootstrap w confirm self) in
  arn (iam_resource (pipeline_user self')) = output !! "PipelineUser"
  /\ arn (pipeline_execution_role self') = output !! "PipelineExecutionRole"
  /\ arn (cloudformation_execution_role self') = output !! "CloudFormationExecutionRole"
  /\ arn (artifacts_bucket self') = output !! "ArtifactsBucket"
  /\ arn (image_repository self') = output !! "ImageRepository"
  /\ name self' = name self
  /\ aws_profile self' = aws_profile self
  /\ aws_region self' = aws_region self
  /\ create_image_repository self' = create_image_repository self.
Proof.
  revert Hreturns.
  rewrite (bootstrap_deployed_eq w confirm self body output Hmissing Hproceed Hread Hstack).
  rewrite bootstrap_capture_eq. cbv zeta.
  destruct (output !! "PipelineUserSecretKey") as [sm_id|]; [|cbn; intros _; repeat split].
  destruct (str_truthy sm_id); [|cbn; intros _; repeat split].
  destruct (fst (_get_pipeline_user_secret_pair w sm_id (aws_profile self) (aws_region self)));
    cbn; [intros _; repeat split | discriminate].
Qed.

Lemma secret_pair_secrets_events (w : World) (sm_id : string)
    (profile region : option string) :
  secrets_events (snd (_get_pipeline_user_secret_pair w sm_id profile region))
  = snd (_get_pipeline_user_secret_pair w sm_id profile region).
Proof.
  pose proof (secret_pair_trace w sm_id profile region) as H. cbv zeta in H.
  destruct (boto3_client w profile _ "secretsmanager"); rewrite H; reflexivity.
Qed.

(** C6, as amended.  After the provisioning backend has answered with
    [output]: when [output] holds a non-empty value [sm_id] under
    [PipelineUserSecretKey], the secrets backend is reached by one call of
    [_get_pipeline_user_secret_pair] for [sm_id] (one client, at most
    one request), and when that call returns a pair, the request was made
    once, the pair is stored on the pipeline user and [bootstrap] returns
    [True]; when the key is absent, or its value is empty, the secrets
    backend is not reached and the credential pair is what it was. *)
Theorem bootstrap_secret_lookup (w : World) (confirm : bool) (self : Environment)
    (body : string) (output : StackOutput)
    (Hmissing : did_user_provide_all_required_resources self = false)
    (Hproceed : proceeds w confirm)
    (Hread : open_read w (template_path w) = Ok body)
    (Hstack : manage_stack w (bootstrap_stack_args self body) = Ok output) :
  (forall sm_id : string,
      output !! "PipelineUserSecretKey" = Some sm_id -> sm_id <> "" ->
      let lookup :=
        _get_pipeline_user_secret_pair w sm_id (aws_profile self) (aws_region self) in
      let region_name := if truthy (aws_region self) then aws_region self else None in
      secrets_events (trace (bootstrap w confirm self)) = snd lookup
      /\ (snd lookup = [EvClient (aws_profile self) region_name "secretsmanager"]
          \/ snd lookup = [EvClient (aws_profile self) region_name "secretsmanager";
                           EvGetSecretValue (aws_profile self) region_name sm_id])
      /\ (forall k s : pyval,
             fst lookup = Ok (k, s) ->
             secret_lookups (trace (bootstrap w confirm self)) = [sm_id]
             /\ outcome (bootstrap w confirm self) = Ok true
             /\ access_key_id (pipeline_user (self_after (bootstrap w confirm self)))
                = Some k
             /\ secret_access_key (pipeline_user (self_after (bootstrap w confirm self)))
                = Some s))
  /\ (output !! "PipelineUserSecretKey" = None
      \/ output !! "PipelineUserSecretKey" = Some "" ->
      secrets_events (trace (bootstrap w confirm self)) = []
      /\ outcome (bootstrap w confirm self) = Ok true
      /\ access_key_id (pipeline_user (self_after (bootstrap w confirm self)))
         = access_key_id (pipeline_user self)
      /\ secret_access_key (pipeline_user (self_after (bootstrap w confirm self)))
         = secret_access_key (pipeline_user self)).
Proof.
  rewrite (bootstrap_deployed_eq w confirm self body output Hmissing Hproceed Hread Hstack).
  rewrite bootstrap_capture_eq. cbv zeta. split.
  - intros sm_id Hkey Hne. rewrite Hkey.
    apply str_truthy_true_iff in Hne. rewrite Hne.
    pose proof (secret_pair_trace w sm_id (aws_profile self) (aws_region self)) as Htr.
    pose proof (secret_pair_trace_ok w sm_id (aws_profile self) (aws_region self)) as Hok.
    pose proof (secret_pair_secrets_events w sm_id (aws_profile self) (aws_region self))
      as Hev.
    cbv zeta in Htr.
    destruct (_get_pipeline_user_secret_pair w sm_id (aws_profile self) (aws_region self))
      as [r tr] eqn:Hpair.
    cbn [fst snd] in *. split; [|split].
    + destruct r; unfold trace; cbn [snd];
        rewrite !secrets_events_app, asked_secrets_events; cbn; exact Hev.
    + destruct (boto3_client w (aws_profile self) _ "secretsmanager").
      * left. congruence.
      * right. exact Htr.
    + intros k s ->. specialize (Hok _ eq_refl). subst tr.
      unfold trace, outcome, self_after. cbn [fst snd].
      rewrite !secret_lookups_app, asked_secret_lookups. cbn. auto.
  - intros [Hkey | Hkey]; rewrite Hkey; cbn [str_truthy];
      unfold trace, outcome, self_after; cbn [fst snd];
      rewrite !secrets_events_app, asked_secrets_events; cbn; auto.
Qed.

(** ** [save_config] *)

Lemma puts_app (l1 l2 : list event) : puts (l1 ++ l2) = puts l1 ++ puts l2.
Proof.
  induction l1 as [|ev l1 IH]; simpl; [reflexivity|].
  destruct ev; simpl; rewrite IH; reflexivity.
Qed.

Section Emits.

Variable good : Prop.
Variable self : Environment.

Lemma emits_ret {A : Type} (a : A) : emits_at good self (mret a) [].
Proof. split; reflexivity. Qed.

Lemma emits_bind {A B : Type} (m : M A) (k : A -> M B) (l1 l2 l : list PutArgs) :
  l = l1 ++ l2 ->
  emits_at good self m l1 ->
  (forall a, outcome (m self) = Ok a -> emits_at good self (k a) l2) ->
  emits_at good self (m ≫= k) l.
Proof.
  intros -> [Hself Hm] Hk. unfold emits_at, outcome, self_after, trace in *.
  unfold mbind, M_bind. destruct (m self) as [[[a|e] self1] tr1]; cbn [fst snd] in *.
  - subst self1. specialize (Hk a eq_refl).
    destruct (k a self) as [[r2 self2] tr2]; cbn [fst snd] in *.
    destruct Hk as [-> Hk]. split; [reflexivity|]. rewrite puts_app, Hm.
    destruct r2 as [b|e].
    + rewrite Hk. reflexivity.
    + destruct Hk as [Hbad Hpre]. split; [exact Hbad|]. apply prefix_app, Hpre.
  - split; [exact Hself|]. destruct Hm as [Hbad Hpre]. split; [exact Hbad|].
    apply prefix_app_r, Hpre.
Qed.

Lemma emits_seq {A B : Type} (m : M A) (k : M B) (l1 l2 l : list PutArgs) :
  l = l1 ++ l2 ->
  emits_at good self m l1 ->
  emits_at good self k l2 ->
  emits_at good self (m ≫= fun _ => k) l.
Proof. intros Hl Hm Hk. eapply emits_bind; eauto. Qed.

Lemma emits_get_self {B : Type} (k : Environment -> M B) (l : list PutArgs) :
  emits_at good self (k self) l ->
  emits_at good self (get_self ≫= k) l.
Proof.
  intros Hk. eapply (emits_bind get_self k [] l); [reflexivity| |].
  - split; reflexivity.
  - intros a Ha. cbn in Ha. congruence.
Qed.

Lemma emits_event (ev : event) :
  puts [ev] = [] -> emits_at good self (io (emit ev)) [].
Proof. intros H. split; [reflexivity|]. cbn. exact H. Qed.

Lemma emits_fault (f : option pyexc) :
  (good -> f = None) -> emits_at good self (io (lift_fault f)) [].
Proof.
  intros H. split; [destruct f; reflexivity|].
  destruct f as [e|]; cbn; [|reflexivity].
  split; [|apply prefix_nil]. intros Hg. specialize (H Hg). discriminate.
Qed.

Lemma emits_put (w : World) (a : PutArgs) :
  (good -> SamConfig_put w a = None) ->
  emits_at good self (io (call_put w a)) [a].
Proof.
  intros H. unfold emits_at, call_put, outcome, self_after, trace.
  unfold_monads. cbn. destruct (SamConfig_put w a) as [e|]; cbn.
  - split; [reflexivity|]. split; [|reflexivity].
    intros Hg. specialize (H Hg). discriminate.
  - split; reflexivity.
Qed.

Lemma emits_put_if (w : World) (cmd_names : list string) (key : string)
    (value env : option string) :
  (good -> forall a, SamConfig_put w a = None) ->
  emits_at good self
    (match value with
     | Some v =>
         if str_truthy v then
           io (call_put w {| put_cmd_names := cmd_names; put_section := "parameters";
                             put_key := key; put_value := v; put_env := env |})
         else mret tt
     | None => mret tt
     end)
    (put_if cmd_names key value env).
Proof.
  intros H. unfold put_if. destruct value as [v|]; [|apply emits_ret].
  destruct (str_truthy v); [|apply emits_ret].
  apply emits_put. intros Hg. apply H, Hg.
Qed.

(** [try: v = f() except ValueError: v = ""], then the rest with [v]. *)
Lemma emits_try_derived {B : Type} (r : result (option string))
    (k : option string -> M B) (l : list PutArgs) :
  (good -> does_not_escape r) ->
  emits_at good self (k (derived_value r)) l ->
  emits_at good self
    (try_except (io (lift r)) isinstance_ValueError (mret (Some "")) ≫= k) l.
Proof.
  intros Hr Hk. eapply (emits_bind _ k [] l); [reflexivity| |].
  - unfold emits_at, outcome, self_after, trace. unfold_monads. cbn.
    destruct r as [v|e]; cbn; [split; reflexivity|].
    destruct (isinstance_ValueError e) eqn:He; cbn; [split; reflexivity|].
    split; [reflexivity|]. split; [|reflexivity].
    intros Hg. specialize (Hr Hg). cbn in Hr. congruence.
  - intros a Ha. unfold outcome in Ha. unfold_monads. cbn in Ha.
    destruct r as [v|e]; cbn in *; [congruence|].
    destruct (isinstance_ValueError e); cbn in *; congruence.
Qed.

Lemma emits_for_each (w : World) (cmd_names : list string)
    (items : list (string * option string)) :
  (good -> forall a, SamConfig_put w a = None) ->
  emits_at good self
    (for_each (save_config_item w self cmd_names) items)
    (flat_map (fun item => put_if cmd_names (fst item) (snd item) (Some (name self))) items).
Proof.
  intros H. induction items as [|[key value] items IH]; cbn [for_each flat_map].
  - apply emits_ret.
  - eapply emits_seq; [reflexivity| |exact IH].
    unfold save_config_item. cbn [fst snd]. apply emits_put_if, H.
Qed.

End Emits.

(** What [save_config] writes, in every world: the object is left as it
    is; when the method returns, the writes are [expected_puts]; when it
    raises, something interrupted it and the writes are the beginning of
    [expected_puts]. *)
Lemma save_config_emits (w : World) (self : Environment) (config_dir filename : string)
    (cmd_names : list string) :
  emits_at (unhindered w self config_dir filename) self
    (save_config w config_dir filename cmd_names)
    (expected_puts w self cmd_names).
Proof.
  set (good := unhindered w self config_dir filename).
  assert (Hput : good -> forall a, SamConfig_put w a = None).
  { intros (( _ & H & _) & _). exact H. }
  unfold save_config, expected_puts.
  apply emits_get_self.
  eapply emits_seq; [symmetry; apply app_nil_l | apply emits_event; reflexivity |].
  eapply emits_seq; [symmetry; apply app_nil_l | apply emits_fault |].
  { intros ((H & _) & _). exact H. }
  eapply emits_seq; [reflexivity | apply emits_put_if, Hput |].
  apply emits_try_derived. { intros (_ & H & _). exact H. }
  apply emits_try_derived. { intros (_ & _ & H). exact H. }
  eapply emits_seq; [| apply emits_for_each, Hput |]; cycle 1.
  - eapply emits_seq; [symmetry; apply app_nil_l | apply emits_event; reflexivity |].
    apply emits_fault. intros ((_ & _ & H) & _). exact H.
  - cbn [flat_map fst snd]. rewrite !app_nil_r. reflexivity.
Qed.

Lemma save_config_self_after (w : World) (self : Environment) (config_dir filename : string)
    (cmd_names : list string) :
  self_after (save_config w config_dir filename cmd_names self) = self.
Proof. apply (save_config_emits w self config_dir filename cmd_names). Qed.

Lemma save_config_puts_prefix (w : World) (self : Environment)
    (config_dir filename : string) (cmd_names : list string) :
  puts (trace (save_config w config_dir filename cmd_names self))
    `prefix_of` expected_puts w self cmd_names.
Proof.
  destruct (save_config_emits w self config_dir filename cmd_names) as [_ H].
  destruct (outcome (save_config w config_dir filename cmd_names self)).
  - rewrite H. reflexivity.
  - apply H.
Qed.

Lemma save_config_unhindered (w : World) (self : Environment)
    (config_dir filename : string) (cmd_names : list string) :
  unhindered w self config_dir filename ->
  outcome (save_config w config_dir filename cmd_names self) = Ok tt
  /\ puts (trace (save_config w config_dir filename cmd_names self))
     = expected_puts w self cmd_names.
Proof.
  intros Hgood.
  destruct (save_config_emits w self config_dir filename cmd_names) as [_ H].
  destruct (outcome (save_config w config_dir filename cmd_names self)) as [[]|e].
  - split; [reflexivity|exact H].
  - destruct H as [Hbad _]. contradiction.
Qed.

Lemma In_put_if (cmd_names : list string) (key : string) (value env : option string)
    (a : PutArgs) :
  In a (put_if cmd_names key value env) <->
    exists v, value = Some v /\ v <> ""
              /\ a = {| put_cmd_names := cmd_names; put_section := "parameters";
                        put_key := key; put_value := v; put_env := env |}.
Proof.
  unfold put_if. destruct value as [v|].
  - destruct (str_truthy v) eqn:Hv; simpl.
    + apply str_truthy_true_iff in Hv. split.
      * intros [<-|[]]. exists v. auto.
      * intros (v' & Hv' & _ & ->). left. congruence.
    + split; [intros []|]. intros (v' & Hv' & Hne & _).
      apply str_truthy_true_iff in Hne. congruence.
  - simpl. split; [intros []|]. intros (v' & Hv' & _). discriminate.
Qed.

Lemma derived_value_non_empty (r : result (option string)) (v : string) :
  v <> "" -> (derived_value r = Some v <-> r = Ok (Some v)).
Proof.
  intros Hne. destruct r as [o|e]; simpl.
  - split; congruence.
  - split; [congruence|discriminate].
Qed.

Lemma derived_value_raises (r : result (option string)) :
  raises_ValueError r -> derived_value r = Some "".
Proof. intros (e & -> & _). reflexivity. Qed.

Lemma raises_ValueError_does_not_escape (r : result (option string)) :
  raises_ValueError r -> does_not_escape r.
Proof. intros (e & -> & He). exact He. Qed.

(** The pairs among [expected_puts], one by one. *)
Lemma In_expected_puts (w : World) (self : Environment) (cmd_names : list string)
    (a : PutArgs) :
  In a (expected_puts w self cmd_names) <->
    exists (key v : string) (env : option string),
      a = {| put_cmd_names := cmd_names; put_section := "parameters";
             put_key := key; put_value := v; put_env := env |}
      /\ v <> ""
      /\ ((key = PIPELINE_USER
           /\ arn (iam_resource (pipeline_user self)) = Some v /\ env = None)
          \/ (key = PIPELINE_EXECUTION_ROLE
              /\ arn (pipeline_execution_role self) = Some v /\ env = Some (name self))
          \/ (key = CLOUDFORMATION_EXECUTION_ROLE
              /\ arn (cloudformation_execution_role self) = Some v
              /\ env = Some (name self))
          \/ (key = ARTIFACTS_BUCKET
              /\ Resource_name w (artifacts_bucket self) = Ok (Some v)
              /\ env = Some (name self))
          \/ (key = ECR_IMAGE_REPOSITORY
              /\ ECRImageRepository_get_uri w (image_repository self) = Ok (Some v)
              /\ env = Some (name self))
          \/ (key = REGION /\ aws_region self = Some v /\ env = Some (name self))).
Proof.
  unfold expected_puts. rewrite !in_app_iff, !In_put_if. split.
  - intros [H|[H|[H|[H|[H|H]]]]]; destruct H as (v & Hv & Hne & ->);
      eexists _, v, _; (split; [reflexivity|]); (split; [exact Hne|]).
    + left. auto.
    + right; left. auto.
    + right; right; left. auto.
    + right; right; right; left. apply derived_value_non_empty in Hv; auto.
    + right; right; right; right; left. apply derived_value_non_empty in Hv; auto.
    + right; right; right; right; right. auto.
  - intros (key & v & env & -> & Hne & H).
    destruct H as [H|[H|[H|[H|[H|H]]]]]; destruct H as (-> & Hv & ->).
    + left. exists v. auto.
    + right; left. exists v. auto.
    + right; right; left. exists v. auto.
    + right; right; right; left. exists v. rewrite derived_value_non_empty; auto.
    + right; right; right; right; left. exists v. rewrite derived_value_non_empty; auto.
    + right; right; right; right; right. exists v. auto.
Qed.

Lemma In_save_config_puts (w : World) (self : Environment) (config_dir filename : string)
    (cmd_names : list string) (a : PutArgs) :
  In a (puts (trace (save_config w config_dir filename cmd_names self))) ->
  In a (expected_puts w self cmd_names).
Proof.
  intros Ha.
  destruct (save_config_puts_prefix w self config_dir filename cmd_names) as [rest ->].
  apply in_app_iff. left. exact Ha.
Qed.

(** C8, as amended.  Every pair that [save_config] writes is placed
    under section ["parameters"] at the [cmd_names] path and has a
    non-empty value; the pairs of [pipeline_execution_role],
    [cloudformation_execution_role], [artifacts_bucket],
    [image_repository] and [region] are scoped by the name of the
    environment, and the pair of [pipeline_user] is written without a
    scope.  When nothing interrupts the method, a pair is written for a
    key exactly when its value is non-empty: the identifier for the
    pipeline user and the two roles, the name that [name()] returns for
    the bucket, the URI that [get_uri()] returns for the repository, and
    the region. *)
Theorem save_config_writes (w : World) (self : Environment) (config_dir filename : string)
    (cmd_names : list string) :
  let written := puts (trace (save_config w config_dir filename cmd_names self)) in
  (forall a, In a written ->
     put_section a = "parameters"
     /\ put_cmd_names a = cmd_names
     /\ put_value a <> ""
     /\ (put_key a = PIPELINE_USER /\ put_env a = None
         \/ put_key a <> PIPELINE_USER /\ put_env a = Some (name self)))
  /\ (unhindered w self config_dir filename ->
      forall a, In a written <->
        exists (key v : string) (env : option string),
          a = {| put_cmd_names := cmd_names; put_section := "parameters";
                 put_key := key; put_value := v; put_env := env |}
          /\ v <> ""
          /\ ((key = PIPELINE_USER
               /\ arn (iam_resource (pipeline_user self)) = Some v /\ env = None)
              \/ (key = PIPELINE_EXECUTION_ROLE
                  /\ arn (pipeline_execution_role self) = Some v
                  /\ env = Some (name self))
              \/ (key = CLOUDFORMATION_EXECUTION_ROLE
                  /\ arn (cloudformation_execution_role self) = Some v
                  /\ env = Some (name self))
              \/ (key = ARTIFACTS_BUCKET
                  /\ Resource_name w (artifacts_bucket self) = Ok (Some v)
                  /\ env = Some (name self))
              \/ (key = ECR_IMAGE_REPOSITORY
                  /\ ECRImageRepository_get_uri w (image_repository self) = Ok (Some v)
                  /\ env = Some (name self))
              \/ (key = REGION /\ aws_region self = Some v /\ env = Some (name self)))).
Proof.
  cbv zeta. split.
  - intros a Ha. apply In_save_config_puts, In_expected_puts in Ha.
    destruct Ha as (key & v & env & -> & Hne & H). cbn.
    repeat split; auto.
    destruct H as [H|[H|[H|[H|[H|H]]]]]; destruct H as (-> & _ & ->);
      [left; auto | right; split; [discriminate|reflexivity] ..].
  - intros Hgood a.
    destruct (save_config_unhindered w self config_dir filename cmd_names Hgood)
      as [_ ->].
    apply In_expected_puts.
Qed.

(** C3, as amended.  When [name()] of the artifacts bucket, or
    [get_uri()] of the image repository, fails with a [ValueError],
    [save_config] takes the value to be empty and writes no pair for that
    key: nothing with an empty value is ever written.  The error is not
    what stops the method: when the store accepts every call and the other
    derived value does not fail otherwise, the method returns and has
    written the pairs of all the other keys that have a value. *)
Theorem save_config_skips_invalid_identifier (w : World) (self : Environment)
    (config_dir filename : string) (cmd_names : list string) :
  let written := puts (trace (save_config w config_dir filename cmd_names self)) in
  let n := Some (name self) in
  (forall a, In a written -> put_value a <> "")
  /\ (raises_ValueError (Resource_name w (artifacts_bucket self)) ->
      (forall a, In a written -> put_key a <> ARTIFACTS_BUCKET)
      /\ (store_accepts w config_dir filename ->
          does_not_escape (ECRImageRepository_get_uri w (image_repository self)) ->
          outcome (save_config w config_dir filename cmd_names self) = Ok tt
          /\ written
             = put_if cmd_names PIPELINE_USER (arn (iam_resource (pipeline_user self))) None
               ++ put_if cmd_names PIPELINE_EXECUTION_ROLE
                    (arn (pipeline_execution_role self)) n
               ++ put_if cmd_names CLOUDFORMATION_EXECUTION_ROLE
                    (arn (cloudformation_execution_role self)) n
               ++ put_if cmd_names ECR_IMAGE_REPOSITORY
                    (derived_value (ECRImageRepository_get_uri w (image_repository self))) n
               ++ put_if cmd_names REGION (aws_region self) n))
  /\ (raises_ValueError (ECRImageRepository_get_uri w (image_repository self)) ->
      (forall a, In a written -> put_key a <> ECR_IMAGE_REPOSITORY)
      /\ (store_accepts w config_dir filename ->
          does_not_escape (Resource_name w (artifacts_bucket self)) ->
          outcome (save_config w config_dir filename cmd_names self) = Ok tt
          /\ written
             = put_if cmd_names PIPELINE_USER (arn (iam_resource (pipeline_user self))) None
               ++ put_if cmd_names PIPELINE_EXECUTION_ROLE
                    (arn (pipeline_execution_role self)) n
               ++ put_if cmd_names CLOUDFORMATION_EXECUTION_ROLE
                    (arn (cloudformation_execution_role self)) n
               ++ put_if cmd_names ARTIFACTS_BUCKET
                    (derived_value (Resource_name w (artifacts_bucket self))) n
               ++ put_if cmd_names REGION (aws_region self) n)).
Proof.
  cbv zeta. split; [|split].
  - intros a Ha. apply In_save_config_puts, In_expected_puts in Ha.
    destruct Ha as (key & v & env & -> & Hne & _). exact Hne.
  - intros Hraises. split.
    + intros a Ha Hkey. apply In_save_config_puts, In_expected_puts in Ha.
      destruct Ha as (key & v & env & -> & Hne & H). cbn in Hkey. subst key.
      destruct Hraises as (e & He & _).
      destruct H as [H|[H|[H|[H|[H|H]]]]]; destruct H as (Hk & Hv & _);
        try discriminate Hk. congruence.
    + intros Hstore Hother.
      destruct (save_config_unhindered w self config_dir filename cmd_names) as [Hok ->].
      { split; [exact Hstore|]. split; [|exact Hother].
        apply raises_ValueError_does_not_escape, Hraises. }
      split; [exact Hok|]. unfold expected_puts.
      rewrite (derived_value_raises _ Hraises). reflexivity.
  - intros Hraises. split.
    + intros a Ha Hkey. apply In_save_config_puts, In_expected_puts in Ha.
      destruct Ha as (key & v & env & -> & Hne & H). cbn in Hkey. subst key.
      destruct Hraises as (e & He & _).
      destruct H as [H|[H|[H|[H|[H|H]]]]]; destruct H as (Hk & Hv & _);
        try discriminate Hk. congruence.
    + intros Hstore Hother.
      destruct (save_config_unhindered w self config_dir filename cmd_names) as [Hok ->].
      { split; [exact Hstore|]. split; [exact Hother|].
        apply raises_ValueError_does_not_escape, Hraises. }
      split; [exact Hok|]. unfold expected_puts.
      rewrite (derived_value_raises _ Hraises). reflexivity.
Qed.

(** ** [save_config_safe] *)

(** C9, as amended.  Whenever [save_config] returns, or raises an
    instance of [Exception], [save_config_safe] returns normally, having
    done what [save_config] did; an exception of [save_config] that is
    not an instance of [Exception] is not suppressed: [save_config_safe]
    raises it, having done what [save_config] did. *)
Theorem save_config_safe_suppresses_Exception (w : World) (self : Environment)
    (config_dir filename : string) (cmd_names : list string) :
  ((forall e,
       outcome (save_config w config_dir filename cmd_names self) = Raise e ->
       isinstance_Exception e = true) ->
   save_config_safe w config_dir filename cmd_names self
   = (Ok tt, self, trace (save_config w config_dir filename cmd_names self)))
  /\ (forall e,
        outcome (save_config w config_dir filename cmd_names self) = Raise e ->
        isinstance_Exception e = false ->
        save_config_safe w config_dir filename cmd_names self
        = (Raise e, self, trace (save_config w config_dir filename cmd_names self))).
Proof.
  pose proof (save_config_self_after w self config_dir filename cmd_names) as Hself.
  unfold save_config_safe, try_except, outcome, self_after, trace in *.
  destruct (save_config w config_dir filename cmd_names self) as [[[[]|e] self'] tr];
    cbn [fst snd] in *; subst self'.
  - split; [reflexivity | discriminate].
  - split.
    + intros Hexc. rewrite (Hexc e eq_refl). cbn. rewrite app_nil_r. reflexivity.
    + intros e' [= <-] ->. reflexivity.
Qed.

(** ** The stack name *)

Lemma bootstrap_deploy_stack_names (w : World) (self : Environment) (a : StackArgs) :
  In a (manage_stack_calls (trace (bootstrap_deploy w self))) ->
  exists body, a = bootstrap_stack_args self body.
Proof.
  rewrite bootstrap_deploy_eq.
  destruct (open_read w (template_path w)) as [body|e]; [|intros []].
  destruct (manage_stack w (bootstrap_stack_args self body)) as [output|e].
  - pose proof (bootstrap_capture_manage_stack_calls w output self) as Hc.
    destruct (bootstrap_capture w output self) as [[r self'] tr].
    unfold trace in *. cbn [snd] in *. rewrite manage_stack_calls_app, Hc. cbn.
    intros [<-|[]]. exists body. reflexivity.
  - cbn. intros [<-|[]]. exists body. reflexivity.
Qed.

(** Every call of the provisioning backend that [bootstrap] makes, in
    any world, carries the arguments built from the object as it was. *)
Lemma bootstrap_stack_names (w : World) (confirm : bool) (self : Environment)
    (a : StackArgs) :
  In a (manage_stack_calls (trace (bootstrap w confirm self))) ->
  exists body, a = bootstrap_stack_args self body.
Proof.
  destruct (did_user_provide_all_required_resources self) eqn:Hall.
  - rewrite (bootstrap_complete w confirm self Hall). intros [].
  - rewrite (bootstrap_incomplete w confirm self Hall).
    pose proof (bootstrap_deploy_stack_names w self a) as Hd.
    destruct (bootstrap_deploy w self) as [[r self'] tr]. unfold trace in *.
    cbn [snd] in *.
    destruct confirm; [destruct (click_confirm w proceed_prompt) as [[|]|e]|];
      cbn; try exact Hd; intros [].
Qed.

(** C7. The stack name is the prefix, a hyphen, the sanitized name, a
    hyphen and the suffix, where the sanitized name is the name of the
    environment with every maximal run of characters outside
    [0-9a-zA-Z] replaced by one hyphen: for any decomposition [bs] of the
    name into maximal runs, it is [replace_runs bs].  The name has such a
    decomposition, every call of the provisioning backend by [bootstrap]
    carries this stack name, and the name ["My Env!"] gives
    ["aws-sam-cli-managed-My-Env--pipeline-resources"]. *)
Theorem stack_name_is_sanitized (self : Environment) (bs : list run_block)
    (Hruns : maximal_runs None bs = true)
    (Hname : join_runs bs = name self) :
  _get_stack_name self
  = "aws-sam-cli-managed" +:+ "-" +:+ replace_runs bs +:+ "-" +:+ "pipeline-resources"
  /\ (maximal_runs None (runs_of (name self)) = true
      /\ join_runs (runs_of (name self)) = name self)
  /\ (forall (w : World) (confirm : bool) (a : StackArgs),
        In a (manage_stack_calls (trace (bootstrap w confirm self))) ->
        stack_name a = _get_stack_name self)
  /\ (name self = "My Env!" ->
      _get_stack_name self = "aws-sam-cli-managed-My-Env--pipeline-resources").
Proof.
  split; [|split; [|split]].
  - unfold _get_stack_name. rewrite <- Hname.
    rewrite (re_sub_replace_runs None bs Hruns). reflexivity.
  - split; [apply runs_of_maximal | apply runs_of_join].
  - intros w confirm a Ha. apply bootstrap_stack_names in Ha as [body ->]. reflexivity.
  - intros Hn. unfold _get_stack_name. rewrite Hn. reflexivity.
Qed.

(** ** The properties at sample inputs *)

Example spec_name_my_bucket :
  spec_name (Resource_init (Some "arn:aws:s3:::my-bucket") "Artifact bucket")
  = Ok (Some "my-bucket").
Proof. reflexivity. Qed.

Example spec_name_empty :
  spec_name (Resource_init (Some "") "Artifact bucket") = Raise (InvalidIdentifierError "").
Proof. reflexivity. Qed.

Example spec_get_uri_my_repo :
  spec_get_uri
    (Resource_init (Some "arn:aws:ecr:us-east-1:123456789012:repository/my-repo")
       "ECR image repository")
  = Ok (Some "123456789012.dkr.ecr.us-east-1.amazonaws.com/my-repo").
Proof. reflexivity. Qed.

Example env_prod_complete : did_user_provide_all_required_resources env_prod = true.
Proof. reflexivity. Qed.

Example env_beta_incomplete : did_user_provide_all_required_resources env_beta = false.
Proof. reflexivity. Qed.

Example bootstrap_beta :
  outcome (bootstrap (sample_world (Ok true) (Ok sample_output) None) true env_beta)
  = Ok true.
Proof. vm_compute. reflexivity. Qed.

Example save_config_prod :
  puts (trace (save_config (sample_world (Ok true) (Ok sample_output) None)
                 ".aws-sam" "pipelineconfig.toml" ["pipeline"; "bootstrap"] env_prod))
  = [ mkPutArgs ["pipeline"; "bootstrap"] "parameters" "pipeline_user"
        "arn:aws:iam::123456789012:user/pipeline" None;
      mkPutArgs ["pipeline"; "bootstrap"] "parameters" "pipeline_execution_role"
        "arn:aws:iam::123456789012:role/pipeline" (Some "Prod");
      mkPutArgs ["pipeline"; "bootstrap"] "parameters" "cloudformation_execution_role"
        "arn:aws:iam::123456789012:role/cfn" (Some "Prod");
      mkPutArgs ["pipeline"; "bootstrap"] "parameters" "artifacts_bucket"
        "artifacts" (Some "Prod");
      mkPutArgs ["pipeline"; "bootstrap"] "parameters" "image_repository"
        "123456789012.dkr.ecr.us-east-1.amazonaws.com/my-repo" (Some "Prod");
      mkPutArgs ["pipeline"; "bootstrap"] "parameters" "region" "us-east-1" (Some "Prod") ].
Proof. reflexivity. Qed.

(** An environment with everything provided: [bootstrap] prints one line
    and returns. *)
Lemma bootstrap_all_provided_is_noop_witness :
  did_user_provide_all_required_resources env_prod = true
  /\ bootstrap (sample_world (Ok true) (Ok sample_output) None) true env_prod
     = (Ok true, env_prod,
        [EvSecho (skipping_creation_text
                    (sample_world (Ok true) (Ok sample_output) None) env_prod)]).
Proof.
  split; [reflexivity|].
  apply (bootstrap_all_provided_is_noop
           (sample_world (Ok true) (Ok sample_output) None) true env_prod).
  reflexivity.
Defined.

(** The user answers no. *)
Lemma bootstrap_declined_is_noop_witness :
  outcome (bootstrap (sample_world (Ok false) (Ok sample_output) None) true env_beta)
  = Ok false
  /\ manage_stack_calls
       (trace (bootstrap (sample_world (Ok false) (Ok sample_output) None) true env_beta))
     = [].
Proof.
  destruct (bootstrap_declined_is_noop
              (sample_world (Ok false) (Ok sample_output) None) env_beta)
    as (Heq & Hcalls & _ & _); [reflexivity | reflexivity |].
  split; [rewrite Heq; reflexivity | exact Hcalls].
Defined.

(** The user answers yes: one call of the backend for the stack of
    [Beta]. *)
Lemma bootstrap_invokes_backend_once_witness :
  exists a : StackArgs,
    manage_stack_calls
      (trace (bootstrap (sample_world (Ok true) (Ok sample_output) None) true env_beta))
    = [a]
    /\ stack_name a = "aws-sam-cli-managed-Beta-pipeline-resources"
    /\ parameter_overrides a !! "PipelineUserArn" = Some ""
    /\ parameter_overrides a !! "CreateImageRepository" = Some "false".
Proof.
  destruct (bootstrap_invokes_backend_once
              (sample_world (Ok true) (Ok sample_output) None) true env_beta "Resources")
    as (a & Hcalls & Hname & _ & _ & _ & Huser & _ & _ & _ & _ & Hflag & _).
  - reflexivity.
  - right. reflexivity.
  - reflexivity.
  - exists a. repeat split; assumption.
Defined.

(** C5, as stated, fails: a resource is missing and the user confirms,
    so that [bootstrap] goes past the confirmation step; the template
    cannot be read, [bootstrap] raises what [open] raised, and the
    provisioning backend was not called. *)
Lemma unreadable_template_no_backend_call :
  let w := with_open_read (sample_world (Ok true) (Ok sample_output) None)
             (Raise FileNotFoundError) in
  did_user_provide_all_required_resources env_beta = false
  /\ proceeds w true
  /\ outcome (bootstrap w true env_beta) = Raise FileNotFoundError
  /\ manage_stack_calls (trace (bootstrap w true env_beta)) = []
  /\ ~ (exists a : StackArgs, manage_stack_calls (trace (bootstrap w true env_beta)) = [a]).
Proof.
  cbv zeta. split; [reflexivity|]. split; [right; reflexivity|].
  split; [vm_compute; reflexivity|]. split; [vm_compute; reflexivity|].
  intros [a Ha]. vm_compute in Ha. discriminate Ha.
Qed.

(** The outputs of the sample stack end on the descriptors; the image
    repository, which the stack did not output, has no identifier. *)
Lemma bootstrap_overwrites_identifiers_witness :
  let self' :=
    self_after (bootstrap (sample_world (Ok true) (Ok sample_output) None) true env_beta) in
  arn (iam_resource (pipeline_user self')) = Some "arn:aws:iam::123456789012:user/pipeline"
  /\ arn (artifacts_bucket self') = Some "arn:aws:s3:::artifacts"
  /\ arn (image_repository self') = None
  /\ name self' = "Beta".
Proof.
  destruct (bootstrap_overwrites_identifiers
              (sample_world (Ok true) (Ok sample_output) None) true env_beta
              "Resources" sample_output true)
    as (Huser & _ & _ & Hbucket & Hrepo & Hname & _).
  - reflexivity.
  - right. reflexivity.
  - reflexivity.
  - reflexivity.
  - vm_compute. reflexivity.
  - cbv zeta. rewrite Huser, Hbucket, Hrepo, Hname. repeat split.
Defined.

(** C10, as stated, fails: the provisioning backend has answered with
    the sample outputs, which hold [PipelineExecutionRole] and
    [ArtifactsBucket]; the secret that they name is not found,
    [bootstrap] raises, and the identifiers of the pipeline execution role
    and of the bucket are still unset. *)
Lemma secret_lookup_failure_keeps_identifiers :
  let w := with_get_secret_value (sample_world (Ok true) (Ok sample_output) None)
             (Raise ResourceNotFoundException) in
  let self' := self_after (bootstrap w true env_beta) in
  manage_stack w (bootstrap_stack_args env_beta "Resources") = Ok sample_output
  /\ sample_output !! "PipelineExecutionRole"
     = Some "arn:aws:iam::123456789012:role/pipeline"
  /\ sample_output !! "ArtifactsBucket" = Some "arn:aws:s3:::artifacts"
  /\ outcome (bootstrap w true env_beta) = Raise ResourceNotFoundException
  /\ arn (pipeline_execution_role self') = None
  /\ arn (artifacts_bucket self') = None
  /\ arn (pipeline_execution_role self') <> sample_output !! "PipelineExecutionRole".
Proof.
  cbv zeta. split; [reflexivity|]. split; [reflexivity|]. split; [reflexivity|].
  split; [vm_compute; reflexivity|]. split; [vm_compute; reflexivity|].
  split; [vm_compute; reflexivity|]. vm_compute. discriminate.
Qed.

(** The sample stack outputs the key of a secret: one request, and the
    pair of the sample secret on the pipeline user. *)
Lemma bootstrap_secret_lookup_witness :
  secret_lookups
    (trace (bootstrap (sample_world (Ok true) (Ok sample_output) None) true env_beta))
  = ["arn:aws:secretsmanager:us-east-1:123456789012:secret:key"]
  /\ access_key_id
       (pipeline_user
          (self_after
             (bootstrap (sample_world (Ok true) (Ok sample_output) None) true env_beta)))
     = Some (VStr "AKIAEXAMPLE").
Proof.
  destruct (bootstrap_secret_lookup
              (sample_world (Ok true) (Ok sample_output) None) true env_beta
              "Resources" sample_output)
    as [Hpresent _].
  - reflexivity.
  - right. reflexivity.
  - reflexivity.
  - reflexivity.
  - destruct (Hpresent "arn:aws:secretsmanager:us-east-1:123456789012:secret:key")
      as (_ & _ & Hstored).
    + reflexivity.
    + discriminate.
    + destruct (Hstored (VStr "AKIAEXAMPLE") (VStr "EXAMPLEKEY")) as (Hl & _ & Hk & _).
      * reflexivity.
      * split; assumption.
Defined.

(** C6, as stated, fails: the outputs hold the key
    [PipelineUserSecretKey], with an empty value, the provisioning call
    succeeded and [bootstrap] returned, and the secrets backend was not
    reached. *)
Lemma secret_key_present_without_lookup :
  let w := sample_world (Ok true) (Ok output_with_empty_secret_key) None in
  manage_stack w (bootstrap_stack_args env_beta "Resources")
  = Ok output_with_empty_secret_key
  /\ is_Some (output_with_empty_secret_key !! "PipelineUserSecretKey")
  /\ outcome (bootstrap w true env_beta) = Ok true
  /\ secrets_events (trace (bootstrap w true env_beta)) = []
  /\ length (secret_lookups (trace (bootstrap w true env_beta))) <> 1.
Proof.
  cbv zeta. split; [reflexivity|]. split; [exists ""; reflexivity|].
  split; [vm_compute; reflexivity|]. split; [vm_compute; reflexivity|].
  vm_compute. discriminate.
Qed.

(** The name ["My Env!"] and its four runs. *)
Lemma stack_name_is_sanitized_witness :
  _get_stack_name env_my_env = "aws-sam-cli-managed-My-Env--pipeline-resources".
Proof.
  destruct (stack_name_is_sanitized env_my_env
              [(true, "My"); (false, " "); (true, "Env"); (false, "!")])
    as (Hname & _); [reflexivity | reflexivity |].
  rewrite Hname. reflexivity.
Defined.

(** A bucket identifier that is not an ARN: no pair for the bucket, the
    other five pairs written. *)
Lemma save_config_skips_invalid_identifier_witness :
  let w := sample_world (Ok true) (Ok sample_output) None in
  let written :=
    puts (trace (save_config w ".aws-sam" "pipelineconfig.toml" ["pipeline"; "bootstrap"]
                   env_bad_bucket)) in
  (forall a, In a written -> put_key a <> ARTIFACTS_BUCKET)
  /\ outcome (save_config w ".aws-sam" "pipelineconfig.toml" ["pipeline"; "bootstrap"]
                env_bad_bucket) = Ok tt.
Proof.
  cbv zeta.
  destruct (save_config_skips_invalid_identifier
              (sample_world (Ok true) (Ok sample_output) None) env_bad_bucket
              ".aws-sam" "pipelineconfig.toml" ["pipeline"; "bootstrap"])
    as (_ & Hbucket & _).
  destruct Hbucket as [Hkey Hrest].
  - exists (InvalidIdentifierError "my-bucket"). split; reflexivity.
  - split; [exact Hkey|]. apply Hrest.
    + repeat split.
    + exact I.
Defined.

(** C3, as stated, fails: [name()] raises a [ValueError] for the bucket
    of this environment, [save_config] returns, and among the pairs it
    wrote there is none for [artifacts_bucket]; no empty string was
    written for that key. *)
Lemma invalid_bucket_writes_no_empty_string :
  let w := sample_world (Ok true) (Ok sample_output) None in
  let written :=
    puts (trace (save_config w ".aws-sam" "pipelineconfig.toml" ["pipeline"; "bootstrap"]
                   env_bad_bucket)) in
  Resource_name w (artifacts_bucket env_bad_bucket)
  = Raise (InvalidIdentifierError "my-bucket")
  /\ isinstance_ValueError (InvalidIdentifierError "my-bucket") = true
  /\ outcome (save_config w ".aws-sam" "pipelineconfig.toml" ["pipeline"; "bootstrap"]
                env_bad_bucket) = Ok tt
  /\ map (fun a => (put_key a, put_value a)) written
     = [ ("pipeline_user", "arn:aws:iam::123456789012:user/pipeline");
         ("pipeline_execution_role", "arn:aws:iam::123456789012:role/pipeline");
         ("cloudformation_execution_role", "arn:aws:iam::123456789012:role/cfn");
         ("image_repository", "123456789012.dkr.ecr.us-east-1.amazonaws.com/my-repo");
         ("region", "us-east-1") ]
  /\ ~ (exists a, In a written /\ put_key a = "artifacts_bucket" /\ put_value a = "").
Proof.
  cbv zeta. repeat split; try reflexivity.
  intros (a & Ha & Hkey & _). vm_compute in Ha.
  repeat (destruct Ha as [<-|Ha]; [discriminate Hkey|]). exact Ha.
Qed.

(** Nothing interrupts the method: the six pairs of [env_prod]. *)
Lemma save_config_writes_witness :
  let w := sample_world (Ok true) (Ok sample_output) None in
  In (mkPutArgs ["pipeline"; "bootstrap"] "parameters" "artifacts_bucket" "artifacts"
        (Some "Prod"))
     (puts (trace (save_config w ".aws-sam" "pipelineconfig.toml" ["pipeline"; "bootstrap"]
                     env_prod))).
Proof.
  cbv zeta.
  destruct (save_config_writes
              (sample_world (Ok true) (Ok sample_output) None) env_prod
              ".aws-sam" "pipelineconfig.toml" ["pipeline"; "bootstrap"])
    as (_ & Hexact).
  apply Hexact.
  - repeat split.
  - exists "artifacts_bucket", "artifacts", (Some "Prod").
    split; [reflexivity|]. split; [discriminate|].
    right; right; right; left. repeat split.
Defined.

(** C8, as stated, fails: the pair of [pipeline_user] is written with no
    scope, not under the name of the environment. *)
Lemma pipeline_user_written_without_scope :
  let w := sample_world (Ok true) (Ok sample_output) None in
  let written :=
    puts (trace (save_config w ".aws-sam" "pipelineconfig.toml" ["pipeline"; "bootstrap"]
                   env_prod)) in
  ~ (forall a, In a written -> put_env a = Some (name env_prod)).
Proof.
  cbv zeta. intros H.
  specialize (H (mkPutArgs ["pipeline"; "bootstrap"] "parameters" "pipeline_user"
                   "arn:aws:iam::123456789012:user/pipeline" None)).
  assert (Hin : put_env
                  (mkPutArgs ["pipeline"; "bootstrap"] "parameters" "pipeline_user"
                     "arn:aws:iam::123456789012:user/pipeline" None)
                = Some (name env_prod)).
  { apply H. vm_compute. left. reflexivity. }
  discriminate Hin.
Qed.

(** The store fails with an [OSError] when it flushes: [save_config]
    raises it, [save_config_safe] returns.  The store is stopped by a
    [SystemExit] when it flushes: [save_config_safe] raises it. *)
Lemma save_config_safe_suppresses_Exception_witness :
  let w := sample_world (Ok true) (Ok sample_output)
             (Some (PyExc KException "OSError" "No space left on device")) in
  let w' := sample_world (Ok true) (Ok sample_output)
              (Some (PyExc KBaseException "SystemExit" "1")) in
  outcome (save_config w ".aws-sam" "pipelineconfig.toml" ["pipeline"; "bootstrap"] env_prod)
  = Raise (PyExc KException "OSError" "No space left on device")
  /\ outcome (save_config_safe w ".aws-sam" "pipelineconfig.toml" ["pipeline"; "bootstrap"]
                env_prod)
     = Ok tt
  /\ outcome (save_config_safe w' ".aws-sam" "pipelineconfig.toml" ["pipeline"; "bootstrap"]
                env_prod)
     = Raise (PyExc KBaseException "SystemExit" "1").
Proof.
  cbv zeta. split; [reflexivity|]. split.
  - destruct (save_config_safe_suppresses_Exception
                (sample_world (Ok true) (Ok sample_output)
                   (Some (PyExc KException "OSError" "No space left on device")))
                env_prod ".aws-sam" "pipelineconfig.toml" ["pipeline"; "bootstrap"])
      as [Hsuppressed _].
    rewrite Hsuppressed; [reflexivity|].
    intros e He. vm_compute in He. injection He as <-. reflexivity.
  - destruct (save_config_safe_suppresses_Exception
                (sample_world (Ok true) (Ok sample_output)
                   (Some (PyExc KBaseException "SystemExit" "1")))
                env_prod ".aws-sam" "pipelineconfig.toml" ["pipeline"; "bootstrap"])
      as [_ Hthrough].
    rewrite (Hthrough (PyExc KBaseException "SystemExit" "1")); reflexivity.
Defined.

(** C9, as stated, fails: the store is interrupted when it flushes,
    [save_config] raises [KeyboardInterrupt], which is not an instance of
    [Exception], and [save_config_safe] raises it too. *)
Lemma save_config_safe_raises_KeyboardInterrupt :
  let w := sample_world (Ok true) (Ok sample_output) (Some KeyboardInterrupt) in
  outcome (save_config w ".aws-sam" "pipelineconfig.toml" ["pipeline"; "bootstrap"] env_prod)
  = Raise KeyboardInterrupt
  /\ outcome (save_config_safe w ".aws-sam" "pipelineconfig.toml" ["pipeline"; "bootstrap"]
                env_prod)
     = Raise KeyboardInterrupt.
Proof. cbv zeta. split; reflexivity. Qed.

(** * Further properties *)

(** ** The sanitized name *)

Lemma re_sub_no_match_head (s : string) :
  no_match_at_head s = true -> no_match_at_head (re_sub_non_alnum s) = true.
Proof.
  destruct s as [|c s]; [reflexivity|]. simpl. intros Hc.
  rewrite re_sub_cons_in by exact Hc. exact Hc.
Qed.

Lemma skip_non_alnum_head (s : string) : no_match_at_head (skip_non_alnum s) = true.
Proof.
  induction s as [|c s IH]; simpl; [reflexivity|].
  destruct (in_class_alnum c) eqn:Hc; [simpl; exact Hc | exact IH].
Qed.

Lemma hyphen_not_alnum : in_class_alnum "-" = false.
Proof. reflexivity. Qed.

Lemma no_double_hyphen_cons_hyphen (s : string) :
  no_match_at_head s = true ->
  no_double_hyphen s = true ->
  no_double_hyphen (String "-" s) = true.
Proof.
  destruct s as [|c s]; [reflexivity|]. simpl. intros Hc H.
  destruct (Ascii.eqb_spec c "-") as [->|Hne]; [discriminate Hc|].
  destruct c as [[] [] [] [] [] [] [] []]; try exact H; congruence.
Qed.

Lemma no_double_hyphen_cons_alnum (c : ascii) (s : string) :
  in_class_alnum c = true ->
  no_double_hyphen (String c s) = no_double_hyphen s.
Proof.
  intros Hc. destruct (Ascii.eqb_spec c "-") as [->|Hne]; [discriminate Hc|].
  destruct c as [[] [] [] [] [] [] [] []]; try reflexivity; congruence.
Qed.

Lemma no_double_hyphen_tail (c : ascii) (s : string) :
  no_double_hyphen (String c s) = true -> no_double_hyphen s = true.
Proof.
  destruct (Ascii.eqb_spec c "-") as [->|Hne].
  - destruct s as [|d s]; [reflexivity|]. simpl.
    destruct (Ascii.eqb_spec d "-") as [->|Hd]; [discriminate|].
    destruct d as [[] [] [] [] [] [] [] []]; try (intros H; exact H); congruence.
  - destruct c as [[] [] [] [] [] [] [] []]; try (intros H; exact H); congruence.
Qed.

Lemma no_double_hyphen_after_hyphen (s : string) :
  alnum_or_hyphen s = true ->
  no_double_hyphen (String "-" s) = true ->
  no_match_at_head s = true.
Proof.
  destruct s as [|c s]; [reflexivity|]. simpl. intros Hc.
  apply andb_true_iff in Hc as [Hc _]. apply orb_true_iff in Hc as [Hc|Hc]; [auto|].
  apply Ascii.eqb_eq in Hc. subst c. discriminate.
Qed.

(** The sanitized name, whatever the name: only characters of
    [0-9a-zA-Z] and hyphens, and never two hyphens in a row. *)
Lemma re_sub_shape (s : string) :
  alnum_or_hyphen (re_sub_non_alnum s) = true
  /\ no_double_hyphen (re_sub_non_alnum s) = true.
Proof.
  funelim (re_sub_non_alnum s).
  - split; reflexivity.
  - destruct H as [Ha Hd]. split.
    + simpl. rewrite Heq, Ha. reflexivity.
    + rewrite no_double_hyphen_cons_alnum by exact Heq. exact Hd.
  - destruct H as [Ha Hd]. split.
    + simpl. exact Ha.
    + apply no_double_hyphen_cons_hyphen; [|exact Hd].
      apply re_sub_no_match_head, skip_non_alnum_head.
Qed.

(** A string of characters of [0-9a-zA-Z] and single hyphens is left as
    it is. *)
Lemma re_sub_fixed (s : string) :
  alnum_or_hyphen s = true -> no_double_hyphen s = true -> re_sub_non_alnum s = s.
Proof.
  induction s as [|c s IH]; [reflexivity|]. intros Ha Hd.
  pose proof (no_double_hyphen_tail c s Hd) as Hd'.
  simpl in Ha. apply andb_true_iff in Ha as [Hc Ha].
  destruct (in_class_alnum c) eqn:Hin.
  - rewrite re_sub_cons_in by exact Hin. rewrite IH by assumption. reflexivity.
  - simpl in Hc. apply Ascii.eqb_eq in Hc. subst c.
    rewrite re_sub_cons_out by exact Hin.
    rewrite skip_non_alnum_no_match
      by (apply no_double_hyphen_after_hyphen; assumption).
    rewrite IH by assumption. reflexivity.
Qed.

(** X1. The sanitized name holds only characters of [0-9a-zA-Z] and
    hyphens, never two hyphens in a row; the names that the substitution
    leaves as they are are exactly the strings of this shape; and the
    substitution applied twice is the substitution applied once. *)
Theorem re_sub_non_alnum_normal_form (s : string) :
  alnum_or_hyphen (re_sub_non_alnum s) = true
  /\ no_double_hyphen (re_sub_non_alnum s) = true
  /\ (re_sub_non_alnum s = s <-> alnum_or_hyphen s = true /\ no_double_hyphen s = true)
  /\ re_sub_non_alnum (re_sub_non_alnum s) = re_sub_non_alnum s.
Proof.
  pose proof (re_sub_shape s) as [Ha Hd].
  split; [exact Ha|]. split; [exact Hd|]. split.
  - split.
    + intros Heq. rewrite <- Heq. split; assumption.
    + intros [Ha' Hd']. apply re_sub_fixed; assumption.
  - apply re_sub_fixed; assumption.
Qed.

Lemma alnum_of_skip (s : string) : alnum_of (skip_non_alnum s) = alnum_of s.
Proof.
  induction s as [|c s IH]; simpl; [reflexivity|].
  destruct (in_class_alnum c) eqn:Hc; [simpl; rewrite Hc; reflexivity | exact IH].
Qed.

Lemma skip_non_alnum_length (s : string) :
  String.length (skip_non_alnum s) <= String.length s.
Proof.
  induction s as [|c s IH]; simpl; [lia|].
  destruct (in_class_alnum c); simpl; lia.
Qed.

(** X2. The substitution keeps the characters of [0-9a-zA-Z] of the
    name, all of them and in their order, and the sanitized name is never
    longer than the name. *)
Theorem re_sub_non_alnum_keeps_alnum (s : string) :
  alnum_of (re_sub_non_alnum s) = alnum_of s
  /\ String.length (re_sub_non_alnum s) <= String.length s.
Proof.
  funelim (re_sub_non_alnum s).
  - split; [reflexivity | simpl; lia].
  - destruct H as [Ha Hl]. split.
    + simpl. rewrite Heq, Ha. reflexivity.
    + simpl. lia.
  - destruct H as [Ha Hl]. split.
    + simpl. rewrite Heq, Ha. apply alnum_of_skip.
    + pose proof (skip_non_alnum_length s'). simpl. lia.
Qed.

Lemma append_length (s t : string) :
  String.length (s +:+ t) = String.length s + String.length t.
Proof. induction s as [|c s IH]; [reflexivity|]. rewrite append_cons. simpl. lia. Qed.

Lemma append_inj_l (p s t : string) : p +:+ s = p +:+ t -> s = t.
Proof.
  induction p as [|c p IH]; [rewrite !append_empty; auto|].
  rewrite !append_cons. intros [= H]. auto.
Qed.

Lemma append_inj_r (s t q : string) : s +:+ q = t +:+ q -> s = t.
Proof.
  revert t. induction s as [|c s IH]; intros [|d t] H.
  - reflexivity.
  - apply (f_equal String.length) in H. rewrite append_empty, append_length in H.
    simpl in H. lia.
  - apply (f_equal String.length) in H. rewrite append_empty, append_length in H.
    simpl in H. lia.
  - rewrite !append_cons in H. injection H as -> H. f_equal. apply IH, H.
Qed.

(** X3. Two environments are given the same stack exactly when their
    names have the same sanitized form; so an environment and the one
    named by its sanitized name share a stack. *)
Theorem stack_name_collisions (self other : Environment) :
  (_get_stack_name self = _get_stack_name other <->
     re_sub_non_alnum (name self) = re_sub_non_alnum (name other))
  /\ (name other = re_sub_non_alnum (name self) ->
      _get_stack_name other = _get_stack_name self).
Proof.
  assert (Hiff : _get_stack_name self = _get_stack_name other <->
                 re_sub_non_alnum (name self) = re_sub_non_alnum (name other)).
  { unfold _get_stack_name. split.
    - intros H. apply append_inj_l, append_inj_l, append_inj_r in H. exact H.
    - intros ->. reflexivity. }
  split; [exact Hiff|].
  intros Hname. symmetry. apply Hiff. rewrite Hname.
  symmetry. apply re_sub_fixed; apply re_sub_shape.
Qed.

(** ** More on [bootstrap] *)

Lemma confirm_prompts_app (l1 l2 : list event) :
  confirm_prompts (l1 ++ l2) = confirm_prompts l1 ++ confirm_prompts l2.
Proof.
  induction l1 as [|ev l1 IH]; simpl; [reflexivity|].
  destruct ev; simpl; rewrite IH; reflexivity.
Qed.

Lemma secret_pair_confirm_prompts (w : World) (sm_id : string)
    (profile region : option string) :
  confirm_prompts (snd (_get_pipeline_user_secret_pair w sm_id profile region)) = [].
Proof.
  pose proof (secret_pair_trace w sm_id profile region) as H. cbv zeta in H.
  destruct (boto3_client w profile _ "secretsmanager"); rewrite H; reflexivity.
Qed.

(** What the capture of the outputs does in every world: it never asks,
    it never returns [False], and it leaves everything but the five
    identifiers and the credential pair as it was. *)
Lemma bootstrap_capture_facts (w : World) (output : StackOutput) (self : Environment) :
  confirm_prompts (trace (bootstrap_capture w output self)) = []
  /\ outcome (bootstrap_capture w output self) <> Ok false
  /\ unassigned (self_after (bootstrap_capture w output self)) = unassigned self.
Proof.
  rewrite bootstrap_capture_eq. cbv zeta.
  destruct (output !! "PipelineUserSecretKey") as [sm_id|];
    [|cbn; repeat split; discriminate].
  destruct (str_truthy sm_id); [|cbn; repeat split; discriminate].
  pose proof (secret_pair_confirm_prompts w sm_id (aws_profile self) (aws_region self)) as Hc.
  destruct (_get_pipeline_user_secret_pair w sm_id (aws_profile self) (aws_region self))
    as [[p|e] tr]; cbn in *; repeat split; try exact Hc; discriminate.
Qed.

Lemma bootstrap_deploy_facts (w : World) (self : Environment) :
  confirm_prompts (trace (bootstrap_deploy w self)) = []
  /\ outcome (bootstrap_deploy w self) <> Ok false
  /\ unassigned (self_after (bootstrap_deploy w self)) = unassigned self.
Proof.
  rewrite bootstrap_deploy_eq.
  destruct (open_read w (template_path w)) as [body|e];
    [|cbn; repeat split; discriminate].
  destruct (manage_stack w (bootstrap_stack_args self body)) as [output|e];
    [|cbn; repeat split; discriminate].
  pose proof (bootstrap_capture_facts w output self) as (Hc & Ho & Hu).
  destruct (bootstrap_capture w output self) as [[r self'] tr].
  unfold trace, outcome, self_after in *. cbn [fst snd] in *.
  repeat split; assumption.
Qed.

(** The confirmations that [bootstrap] asks for. *)
Lemma bootstrap_asks (w : World) (confirm : bool) (self : Environment) :
  confirm_prompts (trace (bootstrap w confirm self))
  = (if negb (did_user_provide_all_required_resources self) && confirm
     then [proceed_prompt] else []).
Proof.
  destruct (did_user_provide_all_required_resources self) eqn:Hall.
  - rewrite (bootstrap_complete w confirm self Hall). reflexivity.
  - rewrite (bootstrap_incomplete w confirm self Hall).
    pose proof (bootstrap_deploy_facts w self) as (Hc & _ & _).
    destruct (bootstrap_deploy w self) as [[r self'] tr].
    unfold trace in *. cbn [fst snd] in *.
    destruct confirm; cbn [negb andb];
      [destruct (click_confirm w proceed_prompt) as [[|]|e]|];
      cbn [fst snd]; rewrite ?confirm_prompts_app, ?Hc; reflexivity.
Qed.

(** X4. In every world, [bootstrap] asks for a confirmation exactly when
    a required resource is missing and [confirm_changeset] is set, and
    then once; and it returns [False] exactly when that confirmation is
    declined: otherwise it returns [True] or raises. *)
Theorem bootstrap_confirmation (w : World) (confirm : bool) (self : Environment) :
  confirm_prompts (trace (bootstrap w confirm self))
  = (if negb (did_user_provide_all_required_resources self) && confirm
     then [proceed_prompt] else [])
  /\ (outcome (bootstrap w confirm self) = Ok false <->
        did_user_provide_all_required_resources self = false
        /\ confirm = true
        /\ click_confirm w proceed_prompt = Ok false).
Proof.
  destruct (did_user_provide_all_required_resources self) eqn:Hall.
  - rewrite (bootstrap_complete w confirm self Hall). cbn. split; [reflexivity|].
    split; [discriminate|]. intros (H & _). discriminate.
  - rewrite (bootstrap_incomplete w confirm self Hall).
    pose proof (bootstrap_deploy_facts w self) as (Hc & Ho & _).
    destruct (bootstrap_deploy w self) as [[r self'] tr].
    unfold trace, outcome in *. cbn [fst snd] in *.
    destruct confirm; cbn [negb andb].
    + destruct (click_confirm w proceed_prompt) as [[|]|e]; cbn [fst snd].
      * rewrite confirm_prompts_app, Hc. split; [reflexivity|].
        split; [intros H; contradiction | intros (_ & _ & H); discriminate].
      * split; [reflexivity|]. split; auto.
      * split; [reflexivity|]. split; [discriminate | intros (_ & _ & H); discriminate].
    + cbn [fst snd]. rewrite confirm_prompts_app, Hc. split; [reflexivity|].
      split; [intros H; contradiction | intros (_ & H & _); discriminate].
Qed.

Lemma bootstrap_unassigned (w : World) (confirm : bool) (self : Environment) :
  unassigned (self_after (bootstrap w confirm self)) = unassigned self.
Proof.
  destruct (did_user_provide_all_required_resources self) eqn:Hall.
  - rewrite (bootstrap_complete w confirm self Hall). reflexivity.
  - rewrite (bootstrap_incomplete w confirm self Hall).
    pose proof (bootstrap_deploy_facts w self) as (_ & _ & Hu).
    destruct (bootstrap_deploy w self) as [[r self'] tr].
    unfold self_after in *. cbn [fst snd] in *.
    destruct confirm; [destruct (click_confirm w proceed_prompt) as [[|]|e]|];
      cbn [fst snd]; auto.
Qed.

(** X5. In every world and whatever its outcome, [bootstrap] leaves the
    name, the profile, the region and [create_image_repository] as they
    were, and, for each of the five descriptors, its comment and its flag
    [is_user_provided]: it assigns identifiers and the credential pair
    only. *)
Theorem bootstrap_frame (w : World) (confirm : bool) (self : Environment) :
  name (self_after (bootstrap w confirm self)) = name self
  /\ aws_profile (self_after (bootstrap w confirm self)) = aws_profile self
  /\ aws_region (self_after (bootstrap w confirm self)) = aws_region self
  /\ create_image_repository (self_after (bootstrap w confirm self))
     = create_image_repository self
  /\ map comment (descriptors (self_after (bootstrap w confirm self)))
     = map comment (descriptors self)
  /\ map is_user_provided (descriptors (self_after (bootstrap w confirm self)))
     = map is_user_provided (descriptors self).
Proof.
  pose proof (bootstrap_unassigned w confirm self) as H. unfold unassigned in H.
  repeat split.
  - exact (f_equal (fun t => fst (fst (fst (fst (fst t))))) H).
  - exact (f_equal (fun t => snd (fst (fst (fst (fst t))))) H).
  - exact (f_equal (fun t => snd (fst (fst (fst t)))) H).
  - exact (f_equal (fun t => snd (fst (fst t))) H).
  - exact (f_equal (fun t => snd (fst t)) H).
  - exact (f_equal snd H).
Qed.

(** X6. When the provisioning backend raises, [bootstrap] raises the
    same exception: the backend was called once and not again, the
    secrets backend was not reached and the object is as it was. *)
Theorem bootstrap_provisioning_error (w : World) (confirm : bool) (self : Environment)
    (body : string) (e : pyexc)
    (Hmissing : did_user_provide_all_required_resources self = false)
    (Hproceed : proceeds w confirm)
    (Hread : open_read w (template_path w) = Ok body)
    (Hstack : manage_stack w (bootstrap_stack_args self body) = Raise e) :
  bootstrap w confirm self
  = (Raise e, self,
     asked self confirm
       ++ [EvOpenRead (template_path w); EvManageStack (bootstrap_stack_args self body)]).
Proof.
  rewrite (bootstrap_proceeds_eq w confirm self Hmissing Hproceed).
  rewrite bootstrap_deploy_eq, Hread, Hstack. reflexivity.
Qed.

(** X7. [bootstrap] changes the object and reaches the secrets backend
    only after a call of the provisioning backend that returned: in a run
    in which no call of the provisioning backend returned, because none
    was made (the method skipped, was declined, could not ask or could
    not read its template) or because the one that was made raised, the
    object is as it was and the secrets backend was not reached. *)
Theorem bootstrap_changes_only_after_provisioning (w : World) (confirm : bool)
    (self : Environment)
    (Hnone : forall a, In a (manage_stack_calls (trace (bootstrap w confirm self))) ->
             forall output, manage_stack w a <> Ok output) :
  self_after (bootstrap w confirm self) = self
  /\ secrets_events (trace (bootstrap w confirm self)) = [].
Proof.
  destruct (did_user_provide_all_required_resources self) eqn:Hall.
  { rewrite (bootstrap_complete w confirm self Hall). split; reflexivity. }
  assert (Hdeploy : proceeds w confirm ->
                    self_after (bootstrap_deploy w self) = self
                    /\ secrets_events (trace (bootstrap_deploy w self)) = []).
  { intros Hproceed. rewrite bootstrap_deploy_eq.
    destruct (open_read w (template_path w)) as [body|e] eqn:Hread; [|split; reflexivity].
    destruct (manage_stack w (bootstrap_stack_args self body)) as [output|e] eqn:Hstack;
      [|split; reflexivity].
    exfalso. refine (Hnone (bootstrap_stack_args self body) _ output Hstack).
    rewrite (bootstrap_manage_stack_once w confirm self body Hall Hproceed Hread).
    left. reflexivity. }
  clear Hnone. rewrite (bootstrap_incomplete w confirm self Hall).
  unfold proceeds in Hdeploy.
  destruct confirm.
  - destruct (click_confirm w proceed_prompt) as [[|]|e]; [|split; reflexivity ..].
    destruct Hdeploy as [Hs Ht]; [right; reflexivity|].
    destruct (bootstrap_deploy w self) as [[r self'] tr].
    unfold self_after, trace in *. cbn [fst snd] in *.
    rewrite secrets_events_app, Ht. split; [exact Hs | reflexivity].
  - destruct Hdeploy as [Hs Ht]; [left; reflexivity|].
    destruct (bootstrap_deploy w self) as [[r self'] tr].
    unfold self_after, trace in *. cbn [fst snd] in *.
    rewrite secrets_events_app, Ht. split; [exact Hs | reflexivity].
Qed.

(** X8. When the secret lookup raises after the provisioning backend has
    returned, [bootstrap] raises the same exception and leaves the object
    half updated: the identifier of the pipeline user is the output
    [PipelineUser], while the four other identifiers and the credential
    pair are what they were. *)
Theorem bootstrap_secret_error (w : World) (confirm : bool) (self : Environment)
    (body : string) (output : StackOutput) (sm_id : string) (e : pyexc)
    (Hmissing : did_user_provide_all_required_resources self = false)
    (Hproceed : proceeds w confirm)
    (Hread : open_read w (template_path w) = Ok body)
    (Hstack : manage_stack w (bootstrap_stack_args self body) = Ok output)
    (Hkey : output !! "PipelineUserSecretKey" = Some sm_id)
    (Hne : sm_id <> "")
    (Hlookup : fst (_get_pipeline_user_secret_pair w sm_id (aws_profile self)
                      (aws_region self)) = Raise e) :
  let self' := self_after (bootstrap w confirm self) in
  outcome (bootstrap w confirm self) = Raise e
  /\ arn (iam_resource (pipeline_user self')) = output !! "PipelineUser"
  /\ arn (pipeline_execution_role self') = arn (pipeline_execution_role self)
  /\ arn (cloudformation_execution_role self') = arn (cloudformation_execution_role self)
  /\ arn (artifacts_bucket self') = arn (artifacts_bucket self)
  /\ arn (image_repository self') = arn (image_repository self)
  /\ access_key_id (pipeline_user self') = access_key_id (pipeline_user self)
  /\ secret_access_key (pipeline_user self') = secret_access_key (pipeline_user self).
Proof.
  rewrite (bootstrap_deployed_eq w confirm self body output Hmissing Hproceed Hread Hstack).
  rewrite bootstrap_capture_eq. cbv zeta.
  apply str_truthy_true_iff in Hne. rewrite Hkey, Hne, Hlookup. cbn. repeat split.
Qed.

Lemma announced_comments_flags (self other : Environment) :
  unassigned other = unassigned self ->
  announced_comments other = announced_comments self.
Proof.
  unfold unassigned, announced_comments, descriptors. cbn [map].
  intros [= Hn Hp Hr Hf Hc1 Hc2 Hc3 Hc4 Hc5 Hu1 Hu2 Hu3 Hu4 Hu5].
  rewrite Hf, Hc1, Hc2, Hc3, Hc4, Hc5, Hu1, Hu2, Hu3, Hu4, Hu5. reflexivity.
Qed.

(** A resource that [bootstrap] announces is a resource that is missing
    for the completeness check. *)
Lemma announced_incomplete (self : Environment) :
  announced_comments self <> [] ->
  did_user_provide_all_required_resources self = false.
Proof.
  intros Hann. destruct (did_user_provide_all_required_resources self) eqn:Hall;
    [|reflexivity].
  exfalso. apply Hann. unfold did_user_provide_all_required_resources in Hall.
  rewrite forallb_forall in Hall. unfold announced_comments.
  rewrite (Hall (iam_resource (pipeline_user self))),
    (Hall (pipeline_execution_role self)),
    (Hall (cloudformation_execution_role self)),
    (Hall (artifacts_bucket self)) by (apply In_get_resources; tauto).
  destruct (create_image_repository self) eqn:Hflag;
    [|rewrite orb_true_r; reflexivity].
  rewrite (Hall (image_repository self)); [reflexivity|].
  apply In_get_resources. right; right; right; right. split; [left; exact Hflag|reflexivity].
Qed.

(** X9. A deployment does not make the resources user-provided: when
    [bootstrap] has announced a resource to create, the object it leaves
    is still incomplete, whatever happened.  So a second call, after a
    first call that deployed and returned, does not skip: it asks again
    when it is to confirm, and the answer is read afresh.  When the
    second call too goes past the confirmation step and reads its
    template, the provisioning backend is called a second time, with the
    identifiers that the first call captured; when the second
    confirmation is declined, the backend was called once only and the
    object is as the first call left it. *)
Theorem bootstrap_twice_deploys_twice (w1 w2 : World) (confirm : bool) (self : Environment)
    (body1 : string) (b : bool)
    (Hannounced : announced_comments self <> [])
    (Hproceed : proceeds w1 confirm)
    (Hread : open_read w1 (template_path w1) = Ok body1)
    (Hreturns : outcome (bootstrap w1 confirm self) = Ok b) :
  let self1 := self_after (bootstrap w1 confirm self) in
  did_user_provide_all_required_resources self1 = false
  /\ confirm_prompts (trace (bootstrap_twice w1 w2 confirm self))
     = (if confirm then [proceed_prompt; proceed_prompt] else [])
  /\ (forall body2,
        proceeds w2 confirm ->
        open_read w2 (template_path w2) = Ok body2 ->
        manage_stack_calls (trace (bootstrap_twice w1 w2 confirm self))
        = [ bootstrap_stack_args self body1; bootstrap_stack_args self1 body2 ])
  /\ (confirm = true ->
      click_confirm w2 proceed_prompt = Ok false ->
      outcome (bootstrap_twice w1 w2 confirm self) = Ok false
      /\ self_after (bootstrap_twice w1 w2 confirm self) = self1
      /\ manage_stack_calls (trace (bootstrap_twice w1 w2 confirm self))
         = [ bootstrap_stack_args self body1 ]).
Proof.
  cbv zeta.
  pose proof (announced_incomplete self Hannounced) as Hmissing.
  assert (Hstill :
    did_user_provide_all_required_resources (self_after (bootstrap w1 confirm self)) = false).
  { apply announced_incomplete.
    rewrite (announced_comments_flags self _ (bootstrap_unassigned w1 confirm self)).
    exact Hannounced. }
  split; [exact Hstill|].
  pose proof (bootstrap_manage_stack_once w1 confirm self body1 Hmissing Hproceed Hread)
    as Hfirst.
  pose proof (bootstrap_asks w1 confirm self) as Hasks1.
  pose proof (bootstrap_asks w2 confirm (self_after (bootstrap w1 confirm self))) as Hasks2.
  rewrite Hmissing in Hasks1. rewrite Hstill in Hasks2. cbn [negb andb] in Hasks1, Hasks2.
  pose proof (fun body2 Hp Hr =>
                bootstrap_manage_stack_once w2 confirm _ body2 Hstill Hp Hr) as Hsecond.
  pose proof (bootstrap_incomplete w2 true _ Hstill) as Hdeclined.
  unfold bootstrap_twice, mbind, M_bind.
  unfold outcome, self_after, trace in *.
  destruct (bootstrap w1 confirm self) as [[r1 self1] tr1]. cbn [fst snd] in *. subst r1.
  split; [|split].
  - destruct (bootstrap w2 confirm self1) as [[r2 self2] tr2]. cbn [fst snd] in *.
    rewrite confirm_prompts_app, Hasks1, Hasks2. destruct confirm; reflexivity.
  - intros body2 Hp Hr. specialize (Hsecond body2 Hp Hr).
    destruct (bootstrap w2 confirm self1) as [[r2 self2] tr2]. cbn [fst snd] in *.
    rewrite manage_stack_calls_app, Hfirst, Hsecond. reflexivity.
  - intros -> Hno. rewrite Hdeclined, Hno. cbn [fst snd].
    rewrite manage_stack_calls_app, Hfirst. repeat split.
Qed.

(** ** The announcement and the summary *)

Lemma concat_bullets_empty (l : list string) :
  String.concat LF (map (fun comment => "  - " +:+ comment) l) = "" -> l = [].
Proof.
  destruct l as [|x [|y l]]; [reflexivity| |]; cbn [map String.concat].
  - rewrite append_cons. discriminate.
  - rewrite append_cons. discriminate.
Qed.

Lemma msg_announced (self : Environment) :
  _get_non_user_provided_resources_msg self
  = String.concat LF (map (fun comment => "  - " +:+ comment) (announced_comments self)).
Proof.
  unfold _get_non_user_provided_resources_msg, announced_comments.
  cbn [concat]. rewrite app_nil_r. reflexivity.
Qed.

Lemma complete_nothing_announced (self : Environment) :
  did_user_provide_all_required_resources self = true -> announced_comments self = [].
Proof.
  intros Hall. destruct (announced_comments self) eqn:Hann; [reflexivity|].
  assert (Hne : announced_comments self <> []) by (rewrite Hann; discriminate).
  apply announced_incomplete in Hne. congruence.
Qed.

Lemma announced_created (self : Environment) :
  is_user_provided (image_repository self) = truthy (arn (image_repository self)) ->
  announced_comments self = map comment (created_resources_of self).
Proof.
  intros Hrepo. unfold announced_comments, created_resources_of, _get_resources.
  rewrite Hrepo.
  destruct (is_user_provided (iam_resource (pipeline_user self))) eqn:H1,
    (is_user_provided (pipeline_execution_role self)) eqn:H2,
    (is_user_provided (cloudformation_execution_role self)) eqn:H3,
    (is_user_provided (artifacts_bucket self)) eqn:H4,
    (create_image_repository self) eqn:H5,
    (truthy (arn (image_repository self))) eqn:H6;
    cbn; rewrite ?H1, ?H2, ?H3, ?H4, ?Hrepo; cbn; reflexivity.
Qed.

(** X10. What [bootstrap] announces: the message lists one line per
    missing descriptor, and is empty when every required resource is
    provided.  For an image repository whose flag agrees with its
    identifier, as at construction, the message is empty exactly when
    every required resource is provided, and the descriptors it lists are
    those that [print_resources_summary] reports as created. *)
Theorem announcement_matches_completeness (self : Environment) :
  _get_non_user_provided_resources_msg self
  = String.concat LF (map (fun comment => "  - " +:+ comment) (announced_comments self))
  /\ (did_user_provide_all_required_resources self = true ->
      _get_non_user_provided_resources_msg self = "")
  /\ (is_user_provided (image_repository self) = truthy (arn (image_repository self)) ->
      (_get_non_user_provided_resources_msg self = "" <->
         did_user_provide_all_required_resources self = true)
      /\ announced_comments self = map comment (created_resources_of self)).
Proof.
  split; [apply msg_announced|]. split.
  - intros Hall. rewrite msg_announced, (complete_nothing_announced self Hall). reflexivity.
  - intros Hrepo. split; [|apply announced_created, Hrepo]. split.
    + rewrite msg_announced. intros Hmsg. apply concat_bullets_empty in Hmsg.
      rewrite (announced_created self Hrepo) in Hmsg.
      unfold did_user_provide_all_required_resources, created_resources_of in *.
      apply forallb_forall. intros r Hr.
      destruct (is_user_provided r) eqn:Hp; [reflexivity|]. exfalso.
      assert (Hin : In r (List.filter (fun r => negb (is_user_provided r))
                            (_get_resources self))).
      { apply filter_In. split; [exact Hr|]. rewrite Hp. reflexivity. }
      destruct (List.filter (fun r0 => negb (is_user_provided r0)) (_get_resources self));
        [exact Hin | discriminate Hmsg].
    + intros Hall. rewrite msg_announced, (complete_nothing_announced self Hall).
      reflexivity.
Qed.

Lemma sort_resources_filter (resources provided created : list Resource) :
  sort_resources resources provided created
  = (provided ++ List.filter is_user_provided resources,
     created ++ List.filter (fun r => negb (is_user_provided r)) resources).
Proof.
  revert provided created. induction resources as [|r rest IH]; intros provided created.
  - cbn. rewrite !app_nil_r. reflexivity.
  - cbn [sort_resources List.filter]. destruct (is_user_provided r); cbn [negb];
      rewrite IH, <- app_assoc; reflexivity.
Qed.

Lemma for_each_secho (f : Resource -> string) (l : list Resource) (self : Environment) :
  for_each (fun resource => io (emit (EvSecho (f resource)))) l self
  = (Ok tt, self, map (fun resource => EvSecho (f resource)) l).
Proof.
  induction l as [|r l IH]; [reflexivity|].
  cbn [for_each map]. unfold mbind, M_bind. cbn beta.
  change (io (emit (EvSecho (f r))) self) with (Ok tt, self, [EvSecho (f r)]).
  cbv beta iota. rewrite IH. reflexivity.
Qed.

Section SummaryProperties.

Variable color_green : string -> string.
Variable str_other : pyval -> string.

Lemma print_resources_summary_eq (self : Environment) :
  print_resources_summary color_green str_other self
  = (Ok tt, self, created_lines color_green self ++ credential_lines color_green str_other self).
Proof.
  unfold print_resources_summary, created_lines, credential_lines, created_resources_of.
  unfold mbind at 1. unfold M_bind at 1. unfold get_self. cbv beta iota zeta.
  rewrite sort_resources_filter. cbn [snd app].
  destruct (List.filter (fun r => negb (is_user_provided r)) (_get_resources self))
    as [|r created] eqn:Hcreated.
  - destruct (is_user_provided (iam_resource (pipeline_user self))); reflexivity.
  - unfold mbind at 1. unfold M_bind at 1.
    unfold mbind at 1. unfold M_bind at 1.
    change (io (emit (EvSecho (color_green
                                 "The following resources were created in your account:")))
               self)
      with (Ok tt, self,
            [EvSecho (color_green
                        "The following resources were created in your account:")]).
    cbv beta iota. rewrite for_each_secho.
    destruct (is_user_provided (iam_resource (pipeline_user self))); reflexivity.
Qed.

Lemma created_lines_empty (self : Environment) :
  created_lines color_green self = [] <-> did_user_provide_all_required_resources self = true.
Proof.
  unfold created_lines, created_resources_of, did_user_provide_all_required_resources.
  split.
  - intros H. apply forallb_forall. intros r Hr.
    destruct (is_user_provided r) eqn:Hp; [reflexivity|]. exfalso.
    assert (Hin : In r (List.filter (fun r => negb (is_user_provided r))
                          (_get_resources self))).
    { apply filter_In. split; [exact Hr|]. rewrite Hp. reflexivity. }
    destruct (List.filter (fun r0 => negb (is_user_provided r0)) (_get_resources self));
      [exact Hin | discriminate H].
  - intros H. rewrite forallb_forall in H.
    destruct (List.filter (fun r => negb (is_user_provided r)) (_get_resources self))
      as [|r l] eqn:Hf; [reflexivity|]. exfalso.
    assert (Hin : In r (List.filter (fun r => negb (is_user_provided r))
                          (_get_resources self))) by (rewrite Hf; left; reflexivity).
    apply filter_In in Hin as [Hr Hp]. rewrite (H r Hr) in Hp. discriminate.
Qed.

(** X11. [print_resources_summary] always returns and changes nothing.
    It prints a header and the comment of each descriptor of
    [_get_resources] that is not user-provided, in order, then the
    credential pair when the pipeline user is not user-provided; it
    prints nothing at all exactly when every required resource is
    user-provided. *)
Theorem print_resources_summary_lines (self : Environment) :
  outcome (print_resources_summary color_green str_other self) = Ok tt
  /\ self_after (print_resources_summary color_green str_other self) = self
  /\ trace (print_resources_summary color_green str_other self)
     = created_lines color_green self ++ credential_lines color_green str_other self
  /\ (trace (print_resources_summary color_green str_other self) = [] <->
        did_user_provide_all_required_resources self = true).
Proof.
  rewrite print_resources_summary_eq. cbn. repeat split.
  - intros H. apply app_eq_nil in H as [H _]. apply created_lines_empty, H.
  - intros Hall. rewrite (proj2 (created_lines_empty self) Hall).
    unfold credential_lines. unfold did_user_provide_all_required_resources in Hall.
    rewrite forallb_forall in Hall.
    rewrite (Hall (iam_resource (pipeline_user self)))
      by (apply In_get_resources; tauto).
    reflexivity.
Qed.


End SummaryProperties.

(** ** More on [save_config] *)

Lemma flushes_app (l1 l2 : list event) : flushes (l1 ++ l2) = flushes l1 + flushes l2.
Proof.
  induction l1 as [|ev l1 IH]; simpl; [reflexivity|].
  destruct ev; simpl; rewrite IH; reflexivity.
Qed.

Section Commits.

Variable ff : option pyexc.
Variable self : Environment.

Lemma commits_ret {A : Type} (a : A) : commits_at ff self (mret a) [] false.
Proof. split; [reflexivity|]. cbn. auto. Qed.

Lemma commits_bind {A B : Type} (m : M A) (k : A -> M B) (l1 l2 l : list PutArgs)
    (fl : bool) :
  l = l1 ++ l2 ->
  commits_at ff self m l1 false ->
  (forall a, outcome (m self) = Ok a -> commits_at ff self (k a) l2 fl) ->
  commits_at ff self (m ≫= k) l fl.
Proof.
  intros -> [Hself Hm] Hk. unfold commits_at, outcome, self_after, trace in *.
  unfold mbind, M_bind. destruct (m self) as [[[a|e] self1] tr1]; cbn [fst snd] in *.
  - subst self1. specialize (Hk a eq_refl). destruct Hm as [Hp1 Hf1].
    destruct (k a self) as [[r2 self2] tr2]; cbn [fst snd] in *.
    destruct Hk as [-> Hk]. split; [reflexivity|].
    assert (Hcommitted : committed tr2 l2 -> committed (tr1 ++ tr2) (l1 ++ l2)).
    { intros (tr0 & -> & Hp0 & Hf0). exists (tr1 ++ tr0).
      rewrite app_assoc, puts_app, flushes_app, Hp1, Hp0, Hf1, Hf0. auto. }
    destruct r2 as [b|e].
    + destruct fl.
      * destruct Hk as [Hc Hff]. auto.
      * destruct Hk as [Hp2 Hf2]. rewrite puts_app, flushes_app, Hp1, Hp2, Hf1, Hf2. auto.
    + destruct Hk as [[Hpre Hf2]|(Hfl & Hc & Hff)].
      * left. rewrite puts_app, flushes_app, Hp1, Hf1, Hf2. split; [|reflexivity].
        apply prefix_app, Hpre.
      * right. auto.
  - split; [exact Hself|]. destruct Hm as [[Hpre Hf]|(Hfl & _)]; [|discriminate].
    left. split; [apply prefix_app_r, Hpre | exact Hf].
Qed.

Lemma commits_seq {A B : Type} (m : M A) (k : M B) (l1 l2 l : list PutArgs) (fl : bool) :
  l = l1 ++ l2 ->
  commits_at ff self m l1 false ->
  commits_at ff self k l2 fl ->
  commits_at ff self (m ≫= fun _ => k) l fl.
Proof. intros Hl Hm Hk. eapply commits_bind; eauto. Qed.

Lemma commits_get_self {B : Type} (k : Environment -> M B) (l : list PutArgs) (fl : bool) :
  commits_at ff self (k self) l fl ->
  commits_at ff self (get_self ≫= k) l fl.
Proof.
  intros Hk. eapply (commits_bind get_self k [] l); [reflexivity| |].
  - split; [reflexivity|]. cbn. auto.
  - intros a Ha. cbn in Ha. congruence.
Qed.

Lemma commits_event (ev : event) :
  puts [ev] = [] -> flushes [ev] = 0 -> commits_at ff self (io (emit ev)) [] false.
Proof. intros Hp Hf. split; [reflexivity|]. cbn. auto. Qed.

Lemma commits_fault (f : option pyexc) : commits_at ff self (io (lift_fault f)) [] false.
Proof.
  split; [destruct f; reflexivity|].
  destruct f as [e|]; cbn; [left|]; auto using prefix_nil.
Qed.

Lemma commits_put_if (w : World) (cmd_names : list string) (key : string)
    (value env : option string) :
  commits_at ff self
    (match value with
     | Some v =>
         if str_truthy v then
           io (call_put w {| put_cmd_names := cmd_names; put_section := "parameters";
                             put_key := key; put_value := v; put_env := env |})
         else mret tt
     | None => mret tt
     end)
    (put_if cmd_names key value env) false.
Proof.
  unfold put_if. destruct value as [v|]; [|apply commits_ret].
  destruct (str_truthy v); [|apply commits_ret].
  unfold commits_at, call_put, outcome, self_after, trace. unfold_monads. cbn.
  destruct (SamConfig_put w _) as [e|]; cbn; split; auto.
Qed.

Lemma commits_try_derived {B : Type} (r : result (option string))
    (k : option string -> M B) (l : list PutArgs) (fl : bool) :
  commits_at ff self (k (derived_value r)) l fl ->
  commits_at ff self
    (try_except (io (lift r)) isinstance_ValueError (mret (Some "")) ≫= k) l fl.
Proof.
  intros Hk. eapply (commits_bind _ k [] l); [reflexivity| |].
  - unfold commits_at, outcome, self_after, trace. unfold_monads. cbn.
    destruct r as [v|e]; cbn; [auto|].
    destruct (isinstance_ValueError e) eqn:He; cbn; [auto|].
    split; [reflexivity|]. left. split; reflexivity.
  - intros a Ha. unfold outcome in Ha. unfold_monads. cbn in Ha.
    destruct r as [v|e]; cbn in *; [congruence|].
    destruct (isinstance_ValueError e); cbn in *; congruence.
Qed.

Lemma commits_for_each (w : World) (cmd_names : list string)
    (items : list (string * option string)) :
  commits_at ff self
    (for_each (save_config_item w self cmd_names) items)
    (flat_map (fun item => put_if cmd_names (fst item) (snd item) (Some (name self))) items)
    false.
Proof.
  induction items as [|[key value] items IH]; cbn [for_each flat_map].
  - apply commits_ret.
  - eapply commits_seq; [reflexivity| |exact IH].
    unfold save_config_item. cbn [fst snd]. apply commits_put_if.
Qed.

Lemma commits_flush :
  commits_at ff self (io (emit EvFlush) ≫= fun _ => io (lift_fault ff)) [] true.
Proof.
  assert (Hc : committed [EvFlush] []).
  { exists []. repeat split. }
  unfold commits_at, outcome, self_after, trace. unfold_monads. cbn.
  destruct ff as [e|]; cbn; split; auto.
Qed.

End Commits.

Lemma save_config_commits (w : World) (self : Environment) (config_dir filename : string)
    (cmd_names : list string) :
  commits_at (SamConfig_flush w) self
    (save_config w config_dir filename cmd_names)
    (expected_puts w self cmd_names) true.
Proof.
  unfold save_config, expected_puts.
  apply commits_get_self.
  eapply commits_seq; [symmetry; apply app_nil_l | apply commits_event; reflexivity |].
  eapply commits_seq; [symmetry; apply app_nil_l | apply commits_fault |].
  eapply commits_seq; [reflexivity | apply commits_put_if |].
  apply commits_try_derived. apply commits_try_derived.
  eapply commits_seq; [| apply commits_for_each | apply commits_flush].
  cbn [flat_map fst snd]. rewrite !app_nil_r. reflexivity.
Qed.

(** X13. [save_config] commits last and at most once: in every world,
    either [flush] is not called, and then the method raises, or
    [flush] is called once, as the last call, after every pair of
    [expected_puts] has been written; the method returns exactly when
    [flush] returns, and when an earlier call raises nothing is
    committed. *)
Theorem save_config_commits_last (w : World) (self : Environment)
    (config_dir filename : string) (cmd_names : list string) :
  let x := save_config w config_dir filename cmd_names self in
  (flushes (trace x) = 0 /\ exists e, outcome x = Raise e)
  \/ (committed (trace x) (expected_puts w self cmd_names)
      /\ match SamConfig_flush w with
         | None => outcome x = Ok tt
         | Some e => outcome x = Raise e
         end).
Proof.
  cbv zeta.
  destruct (save_config_commits w self config_dir filename cmd_names) as [_ H].
  destruct (outcome (save_config w config_dir filename cmd_names self)) as [[]|e].
  - right. destruct H as [Hc ->]. auto.
  - destruct H as [[_ Hf]|(_ & Hc & ->)]; [left; eauto | right; auto].
Qed.

(** X14. In every world, [save_config] writes each key at most once, in
    the order [pipeline_user], [pipeline_execution_role],
    [cloudformation_execution_role], [artifacts_bucket],
    [image_repository], [region], and so makes at most six writes. *)
Theorem save_config_writes_each_key_once (w : World) (self : Environment)
    (config_dir filename : string) (cmd_names : list string) :
  let keys :=
    map put_key (puts (trace (save_config w config_dir filename cmd_names self))) in
  NoDup keys
  /\ keys `sublist_of` [PIPELINE_USER; PIPELINE_EXECUTION_ROLE; CLOUDFORMATION_EXECUTION_ROLE;
                        ARTIFACTS_BUCKET; ECR_IMAGE_REPOSITORY; REGION]
  /\ length keys <= 6.
Proof.
  cbv zeta.
  destruct (save_config_puts_prefix w self config_dir filename cmd_names) as [rest Hrest].
  assert (Hsub : map put_key (expected_puts w self cmd_names)
                 `sublist_of` [PIPELINE_USER; PIPELINE_EXECUTION_ROLE;
                               CLOUDFORMATION_EXECUTION_ROLE; ARTIFACTS_BUCKET;
                               ECR_IMAGE_REPOSITORY; REGION]).
  { unfold expected_puts. rewrite !map_app.
    change [PIPELINE_USER; PIPELINE_EXECUTION_ROLE; CLOUDFORMATION_EXECUTION_ROLE;
            ARTIFACTS_BUCKET; ECR_IMAGE_REPOSITORY; REGION]
      with ([PIPELINE_USER] ++ [PIPELINE_EXECUTION_ROLE] ++ [CLOUDFORMATION_EXECUTION_ROLE]
              ++ [ARTIFACTS_BUCKET] ++ [ECR_IMAGE_REPOSITORY] ++ [REGION]).
    assert (Hone : forall key value env,
               map put_key (put_if cmd_names key value env) `sublist_of` [key]).
    { intros key value env. unfold put_if. destruct value as [v|]; [|apply sublist_nil_l].
      destruct (str_truthy v); [reflexivity | apply sublist_nil_l]. }
    repeat (apply sublist_app; [apply Hone|]). apply Hone. }
  assert (Hpre : map put_key (puts (trace (save_config w config_dir filename cmd_names self)))
                 `sublist_of` map put_key (expected_puts w self cmd_names)).
  { rewrite Hrest, map_app. apply sublist_inserts_r. reflexivity. }
  split; [|split].
  - eapply sublist_NoDup; [|etransitivity; eassumption].
    repeat (apply NoDup_cons_2; [rewrite ?elem_of_cons, elem_of_nil;
                                 intuition discriminate |]).
    apply NoDup_nil_2.
  - etransitivity; eassumption.
  - apply sublist_length in Hpre. apply sublist_length in Hsub. cbn in Hsub. lia.
Qed.

(** X15. [save_config_safe] does to the outside exactly what
    [save_config] does, in every world, and neither changes the object:
    the wrapper only decides whether the exception goes on. *)
Theorem save_config_safe_same_effects (w : World) (self : Environment)
    (config_dir filename : string) (cmd_names : list string) :
  trace (save_config_safe w config_dir filename cmd_names self)
  = trace (save_config w config_dir filename cmd_names self)
  /\ self_after (save_config_safe w config_dir filename cmd_names self) = self
  /\ self_after (save_config w config_dir filename cmd_names self) = self
  /\ (outcome (save_config_safe w config_dir filename cmd_names self) = Ok tt
      \/ outcome (save_config_safe w config_dir filename cmd_names self)
         = outcome (save_config w config_dir filename cmd_names self)).
Proof.
  pose proof (save_config_self_after w self config_dir filename cmd_names) as Hself.
  unfold save_config_safe, try_except, outcome, self_after, trace in *.
  destruct (save_config w config_dir filename cmd_names self) as [[[[]|e] self'] tr];
    cbn [fst snd] in *; subst self'.
  - auto.
  - destruct (isinstance_Exception e); cbn; rewrite ?app_nil_r; auto.
Qed.



(** ** The guided context *)

Module GuidedProperties.
Import Guided.

Lemma str_nat_parse (n : nat) :
  NilEmpty.uint_of_string (str_nat n) = Some (Nat.to_uint n).
Proof. apply NilEmpty.usu. Qed.

Lemma str_nat_not_empty (n : nat) : str_nat n <> "".
Proof.
  intros H. pose proof (str_nat_parse n) as Hp. rewrite H in Hp. cbn in Hp.
  injection Hp as Hp. pose proof (DecimalNat.Unsigned.of_to n) as Hn.
  rewrite <- Hp in Hn. cbn in Hn. subst n. discriminate Hp.
Qed.

(** [int(str(n))] is [n]. *)
Lemma py_int_str_nat (c : Console) (n : nat) : py_int c (str_nat n) = Ok (Z.of_nat n).
Proof.
  unfold py_int. pose proof (str_nat_not_empty n) as Hne.
  destruct (str_nat n) as [|a s] eqn:Hs; [congruence|].
  rewrite <- Hs, str_nat_parse, DecimalNat.Unsigned.of_to. reflexivity.
Qed.

Lemma str_nat_not_letter (n : nat) (a : ascii) :
  NilEmpty.uint_of_string (String a "") = None -> str_nat n <> String a "".
Proof. intros Ha H. pose proof (str_nat_parse n) as Hp. rewrite H in Hp. congruence. Qed.

Lemma py_index_lookup {A : Type} (l : list A) (i : nat) (x : A) :
  nth_error l i = Some x -> py_index l (Z.of_nat (i + 1) - 1) = Ok x.
Proof.
  intros Hx. unfold py_index.
  assert (Hlt : (i < length l)%nat) by (apply nth_error_Some; congruence).
  replace (Z.of_nat (i + 1) - 1)%Z with (Z.of_nat i) by lia.
  destruct (Z.ltb_spec (Z.of_nat i) 0); [lia|]. cbn [orb].
  destruct (Z.ltb_spec (Z.of_nat i) 0); [lia|].
  destruct (Z.leb_spec (Z.of_nat (length l)) (Z.of_nat i)); [lia|]. cbn [orb].
  rewrite Nat2Z.id, Hx. reflexivity.
Qed.

Lemma In_numbers_from_one (n : nat) (s : string) :
  In s (numbers_from_one n) <-> exists i, (i < n)%nat /\ s = str_nat (i + 1).
Proof.
  unfold numbers_from_one. rewrite in_map_iff. split.
  - intros (i & <- & Hi). apply in_seq in Hi. exists i. split; [lia|reflexivity].
  - intros (i & Hi & ->). exists i. split; [reflexivity|]. apply in_seq. lia.
Qed.

(** What the choices that the two menus offer decode to: a number of
    the account menu to the profile of that position, ["e"] to no
    profile, ["0"] of the summary to zero and a number of the summary to
    the item of that position. *)
Lemma offered_choices_decode (c : Console) :
  (forall answer, In answer (account_choices c) ->
     answer = "q"
     \/ (answer = "e" /\ chosen c answer = Ok None)
     \/ exists i p, nth_error (list_available_profiles c) i = Some p
                    /\ answer = str_nat (i + 1)
                    /\ chosen c answer = Ok (Some p))
  /\ (forall (inputs : list (string * question)) answer,
        In answer ("0" :: numbers_from_one (length inputs)) ->
        (answer = "0" /\ py_int c answer = Ok 0%Z)
        \/ exists i item, nth_error inputs i = Some item
                          /\ answer = str_nat (i + 1)
                          /\ py_int c answer = Ok (Z.of_nat (i + 1))
                          /\ Z.eqb (Z.of_nat (i + 1)) 0 = false
                          /\ py_index inputs (Z.of_nat (i + 1) - 1) = Ok item).
Proof.
  split.
  - intros answer Hin. unfold account_choices in Hin. apply in_app_iff in Hin as [Hin|Hin].
    + right; right. apply In_numbers_from_one in Hin as (i & Hi & ->).
      destruct (nth_error (list_available_profiles c) i) as [p|] eqn:Hp;
        [|apply nth_error_None in Hp; lia].
      exists i, p. split; [exact Hp|]. split; [reflexivity|].
      unfold chosen.
      destruct (String.eqb_spec (str_nat (i + 1)) "e") as [He|_].
      { exfalso. revert He. apply str_nat_not_letter. reflexivity. }
      rewrite py_int_str_nat, (py_index_lookup _ _ _ Hp). reflexivity.
    + destruct Hin as [<-|[<-|[]]]; [left; reflexivity|]. right; left. split; reflexivity.
  - intros inputs answer [<-|Hin]; [left; split; reflexivity|].
    right. apply In_numbers_from_one in Hin as (i & Hi & ->).
    destruct (nth_error inputs i) as [item|] eqn:Hitem;
      [|apply nth_error_None in Hitem; lia].
    exists i, item. split; [exact Hitem|]. split; [reflexivity|].
    split; [apply py_int_str_nat|]. split; [apply Z.eqb_neq; lia|].
    apply py_index_lookup, Hitem.
Qed.


Ltac unfold_G :=
  unfold mbind, mret, G_bind, G_ret, click_prompt, click_confirm, click_echo, click_secho,
    modify_ctx, get_ctx, glift, graise in *.

(** X18. [_prompt_image_repository] always comes back, and touches only
    the repository identifier and [create_image_repository].  When it
    returns, the flag is set exactly when the user said yes and entered
    no identifier, so that the flag and an identifier are never both set;
    when the user says no, the flag is cleared and an identifier entered
    before is kept. *)
Theorem prompt_image_repository_result (c : Console) (st : gstate) :
  exists r st' tr,
    _prompt_image_repository c st = Some (r, st', tr)
    /\ (profile (ctx st') = profile (ctx st)
        /\ environment_name (ctx st') = environment_name (ctx st)
        /\ pipeline_user_arn (ctx st') = pipeline_user_arn (ctx st)
        /\ pipeline_execution_role_arn (ctx st') = pipeline_execution_role_arn (ctx st)
        /\ cloudformation_execution_role_arn (ctx st')
           = cloudformation_execution_role_arn (ctx st)
        /\ artifacts_bucket_arn (ctx st') = artifacts_bucket_arn (ctx st)
        /\ region (ctx st') = region (ctx st))
    /\ (r = Ok tt ->
        (create_image_repository (ctx st') = true ->
         truthy (image_repository_arn (ctx st')) = false)
        /\ (create_image_repository (ctx st') = true <->
              confirm_answer c (asked st) image_question = Ok true
              /\ prompt_answer c (S (asked st)) image_prompt_text (Some "") None = Ok ""))
    /\ (confirm_answer c (asked st) image_question = Ok false ->
        r = Ok tt
        /\ create_image_repository (ctx st') = false
        /\ image_repository_arn (ctx st') = image_repository_arn (ctx st)).
Proof.
  unfold _prompt_image_repository. unfold_G. cbn.
  destruct (confirm_answer c (asked st) image_question) as [[|]|e]; cbn.
  - destruct (prompt_answer c (S (asked st)) image_prompt_text (Some "") None)
      as [v|e]; cbn.
    + eexists _, _, _. split; [reflexivity|]. cbn. split; [repeat split|].
      split; [|discriminate]. intros _. split.
      * destruct v; cbn; [reflexivity | discriminate].
      * split.
        -- destruct v; cbn; [auto | discriminate].
        -- intros [_ [= ->]]. reflexivity.
    + eexists _, _, _. split; [reflexivity|]. cbn. split; [repeat split|].
      split; discriminate.
  - eexists _, _, _. split; [reflexivity|]. cbn. split; [repeat split|].
    split; [|auto]. intros _. split; [discriminate|].
    split; [discriminate | intros [[=] _]].
  - eexists _, _, _. split; [reflexivity|]. cbn. split; [repeat split|].
    split; discriminate.
Qed.


Lemma gfor_each_echo {A : Type} (f : A -> string) (l : list A) (st : gstate) :
  gfor_each (fun x => click_echo (f x)) l st = Some (Ok tt, st, map (fun x => TEcho (f x)) l).
Proof.
  induction l as [|x l IH]; [reflexivity|].
  cbn [gfor_each map]. unfold mbind, G_bind. cbn [click_echo]. rewrite IH. reflexivity.
Qed.

Lemma gfor_each_secho {A : Type} (f : A -> string) (l : list A) (st : gstate) :
  gfor_each (fun x => click_secho (f x)) l st
  = Some (Ok tt, st, map (fun x => TSecho (f x)) l).
Proof.
  induction l as [|x l IH]; [reflexivity|].
  cbn [gfor_each map]. unfold mbind, G_bind. cbn [click_secho]. rewrite IH. reflexivity.
Qed.

Lemma bind_eval {A B : Type} (m : G A) (k : A -> G B) (st st' : gstate) (a : A)
    (tr : list tevent) :
  m st = Some (Ok a, st', tr) -> (m ≫= k) st = prepend tr (k a st').
Proof. intros H. unfold mbind, G_bind, prepend. rewrite H. reflexivity. Qed.

Lemma bind_raise {A B : Type} (m : G A) (k : A -> G B) (st st' : gstate) (e : pyexc)
    (tr : list tevent) :
  m st = Some (Raise e, st', tr) -> (m ≫= k) st = Some (Raise e, st', tr).
Proof. intros H. unfold mbind, G_bind. rewrite H. reflexivity. Qed.

Lemma prepend_prepend {A : Type} (t1 t2 : list tevent)
    (x : option (result A * gstate * list tevent)) :
  prepend t1 (prepend t2 x) = prepend (t1 ++ t2) x.
Proof. destruct x as [[[r st] tr]|]; cbn; [rewrite app_assoc|]; reflexivity. Qed.

Lemma prepend_nil {A : Type} (x : option (result A * gstate * list tevent)) :
  prepend [] x = x.
Proof. destruct x as [[[r st] tr]|]; reflexivity. Qed.

Lemma click_prompt_eval (c : Console) (text : string) (default : option string)
    (choices : option (list string)) (st : gstate) (a : string) :
  prompt_answer c (asked st) text default choices = Ok a ->
  click_prompt c text default choices st
  = Some (Ok a, mkGstate (ctx st) (S (asked st)), [TPrompt text default choices]).
Proof. intros H. unfold click_prompt. rewrite H. reflexivity. Qed.

(** One pass of [_prompt_account_id] for an answer that selects a
    profile. *)
Lemma prompt_account_id_step (c : Console) (fuel : nat) (st : gstate) (answer : string)
    (p : option string) :
  prompt_answer c (asked st) account_prompt_text None (Some (account_choices c)) = Ok answer ->
  answer <> "q" ->
  chosen c answer = Ok p ->
  _prompt_account_id c (S fuel) st
  = let st1 := mkGstate (set_profile p (ctx st)) (S (asked st)) in
    match get_current_account_id c p with
    | Ok account_id =>
        Some (Ok tt, st1,
              account_menu c
                ++ [TEcho (color_green c
                             ("Associated account " +:+ account_id +:+ " with stage "
                                +:+ fstring_opt (environment_name (ctx st)) +:+ "."))])
    | Raise ex =>
        if isinstance_CredentialsError c ex then
          prepend (account_menu c ++ [TEcho (color_red c (exc_msg ex))])
            (_prompt_account_id c fuel st1)
        else Some (Raise ex, st1, account_menu c)
    end.
Proof.
  intros Hanswer Hq Hchosen. cbn [_prompt_account_id]. unfold account_menu.
  erewrite bind_eval by reflexivity.
  erewrite bind_eval by reflexivity.
  destruct (truthy (getenv c (ACCESS_KEY c)) && truthy (getenv c (SECRET_KEY c))).
  all: erewrite bind_eval by reflexivity.
  all: erewrite bind_eval by apply gfor_each_echo.
  all: erewrite bind_eval by reflexivity.
  all: erewrite bind_eval by (apply click_prompt_eval, Hanswer).
  all: rewrite !prepend_prepend.
  all: destruct (String.eqb_spec answer "q") as [->|_]; [contradiction|].
  all: unfold chosen in Hchosen.
  all: destruct (String.eqb answer "e");
    [ injection Hchosen as <-; erewrite bind_eval by reflexivity
    | destruct (py_int c answer) as [i|e1]; [|discriminate];
      destruct (py_index (list_available_profiles c) (i - 1)) as [p0|e2] eqn:Hidx;
      [|discriminate]; injection Hchosen as <-;
      erewrite (bind_eval (_ ≫= _))
        by (erewrite bind_eval by reflexivity; rewrite prepend_nil;
            erewrite bind_eval by (unfold glift; rewrite Hidx; reflexivity);
            rewrite prepend_nil; reflexivity) ].
  all: erewrite bind_eval by reflexivity.
  all: cbn [ctx profile set_profile environment_name].
  all: match goal with
       | |- context [get_current_account_id ?c0 ?q] =>
           destruct (get_current_account_id c0 q) as [account_id|ex]
       end.
  all: try match goal with
       | |- context [isinstance_CredentialsError ?c0 ?ex0] =>
           destruct (isinstance_CredentialsError c0 ex0);
           [erewrite bind_eval by reflexivity|]
       end.
  all: rewrite ?prepend_prepend; cbn [prepend click_echo graise];
    rewrite ?app_nil_r, <- ?app_assoc; reflexivity.
Qed.



(** One pass of [_prompt_account_id] for the answer ["q"]. *)
Lemma prompt_account_id_quit (c : Console) (fuel : nat) (st : gstate) :
  prompt_answer c (asked st) account_prompt_text None (Some (account_choices c)) = Ok "q" ->
  _prompt_account_id c (S fuel) st
  = Some (Raise SystemExit, mkGstate (ctx st) (S (asked st)), account_menu c).
Proof.
  intros Hanswer. cbn [_prompt_account_id]. unfold account_menu.
  erewrite bind_eval by reflexivity.
  erewrite bind_eval by reflexivity.
  destruct (truthy (getenv c (ACCESS_KEY c)) && truthy (getenv c (SECRET_KEY c))).
  all: erewrite bind_eval by reflexivity.
  all: erewrite bind_eval by apply gfor_each_echo.
  all: erewrite bind_eval by reflexivity.
  all: erewrite bind_eval by (apply click_prompt_eval, Hanswer).
  all: rewrite !prepend_prepend.
  all: erewrite bind_raise by reflexivity.
  all: cbn [prepend]; rewrite ?app_nil_r, <- ?app_assoc; reflexivity.
Qed.

(** One pass of the loop of [run], for an answer that [int] reads as
    [n]. *)
Lemma summary_loop_pass (c : Console) (fuel : nat) (st : gstate)
    (inputs : list (string * question)) (answer : string) (n : Z) :
  _get_user_inputs c st = Some (Ok inputs, st, []) ->
  prompt_answer c (asked st) summary_prompt_text (Some "0")
    (Some ("0" :: numbers_from_one (length inputs))) = Ok answer ->
  py_int c answer = Ok n ->
  summary_loop c (S fuel) st
  = let st0 := mkGstate (ctx st) (S (asked st)) in
    if Z.eqb n 0 then Some (Ok tt, st0, summary_menu inputs)
    else
      match py_index inputs (n - 1) with
      | Ok item =>
          prepend (summary_menu inputs)
            ((ask c fuel (snd item) ;; click_echo "" ;; summary_loop c fuel) st0)
      | Raise e => Some (Raise e, st0, summary_menu inputs)
      end.
Proof.
  intros Hinputs Hanswer Hint. cbn [summary_loop]. unfold summary_menu.
  erewrite bind_eval by exact Hinputs.
  erewrite bind_eval by reflexivity.
  erewrite bind_eval by apply gfor_each_secho.
  erewrite bind_eval by (apply click_prompt_eval, Hanswer).
  erewrite bind_eval by (unfold glift; rewrite Hint; reflexivity).
  rewrite !prepend_prepend, app_nil_r. cbv zeta.
  destruct (Z.eqb n 0).
  - cbn [prepend mret G_ret]. rewrite app_nil_r. reflexivity.
  - destruct (py_index inputs (n - 1)) as [item|e].
    + erewrite bind_eval by reflexivity.
      rewrite prepend_prepend, app_nil_r. reflexivity.
    + erewrite bind_raise by reflexivity.
      cbn [prepend]. rewrite app_nil_r. reflexivity.
Qed.

Lemma In_enumerate_from {A : Type} (l : list A) (k i : nat) (x : A) :
  nth_error l i = Some x -> In ((k + i)%nat, x) (enumerate_from k l).
Proof.
  revert k i. induction l as [|y l IH]; intros k [|i] Hx; try discriminate.
  - injection Hx as ->. rewrite Nat.add_0_r. left. reflexivity.
  - right. replace (k + S i)%nat with (S k + i)%nat by lia. apply IH, Hx.
Qed.

(** X17. Every choice that the two menus offer is handled, and selects
    what is displayed under it.  In [_prompt_account_id], ["q"] leaves
    with [SystemExit]; ["e"], which is offered whether or not the
    environment variables are set, selects no profile; a number selects
    the profile listed under that number; with the profile selected, the
    pass goes on to the account lookup.  In the loop of [run], for the
    inputs that [_get_user_inputs] returns, ["0"] ends the loop, and a
    number calls the method of the item listed under that number, prints
    an empty line and starts the next pass.  No offered choice makes
    [int] or the indexing fail. *)
Theorem offered_choices_are_handled (c : Console) (fuel : nat) (st : gstate)
    (answer : string) :
  let st0 := mkGstate (ctx st) (S (asked st)) in
  (prompt_answer c (asked st) account_prompt_text None (Some (account_choices c)) = Ok answer ->
   In answer (account_choices c) ->
   (answer = "q"
    /\ _prompt_account_id c (S fuel) st = Some (Raise SystemExit, st0, account_menu c))
   \/ exists p : option string,
        ((answer = "e" /\ p = None)
         \/ exists i name,
              nth_error (list_available_profiles c) i = Some name
              /\ answer = str_nat (i + 1)
              /\ p = Some name
              /\ In (TEcho ("  " +:+ answer +:+ ". " +:+ name +:+ " (named profile)"))
                    (account_menu c))
        /\ _prompt_account_id c (S fuel) st
           = let st1 := mkGstate (set_profile p (ctx st)) (S (asked st)) in
             match get_current_account_id c p with
             | Ok account_id =>
                 Some (Ok tt, st1,
                       account_menu c
                         ++ [TEcho (color_green c
                                      ("Associated account " +:+ account_id
                                         +:+ " with stage "
                                         +:+ fstring_opt (environment_name (ctx st))
                                         +:+ "."))])
             | Raise ex =>
                 if isinstance_CredentialsError c ex then
                   prepend (account_menu c ++ [TEcho (color_red c (exc_msg ex))])
                     (_prompt_account_id c fuel st1)
                 else Some (Raise ex, st1, account_menu c)
             end)
  /\ (forall inputs : list (string * question),
        _get_user_inputs c st = Some (Ok inputs, st, []) ->
        prompt_answer c (asked st) summary_prompt_text (Some "0")
          (Some ("0" :: numbers_from_one (length inputs))) = Ok answer ->
        In answer ("0" :: numbers_from_one (length inputs)) ->
        (answer = "0" /\ summary_loop c (S fuel) st = Some (Ok tt, st0, summary_menu inputs))
        \/ exists i item,
             nth_error inputs i = Some item
             /\ answer = str_nat (i + 1)
             /\ In (TSecho ("  " +:+ answer +:+ ". " +:+ fst item)) (summary_menu inputs)
             /\ summary_loop c (S fuel) st
                = prepend (summary_menu inputs)
                    ((ask c fuel (snd item) ;; click_echo "" ;; summary_loop c fuel) st0)).
Proof.
  cbv zeta. destruct (offered_choices_decode c) as [Haccount Hsummary]. split.
  - intros Hanswer Hoffered.
    destruct (Haccount answer Hoffered) as [->|[[-> Hchosen]|(i & name & Hname & -> & Hchosen)]].
    + left. split; [reflexivity|]. apply prompt_account_id_quit, Hanswer.
    + right. exists None. split; [left; split; reflexivity|].
      apply (prompt_account_id_step c fuel st "e" None Hanswer); [discriminate | exact Hchosen].
    + right. exists (Some name). split.
      * right. exists i, name. repeat split; try assumption.
        unfold account_menu. apply in_or_app. right. apply in_or_app. right.
        apply in_or_app. left.
        apply (in_map (fun ip => TEcho ("  " +:+ str_nat (fst ip + 1) +:+ ". " +:+ snd ip
                                          +:+ " (named profile)")) _ (i, name)).
        apply (In_enumerate_from _ 0 i name Hname).
      * apply (prompt_account_id_step c fuel st _ _ Hanswer); [|exact Hchosen].
        apply str_nat_not_letter. reflexivity.
  - intros inputs Hinputs Hanswer Hoffered.
    destruct (Hsummary inputs answer Hoffered)
      as [[-> Hint]|(i & item & Hitem & -> & Hint & Hnz & Hidx)].
    + left. split; [reflexivity|].
      rewrite (summary_loop_pass c fuel st inputs "0" 0 Hinputs Hanswer Hint). reflexivity.
    + right. exists i, item. split; [exact Hitem|]. split; [reflexivity|]. split.
      * unfold summary_menu. apply in_or_app. right. apply in_or_app. left.
        apply (in_map (fun it => TSecho ("  " +:+ str_nat (fst it + 1) +:+ ". "
                                           +:+ fst (snd it))) _ (i, item)).
        apply (In_enumerate_from _ 0 i item Hitem).
      * rewrite (summary_loop_pass c fuel st inputs _ _ Hinputs Hanswer Hint).
        cbv zeta. rewrite Hnz, Hidx. reflexivity.
Qed.

Lemma questions_app (l1 l2 : list tevent) : questions (l1 ++ l2) = questions l1 ++ questions l2.
Proof.
  induction l1 as [|ev l1 IH]; simpl; [reflexivity|].
  destruct ev; simpl; rewrite ?IH; reflexivity.
Qed.

Lemma questions_echoes {A : Type} (f : A -> string) (l : list A) :
  questions (map (fun x => TEcho (f x)) l) = [].
Proof. induction l as [|x l IH]; [reflexivity | exact IH]. Qed.

Lemma questions_sechoes {A : Type} (f : A -> string) (l : list A) :
  questions (map (fun x => TSecho (f x)) l) = [].
Proof. induction l as [|x l IH]; [reflexivity | exact IH]. Qed.

Lemma questions_account_menu (c : Console) :
  questions (account_menu c) = [account_prompt_text].
Proof.
  unfold account_menu. rewrite !questions_app, questions_echoes.
  destruct (truthy (getenv c (ACCESS_KEY c)) && truthy (getenv c (SECRET_KEY c)));
    reflexivity.
Qed.

(** X19. [_prompt_account_id] asks again after a credentials error, and
    only then: when the first [n] selections fail with a
    [CredentialsError] and the next one resolves to an account, the
    method, given fuel for [n + 1] passes, returns after [n + 1]
    questions with the profile of the last selection. *)
Theorem prompt_account_id_retries (c : Console) (n : nat) :
  forall (fuel : nat) (st : gstate) (answers : nat -> string)
         (profiles : nat -> option string)
         (Hfuel : (n < fuel)%nat)
         (Hanswers : forall j, (j <= n)%nat ->
            prompt_answer c (asked st + j) account_prompt_text None
              (Some (account_choices c)) = Ok (answers j)
            /\ answers j <> "q"
            /\ chosen c (answers j) = Ok (profiles j))
         (Hfail : forall j, (j < n)%nat ->
            exists ex, get_current_account_id c (profiles j) = Raise ex
                       /\ isinstance_CredentialsError c ex = true)
         (Hlast : exists account_id, get_current_account_id c (profiles n) = Ok account_id),
  exists tr,
    _prompt_account_id c fuel st
    = Some (Ok tt, mkGstate (set_profile (profiles n) (ctx st)) (asked st + n + 1), tr)
    /\ questions tr = repeat account_prompt_text (n + 1).
Proof.
  induction n as [|n IH]; intros fuel st answers profiles Hfuel Hanswers Hfail Hlast.
  - destruct fuel as [|fuel]; [lia|].
    destruct (Hanswers 0%nat) as (Ha & Hq & Hc); [lia|].
    rewrite Nat.add_0_r in Ha. destruct Hlast as [account_id Hid].
    rewrite (prompt_account_id_step c fuel st _ _ Ha Hq Hc). cbv zeta. rewrite Hid.
    replace (asked st + 0 + 1)%nat with (S (asked st)) by lia.
    eexists. split; [reflexivity|].
    rewrite questions_app, questions_account_menu. reflexivity.
  - destruct fuel as [|fuel]; [lia|].
    destruct (Hanswers 0%nat) as (Ha & Hq & Hc); [lia|].
    rewrite Nat.add_0_r in Ha.
    destruct (Hfail 0%nat) as (ex & Hex & Hcred); [lia|].
    rewrite (prompt_account_id_step c fuel st _ _ Ha Hq Hc). cbv zeta.
    rewrite Hex, Hcred.
    destruct (IH fuel (mkGstate (set_profile (profiles 0%nat) (ctx st)) (S (asked st)))
                (fun j => answers (S j)) (fun j => profiles (S j)))
      as (tr & Heq & Hquestions).
    + lia.
    + intros j Hj. cbn [asked].
      replace (S (asked st) + j)%nat with (asked st + S j)%nat by lia.
      apply Hanswers. lia.
    + intros j Hj. apply Hfail. lia.
    + exact Hlast.
    + rewrite Heq. cbn [prepend ctx asked].
      replace (S (asked st) + n + 1)%nat with (asked st + S n + 1)%nat by lia.
      eexists. split; [reflexivity|].
      rewrite !questions_app, questions_account_menu, Hquestions. reflexivity.
Qed.

(** X20. With every value supplied, [run] asks two questions only: when
    the stage name, the region, the four identifiers and the repository
    identifier are given, the account selection resolves and the user
    confirms the summary, [run] returns after the account question and
    the summary question, and changes nothing but the profile. *)
Theorem run_with_everything_supplied (c : Console) (fuel : nat) (st : gstate)
    (answer edit_input : string) (p : option string) (account_id : string)
    (Hfuel : (0 < fuel)%nat)
    (Hname : truthy (environment_name (ctx st)) = true)
    (Hregion : truthy (region (ctx st)) = true)
    (Huser : truthy (pipeline_user_arn (ctx st)) = true)
    (Hrole : truthy (pipeline_execution_role_arn (ctx st)) = true)
    (Hcfn : truthy (cloudformation_execution_role_arn (ctx st)) = true)
    (Hbucket : truthy (artifacts_bucket_arn (ctx st)) = true)
    (Hrepo : truthy (image_repository_arn (ctx st)) = true)
    (Hanswer : prompt_answer c (asked st) account_prompt_text None
                 (Some (account_choices c)) = Ok answer)
    (Hq : answer <> "q")
    (Hchosen : chosen c answer = Ok p)
    (Haccount : get_current_account_id c p = Ok account_id)
    (Hedit : prompt_answer c (S (asked st)) summary_prompt_text (Some "0")
               (Some ("0" :: numbers_from_one 8)) = Ok edit_input)
    (Hzero : py_int c edit_input = Ok 0%Z) :
  exists tr,
    run c fuel st = Some (Ok tt, mkGstate (set_profile p (ctx st)) (S (S (asked st))), tr)
    /\ questions tr = [account_prompt_text; summary_prompt_text].
Proof.
  destruct fuel as [|fuel]; [lia|]. unfold run.
  erewrite bind_eval by reflexivity.
  erewrite bind_eval by reflexivity. rewrite Hname.
  erewrite bind_eval by reflexivity.
  erewrite bind_eval by reflexivity.
  erewrite bind_eval by reflexivity.
  erewrite bind_eval
    by (rewrite (prompt_account_id_step c fuel st _ _ Hanswer Hq Hchosen);
        cbv zeta; rewrite Haccount; reflexivity).
  erewrite bind_eval by reflexivity.
  erewrite bind_eval by reflexivity. cbn [ctx region set_profile]. rewrite Hregion.
  cbn [negb].
  erewrite bind_eval by reflexivity.
  erewrite bind_eval by reflexivity. cbn [ctx pipeline_user_arn set_profile]. rewrite Huser.
  erewrite bind_eval by reflexivity.
  erewrite bind_eval by reflexivity.
  erewrite bind_eval by reflexivity.
  erewrite bind_eval by reflexivity. cbn [ctx pipeline_execution_role_arn set_profile]. rewrite Hrole.
  erewrite bind_eval by reflexivity.
  erewrite bind_eval by reflexivity.
  erewrite bind_eval by reflexivity.
  cbn [ctx cloudformation_execution_role_arn set_profile]. rewrite Hcfn.
  erewrite bind_eval by reflexivity.
  erewrite bind_eval by reflexivity.
  erewrite bind_eval by reflexivity. cbn [ctx artifacts_bucket_arn set_profile]. rewrite Hbucket.
  erewrite bind_eval by reflexivity.
  erewrite bind_eval by reflexivity.
  erewrite bind_eval by reflexivity. cbn [ctx image_repository_arn set_profile]. rewrite Hrepo.
  erewrite bind_eval by reflexivity.
  erewrite bind_eval by reflexivity.
  erewrite bind_eval by reflexivity.
  cbn [summary_loop]. unfold _get_user_inputs.
  erewrite (bind_eval (_ ≫= _))
    by (erewrite bind_eval by reflexivity; cbn [ctx profile set_profile];
        erewrite bind_eval by (unfold glift; rewrite Haccount; reflexivity);
        reflexivity).
  erewrite bind_eval by reflexivity.
  erewrite bind_eval by apply gfor_each_secho.
  erewrite bind_eval by (apply click_prompt_eval; cbn [asked length]; exact Hedit).
  erewrite bind_eval by (unfold glift; rewrite Hzero; reflexivity).
  cbn [Z.eqb]. rewrite !prepend_prepend. cbn [prepend mret G_ret].
  eexists. split; [reflexivity|].
  rewrite !questions_app, questions_account_menu, questions_sechoes. reflexivity.
Qed.

End GuidedProperties.

(** ** The further properties at sample inputs *)

(** The provisioning backend denies the call. *)
Lemma bootstrap_provisioning_error_witness :
  outcome (bootstrap (sample_world (Ok true) (Raise AccessDenied) None) true env_beta)
  = Raise AccessDenied
  /\ self_after (bootstrap (sample_world (Ok true) (Raise AccessDenied) None) true env_beta)
     = env_beta.
Proof.
  rewrite (bootstrap_provisioning_error
             (sample_world (Ok true) (Raise AccessDenied) None) true env_beta
             "Resources" AccessDenied).
  - split; reflexivity.
  - reflexivity.
  - right. reflexivity.
  - reflexivity.
  - reflexivity.
Defined.

(** The user declines, in a world whose provisioning backend would have
    answered; and the user accepts, in a world whose backend denies the
    call. *)
Lemma bootstrap_changes_only_after_provisioning_witness :
  (self_after (bootstrap (sample_world (Ok false) (Ok sample_output) None) true env_beta)
   = env_beta
   /\ secrets_events
        (trace (bootstrap (sample_world (Ok false) (Ok sample_output) None) true env_beta))
      = [])
  /\ (self_after (bootstrap (sample_world (Ok true) (Raise AccessDenied) None) true env_beta)
      = env_beta
      /\ secrets_events
           (trace (bootstrap (sample_world (Ok true) (Raise AccessDenied) None) true env_beta))
         = []).
Proof.
  split.
  - apply (bootstrap_changes_only_after_provisioning
             (sample_world (Ok false) (Ok sample_output) None) true env_beta).
    intros a Hin. vm_compute in Hin. destruct Hin.
  - apply (bootstrap_changes_only_after_provisioning
             (sample_world (Ok true) (Raise AccessDenied) None) true env_beta).
    intros a _ output H. cbn in H. discriminate H.
Defined.

(** The secret that the stack names is not found. *)
Lemma bootstrap_secret_error_witness :
  let w := with_get_secret_value (sample_world (Ok true) (Ok sample_output) None)
             (Raise ResourceNotFoundException) in
  outcome (bootstrap w true env_beta) = Raise ResourceNotFoundException
  /\ arn (iam_resource (pipeline_user (self_after (bootstrap w true env_beta))))
     = Some "arn:aws:iam::123456789012:user/pipeline"
  /\ arn (pipeline_execution_role (self_after (bootstrap w true env_beta))) = None.
Proof.
  cbv zeta.
  destruct (bootstrap_secret_error
              (with_get_secret_value (sample_world (Ok true) (Ok sample_output) None)
                 (Raise ResourceNotFoundException))
              true env_beta "Resources" sample_output
              "arn:aws:secretsmanager:us-east-1:123456789012:secret:key"
              ResourceNotFoundException)
    as (Ho & Hu & Hr & _).
  - reflexivity.
  - right. reflexivity.
  - reflexivity.
  - reflexivity.
  - reflexivity.
  - discriminate.
  - reflexivity.
  - rewrite Ho, Hu, Hr. repeat split.
Defined.

(** [Beta] twice.  The user confirms both times: two calls of the
    backend.  The user confirms, then declines: one call. *)
Lemma bootstrap_twice_deploys_twice_witness :
  length (manage_stack_calls
            (trace (bootstrap_twice (sample_world (Ok true) (Ok sample_output) None)
                      (sample_world (Ok true) (Ok sample_output) None) true env_beta)))
  = 2
  /\ length (manage_stack_calls
               (trace (bootstrap_twice (sample_world (Ok true) (Ok sample_output) None)
                         (sample_world (Ok false) (Ok sample_output) None) true env_beta)))
     = 1.
Proof.
  split.
  - destruct (bootstrap_twice_deploys_twice
                (sample_world (Ok true) (Ok sample_output) None)
                (sample_world (Ok true) (Ok sample_output) None) true env_beta
                "Resources" true)
      as (_ & _ & Hcalls & _).
    + discriminate.
    + right. reflexivity.
    + reflexivity.
    + vm_compute. reflexivity.
    + rewrite (Hcalls "Resources"); [reflexivity | right; reflexivity | reflexivity].
  - destruct (bootstrap_twice_deploys_twice
                (sample_world (Ok true) (Ok sample_output) None)
                (sample_world (Ok false) (Ok sample_output) None) true env_beta
                "Resources" true)
      as (_ & _ & _ & Hdeclined).
    + discriminate.
    + right. reflexivity.
    + reflexivity.
    + vm_compute. reflexivity.
    + destruct Hdeclined as (_ & _ & Hcalls); [reflexivity | reflexivity |].
      rewrite Hcalls. reflexivity.
Defined.



(** The user answers ["2"] to the account question: the second profile
    is selected.  The user answers ["2"] at the summary: the stage name,
    listed second, is asked again, and the next summary is confirmed. *)
Lemma offered_choices_are_handled_witness :
  Guided._prompt_account_id Guided.sample_console 1
    (Guided.mkGstate Guided.sample_context 1)
  = Some (Ok tt,
          Guided.mkGstate (Guided.set_profile (Some "prod") Guided.sample_context) 2,
          Guided.account_menu Guided.sample_console
            ++ [Guided.TEcho "Associated account 123456789012 with stage Beta."])
  /\ option_map fst
       (Guided.summary_loop Guided.editing_console 2
          (Guided.mkGstate (Guided.set_profile (Some "prod") Guided.sample_context) 0))
     = Some (Ok tt,
             Guided.mkGstate
               (Guided.set_environment_name (Some "Gamma")
                  (Guided.set_profile (Some "prod") Guided.sample_context)) 3).
Proof.
  split.
  - destruct (GuidedProperties.offered_choices_are_handled Guided.sample_console 0
                (Guided.mkGstate Guided.sample_context 1) "2") as [Haccount _].
    destruct Haccount as [[Hq _]|(p & Hp & Heq)].
    + reflexivity.
    + vm_compute. tauto.
    + discriminate Hq.
    + rewrite Heq. destruct Hp as [[He _]|(i & name & Hname & Hi & -> & _)];
        [discriminate He|].
      destruct i as [|[|i]]; [vm_compute in Hi; discriminate Hi | | destruct i; discriminate].
      injection Hname as <-. reflexivity.
  - destruct (GuidedProperties.offered_choices_are_handled Guided.editing_console 1
                (Guided.mkGstate (Guided.set_profile (Some "prod") Guided.sample_context) 0)
                "2") as [_ Hsummary].
    edestruct Hsummary as [[Hzero _]|(i & item & Hitem & Hi & _ & Heq)].
    + reflexivity.
    + reflexivity.
    + vm_compute. tauto.
    + discriminate Hzero.
    + rewrite Heq. clear Heq.
      assert (Hone : i = 1%nat).
      { pose proof (GuidedProperties.py_int_str_nat Guided.editing_console (i + 1)) as Hint.
        rewrite <- Hi in Hint. change (Ok 2%Z = Ok (Z.of_nat (i + 1))) in Hint.
        injection Hint as Hint. lia. }
      subst i. injection Hitem as <-. vm_compute. reflexivity.
Defined.

(** The first profile has no credentials, the second has: two
    questions, and the second profile. *)
Lemma prompt_account_id_retries_witness :
  exists tr,
    Guided._prompt_account_id Guided.sample_console 2
      (Guided.mkGstate Guided.sample_context 0)
    = Some (Ok tt,
            Guided.mkGstate (Guided.set_profile (Some "prod") Guided.sample_context) 2,
            tr)
    /\ Guided.questions tr = [Guided.account_prompt_text; Guided.account_prompt_text].
Proof.
  apply (GuidedProperties.prompt_account_id_retries Guided.sample_console 1 2
           (Guided.mkGstate Guided.sample_context 0)
           (fun j => match j with 0 => "1" | _ => "2" end)
           (fun j => match j with 0 => Some "default" | _ => Some "prod" end)).
  - lia.
  - intros [|[|j]] Hj; [| |lia]; repeat split; discriminate.
  - intros [|j] Hj; [|lia]. eexists. split; reflexivity.
  - eexists. reflexivity.
Defined.

(** Everything supplied, the second profile selected, the summary
    confirmed. *)
Lemma run_with_everything_supplied_witness :
  exists tr,
    Guided.run Guided.sample_console 1 (Guided.mkGstate Guided.sample_context 1)
    = Some (Ok tt,
            Guided.mkGstate (Guided.set_profile (Some "prod") Guided.sample_context) 3,
            tr)
    /\ Guided.questions tr = [Guided.account_prompt_text; Guided.summary_prompt_text].
Proof.
  apply (GuidedProperties.run_with_everything_supplied Guided.sample_console 1
           (Guided.mkGstate Guided.sample_context 1) "2" "0" (Some "prod") "123456789012");
    try reflexivity.
  - lia.
  - discriminate.
Defined.
